(** * twitch-webhooks: the webhook manager of [src/webhooks.ts]

    A shallow embedding of [TwitchWebhookManager]: the signature gate
    ([getVerificationMiddleware]), the hub request protocol ([doHubRequest],
    [changeSub]), the caller operations ([subscribeOrGetSubscription],
    [unsubscribe], [resubscribe], [unsubFromAll]) and the GET callback handler
    registered by [addWebhookEndpoints].

    A [string] holds the UTF-8 bytes of a text: a body as it comes off the
    wire, a JavaScript string as its UTF-8 encoding.  Numbers are integers
    ([Z]) or NaN; promises are run to completion in program order, a rejected
    promise being a thrown result. *)

From stdpp Require Import base gmap strings list.
From Stdlib Require Import ZArith String Ascii List Lia Bool.
Import ListNotations.

Local Open Scope string_scope.
Local Open Scope list_scope.
Local Open Scope Z_scope.

(** ** Node's [crypto]: HMAC-SHA256 (FIPS 180-4, RFC 2104) *)

Module Crypto.

Definition bytes := list Z.

Definition bytes_of_string (s : string) : bytes :=
  map (fun c => Z.of_N (N_of_ascii c)) (list_ascii_of_string s).

Definition w32 (x : Z) : Z := Z.land x (Z.ones 32).

Definition rotr (n x : Z) : Z :=
  Z.lor (Z.shiftr x n) (w32 (Z.shiftl x (32 - n))).

Definition xor3 (a b c : Z) : Z := Z.lxor a (Z.lxor b c).

Definition Ch (x y z : Z) : Z := Z.lxor (Z.land x y) (Z.land (Z.lnot x) z).
Definition Maj (x y z : Z) : Z := xor3 (Z.land x y) (Z.land x z) (Z.land y z).
Definition Sigma0 (x : Z) : Z := xor3 (rotr 2 x) (rotr 13 x) (rotr 22 x).
Definition Sigma1 (x : Z) : Z := xor3 (rotr 6 x) (rotr 11 x) (rotr 25 x).
Definition sigma0 (x : Z) : Z := xor3 (rotr 7 x) (rotr 18 x) (Z.shiftr x 3).
Definition sigma1 (x : Z) : Z := xor3 (rotr 17 x) (rotr 19 x) (Z.shiftr x 10).

(** The round constants are the first 32 bits of the fractional parts of
    the cube roots of the first 64 primes; the initial hash value comes the
    same way from the square roots of the first 8. *)
Definition is_prime (n : nat) : bool :=
  forallb (fun d => negb (Nat.eqb (n mod d) 0)) (seq 2 (n - 2)).

Definition primes64 : list Z :=
  Eval vm_compute in map Z.of_nat (List.filter is_prime (seq 2 310)).

Definition icbrt (n : Z) : Z :=
  fold_left (fun r i => let c := r + Z.shiftl 1 (Z.of_nat i) in
                        if c * c * c <=? n then c else r)
            (rev (seq 0 40)) 0.

Definition K256 : list Z :=
  Eval vm_compute in map (fun p => w32 (icbrt (p * 2 ^ 96))) primes64.

Definition H256 : list Z :=
  Eval vm_compute in map (fun p => w32 (Z.sqrt (p * 2 ^ 64))) (firstn 8 primes64).

Definition pad (msg : bytes) : bytes :=
  let len := Z.of_nat (length msg) in
  let zeros := Z.to_nat ((55 - len) mod 64) in
  msg ++ [128] ++ repeat 0 zeros
      ++ map (fun i => Z.land (Z.shiftr (8 * len) (8 * (7 - Z.of_nat i))) 255) (seq 0 8).

Fixpoint words_be (bs : bytes) : list Z :=
  match bs with
  | a :: b :: c :: d :: rest =>
      (Z.shiftl a 24 + Z.shiftl b 16 + Z.shiftl c 8 + d) :: words_be rest
  | _ => []
  end.

(** [schedule n ws]: [ws] holds the words so far, newest first. *)
Fixpoint schedule (n : nat) (ws : list Z) : list Z :=
  match n with
  | O => ws
  | S n' =>
      let w := w32 (sigma1 (nth 1 ws 0) + nth 6 ws 0 + sigma0 (nth 14 ws 0) + nth 15 ws 0) in
      schedule n' (w :: ws)
  end.

Definition round (st : list Z) (kw : Z * Z) : list Z :=
  match st with
  | [a; b; c; d; e; f; g; h] =>
      let t1 := h + Sigma1 e + Ch e f g + fst kw + snd kw in
      let t2 := Sigma0 a + Maj a b c in
      [w32 (t1 + t2); a; b; c; w32 (d + t1); e; f; g]
  | _ => st
  end.

Definition compress (hs : list Z) (block : list Z) : list Z :=
  let ws := rev (schedule 48 (rev block)) in
  let st := fold_left round (combine K256 ws) hs in
  map (fun p => w32 (fst p + snd p)) (combine hs st).

Fixpoint blocks (n : nat) (ws : list Z) : list (list Z) :=
  match n with
  | O => []
  | S n' => match ws with
            | [] => []
            | _ => firstn 16 ws :: blocks n' (skipn 16 ws)
            end
  end.

Definition bytes_of_word (w : Z) : bytes :=
  [Z.land (Z.shiftr w 24) 255; Z.land (Z.shiftr w 16) 255;
   Z.land (Z.shiftr w 8) 255; Z.land w 255].

Definition sha256 (msg : bytes) : bytes :=
  let ws := words_be (pad msg) in
  flat_map bytes_of_word (fold_left compress (blocks (length ws) ws) H256).

Definition hmac_sha256 (key msg : bytes) : bytes :=
  let k := if (64 <? Z.of_nat (length key)) then sha256 key else key in
  let k := k ++ repeat 0 (64 - length k)%nat in
  sha256 (map (Z.lxor 92) k ++ sha256 (map (Z.lxor 54) k ++ msg)).

(** [Buffer.toString('hex')]: two lowercase digits per byte. *)
Definition hex_digit (n : Z) : ascii :=
  nth (Z.to_nat (Z.land n 15)) (list_ascii_of_string "0123456789abcdef") "0"%char.

Fixpoint hex (bs : bytes) : string :=
  match bs with
  | [] => ""
  | b :: rest =>
      String (hex_digit (Z.shiftr b 4)) (String (hex_digit b) (hex rest))
  end.

End Crypto.

(** ** JavaScript values and built-ins used by the manager *)

Module JS.

(** A string is truthy unless it is empty. *)
Definition truthy (s : string) : bool :=
  match s with "" => false | _ => true end.

(** [o] as a condition, for a value that is a string, [undefined] or [null]. *)
Definition truthy_opt (o : option string) : bool :=
  match o with Some s => truthy s | None => false end.

(** [s.split(sep)] for a one-character separator. *)
Fixpoint split (sep : ascii) (s : string) : list string :=
  match s with
  | "" => [""]
  | String c rest =>
      if Ascii.eqb c sep then "" :: split sep rest
      else match split sep rest with
           | hd :: tl => String c hd :: tl
           | [] => [String c ""]
           end
  end.

Fixpoint starts_with (p s : string) : bool :=
  match p, s with
  | "", _ => true
  | String a p', String b s' => Ascii.eqb a b && starts_with p' s'
  | String _ _, "" => false
  end.

(** [s.includes(p)]. *)
Fixpoint includes (s p : string) : bool :=
  starts_with p s ||
  match s with
  | "" => false
  | String _ s' => includes s' p
  end.

Definition lower (c : ascii) : ascii :=
  let n := N_of_ascii c in
  if ((65 <=? n) && (n <=? 90))%N then ascii_of_N (n + 32) else c.

Fixpoint toLowerCase (s : string) : string :=
  match s with
  | "" => ""
  | String c s' => String (lower c) (toLowerCase s')
  end.

(** [a === b] on two strings. *)
Definition strictEquals (a b : string) : bool := String.eqb a b.

(** [a === b] where [b] may be [undefined]. *)
Definition strictEqualsOpt (a : string) (b : option string) : bool :=
  match b with Some b' => strictEquals a b' | None => false end.

(** A cost for [a === b].  The language fixes the result of [===] and says
    nothing of its cost; this is the cost of the plain implementation, an
    assumption about the engine and not a fact of the sources: strings of
    different length differ at once, strings of the same length are scanned
    from the left and the scan stops at the first character that differs.
    The count is the number of characters compared (bytes here; the digests
    compared by the manager are ASCII). *)
Fixpoint scan (a b : string) : nat :=
  match a, b with
  | String x a', String y b' => if Ascii.eqb x y then S (scan a' b') else 1%nat
  | _, _ => 0%nat
  end.

Definition strictEqualsCost (a b : string) : nat :=
  if Nat.eqb (String.length a) (String.length b) then scan a b else 0%nat.

Definition strictEqualsOptCost (a : string) (b : option string) : nat :=
  match b with Some b' => strictEqualsCost a b' | None => 0%nat end.

(** Numbers: an integer or NaN.  The arithmetic below is exact; it agrees
    with IEEE doubles while the values stay within 2^53 in magnitude, which
    covers every valid [Date]. *)
Inductive Num := NaN | Int (z : Z).

Definition mul (a b : Num) : Num :=
  match a, b with Int x, Int y => Int (x * y) | _, _ => NaN end.

Definition add (a b : Num) : Num :=
  match a, b with Int x, Int y => Int (x + y) | _, _ => NaN end.

(** [Date]: a time value in milliseconds, or an invalid date. *)
Inductive Date := InvalidDate | DateAt (ms : Z).

(** [new Date(v)], with the time clip of the language. *)
Definition newDate (v : Num) : Date :=
  match v with
  | NaN => InvalidDate
  | Int t => if Z.abs t <=? 8640000000000000 then DateAt t else InvalidDate
  end.

(** [d.getTime()]. *)
Definition getTime (d : Date) : Num :=
  match d with InvalidDate => NaN | DateAt t => Int t end.

(** The white space of one byte: tab, line feed, vertical tab, form feed,
    carriage return and space. *)
Definition is_space (c : ascii) : bool :=
  let n := N_of_ascii c in
  (((9 <=? n) && (n <=? 13)) || (n =? 32))%N.

(** U+00A0, the no-break space, in UTF-8. *)
Definition is_space2 (a b : ascii) : bool :=
  ((N_of_ascii a =? 194) && (N_of_ascii b =? 160))%N.

(** The white space of three bytes in UTF-8: U+1680, U+2000 to U+200A,
    U+2028, U+2029, U+202F, U+205F, U+3000 and U+FEFF. *)
Definition is_space3 (a b c : ascii) : bool :=
  let x := N_of_ascii a in
  let y := N_of_ascii b in
  let z := N_of_ascii c in
  (((x =? 225) && (y =? 154) && (z =? 128))
   || ((x =? 226) && (y =? 128)
       && (((128 <=? z) && (z <=? 138)) || (z =? 168) || (z =? 169) || (z =? 175)))
   || ((x =? 226) && (y =? 129) && (z =? 159))
   || ((x =? 227) && (y =? 128) && (z =? 128))
   || ((x =? 239) && (y =? 187) && (z =? 191)))%N.

(** The leading white space that [parseInt] skips (StrWhiteSpaceChar of the
    language: WhiteSpace and LineTerminator, the Unicode spaces included). *)
Fixpoint trimStart (s : string) : string :=
  match s with
  | String a s1 =>
      if is_space a then trimStart s1
      else
        match s1 with
        | String b s2 =>
            if is_space2 a b then trimStart s2
            else
              match s2 with
              | String c s3 => if is_space3 a b c then trimStart s3 else s
              | "" => s
              end
        | "" => s
        end
  | "" => ""
  end.

Definition digit_value (c : ascii) : option Z :=
  let n := Z.of_N (N_of_ascii c) in
  if (48 <=? n) && (n <=? 57) then Some (n - 48)
  else if (97 <=? n) && (n <=? 122) then Some (n - 87)
  else if (65 <=? n) && (n <=? 90) then Some (n - 55)
  else None.

(** The longest prefix of digits of radix [r], as a value. *)
Fixpoint digits (r : Z) (s : string) (acc : option Z) : option Z :=
  match s with
  | "" => acc
  | String c s' =>
      match digit_value c with
      | Some d =>
          if d <? r
          then digits r s' (Some (r * (match acc with Some a => a | None => 0 end) + d))
          else acc
      | None => acc
      end
  end.

(** [parseInt(s)] with no radix argument. *)
Definition parseInt (s : string) : Num :=
  let s := trimStart s in
  let '(sign, s) :=
    match s with
    | String "-" s' => (-1, s')
    | String "+" s' => (1, s')
    | _ => (1, s)
    end in
  let '(r, s) :=
    match s with
    | String "0" (String "x" s') => (16, s')
    | String "0" (String "X" s') => (16, s')
    | _ => (10, s)
    end in
  match digits r s None with
  | Some v => Int (sign * v)
  | None => NaN
  end.

End JS.

(** ** [JSON.parse] (ECMA-404 grammar); [None] is a thrown [SyntaxError] *)

Module JSON.

#[local] Unset Elimination Schemes.
Inductive Json :=
| JNull
| JBool (b : bool)
| JNumber (literal : string)
| JString (raw : string)
| JArray (items : list Json)
| JObject (members : list (string * Json)).
#[local] Set Elimination Schemes.

Definition chars := list ascii.

Definition is_ws (c : ascii) : bool :=
  let n := N_of_ascii c in ((n =? 32) || (n =? 9) || (n =? 10) || (n =? 13))%N.

Fixpoint skip_ws (cs : chars) : chars :=
  match cs with
  | c :: r => if is_ws c then skip_ws r else cs
  | [] => []
  end.

Definition is_digit (c : ascii) : bool :=
  let n := N_of_ascii c in ((48 <=? n) && (n <=? 57))%N.

Definition is_hex (c : ascii) : bool :=
  let n := N_of_ascii c in
  (((48 <=? n) && (n <=? 57)) || ((97 <=? n) && (n <=? 102)) || ((65 <=? n) && (n <=? 70)))%N.

Fixpoint take_digits (cs : chars) : chars * chars :=
  match cs with
  | c :: r => if is_digit c then let '(d, r') := take_digits r in (c :: d, r') else ([], cs)
  | [] => ([], [])
  end.

(** The characters of a string literal after its opening quote. *)
Fixpoint string_body (cs : chars) : option (chars * chars) :=
  match cs with
  | [] => None
  | "034"%char :: r => Some ([], r)
  | "\"%char :: e :: r =>
      if existsb (Ascii.eqb e) ("034"%char :: list_ascii_of_string "\/bfnrt")
      then option_map (fun '(s, r') => ("\"%char :: e :: s, r')) (string_body r)
      else if Ascii.eqb e "u"
      then match r with
           | a :: b :: c :: d :: r' =>
               if forallb is_hex [a; b; c; d]
               then option_map (fun '(s, r'') => ("\"%char :: e :: a :: b :: c :: d :: s, r''))
                               (string_body r')
               else None
           | _ => None
           end
      else None
  | c :: r =>
      if (N_of_ascii c <? 32)%N then None
      else option_map (fun '(s, r') => (c :: s, r')) (string_body r)
  end.

Definition number (cs : chars) : option (chars * chars) :=
  let '(sign, cs) := match cs with "-"%char :: r => (["-"%char], r) | _ => ([], cs) end in
  let '(int, cs) := take_digits cs in
  match int with
  | [] => None
  | d :: more =>
      if Ascii.eqb d "0" && negb (Nat.eqb (length more) 0) then None
      else
        let frac :=
          match cs with
          | "."%char :: r =>
              let '(f, r') := take_digits r in
              match f with [] => None | _ => Some ("."%char :: f, r') end
          | _ => Some ([], cs)
          end in
        match frac with
        | None => None
        | Some (f, cs) =>
            match cs with
            | e :: r =>
                if Ascii.eqb e "e" || Ascii.eqb e "E"
                then
                  let '(sg, r) :=
                    match r with
                    | "+"%char :: r' => (["+"%char], r')
                    | "-"%char :: r' => (["-"%char], r')
                    | _ => ([], r)
                    end in
                  let '(x, r') := take_digits r in
                  match x with
                  | [] => None
                  | _ => Some (sign ++ int ++ f ++ [e] ++ sg ++ x, r')
                  end
                else Some (sign ++ int ++ f, cs)
            | [] => Some (sign ++ int ++ f, [])
            end
        end
  end.

Fixpoint expect (lit cs : chars) : option chars :=
  match lit, cs with
  | [], _ => Some cs
  | a :: lit', b :: cs' => if Ascii.eqb a b then expect lit' cs' else None
  | _ :: _, [] => None
  end.

Fixpoint value (fuel : nat) (cs : chars) : option (Json * chars) :=
  match fuel with
  | O => None
  | S f =>
      match skip_ws cs with
      | ("n"%char :: _) as r =>
          option_map (pair JNull) (expect (list_ascii_of_string "null") r)
      | ("t"%char :: _) as r =>
          option_map (pair (JBool true)) (expect (list_ascii_of_string "true") r)
      | ("f"%char :: _) as r =>
          option_map (pair (JBool false)) (expect (list_ascii_of_string "false") r)
      | "034"%char :: r =>
          option_map (fun '(s, r') => (JString (string_of_list_ascii s), r')) (string_body r)
      | "["%char :: r =>
          match skip_ws r with
          | "]"%char :: r' => Some (JArray [], r')
          | r' => elements f r' []
          end
      | "{"%char :: r =>
          match skip_ws r with
          | "}"%char :: r' => Some (JObject [], r')
          | r' => members f r' []
          end
      | r =>
          option_map (fun '(n, r') => (JNumber (string_of_list_ascii n), r')) (number r)
      end
  end
with elements (fuel : nat) (cs : chars) (acc : list Json) : option (Json * chars) :=
  match fuel with
  | O => None
  | S f =>
      match value f cs with
      | Some (v, r) =>
          match skip_ws r with
          | ","%char :: r' => elements f r' (v :: acc)
          | "]"%char :: r' => Some (JArray (rev (v :: acc)), r')
          | _ => None
          end
      | None => None
      end
  end
with members (fuel : nat) (cs : chars) (acc : list (string * Json)) : option (Json * chars) :=
  match fuel with
  | O => None
  | S f =>
      match skip_ws cs with
      | "034"%char :: r =>
          match string_body r with
          | Some (k, r1) =>
              match skip_ws r1 with
              | ":"%char :: r2 =>
                  match value f r2 with
                  | Some (v, r3) =>
                      let acc' := (string_of_list_ascii k, v) :: acc in
                      match skip_ws r3 with
                      | ","%char :: r4 => members f r4 acc'
                      | "}"%char :: r4 => Some (JObject (rev acc'), r4)
                      | _ => None
                      end
                  | None => None
                  end
              | _ => None
              end
          | None => None
          end
      | _ => None
      end
  end.

(** [JSON.parse(text)]. *)
Definition parse (text : string) : option Json :=
  let cs := list_ascii_of_string text in
  match value (2 * length cs + 2) cs with
  | Some (v, r) => match skip_ws r with [] => Some v | _ => None end
  | None => None
  end.

End JSON.

(** The double quote, for building JSON texts. *)
Definition dq : string := String "034"%char "".

(** ** Data model *)

Abbreviation WebhookId := string.

(** The topic types of [./config], as [emitSpecificEvent] lists them. *)
Inductive WebhookType :=
| UserFollows | StreamChanged | UserChanged | ExtensionTransactionCreated
| ModeratorChange | ChannelBanChange | Subscription.

(** The fields of a [WebhookPersistenceObject] that the manager reads or
    writes. *)
Record WebhookPersistenceObject := {
  id : WebhookId;
  type : WebhookType;
  href : string;
  leaseSeconds : Z;
  secret : string;
  subscribed : bool;
  subscriptionStart : option JS.Date;
  subscriptionEnd : option JS.Date
}.

Record HubParams := {
  hub_callback : string;
  hub_mode : string;
  hub_topic : string;
  hub_lease_seconds : Z;
  hub_secret : string
}.

(** One [got.post] to the hub: the bearer token and the JSON body. *)
Record HubPost := { bearer : string; payload : HubParams }.

(** What the hub answers. *)
Record Response := { statusCode : Z; body : string }.

Inductive Error :=
| JsError (message : string)
| SyntaxError (message : string)
| TypeError (message : string)
| HubRequestError (name : string) (resp : Response)
| HTTPError (resp : Response)
| SubscriptionDeniedError (webhook : WebhookPersistenceObject) (reason : string)
| Rejection (message : string).

Inductive Result (A : Type) :=
| Ok (a : A)
| Throw (e : Error).
Arguments Ok {A} a.
Arguments Throw {A} e.

(** A settled [got.post] promise. *)
Inductive Outcome := Resolved (r : Response) | Failed (e : Error).

Inductive Event :=
| EvError (e : Error) (webhookId : option WebhookId)
| EvSubscribed (webhookId : WebhookId)
| EvUnsubscribed (webhookId : WebhookId).

Inductive LogLevel := Debug | Info | LogError.

Inductive StoreOp :=
| Persist (k : WebhookId)
| Save (k : WebhookId)
| Delete (k : WebhookId).

(** The listener [unsubFromAll] registers on ['unsubscribed']: the ids still
    awaited and whether [resolve] has been called. *)
Record Waiter := { webhookIds : list WebhookId; resolved : bool }.

(** An inbound request.  [originalUrl] is carried as the WHATWG parser
    returns it: path name, search string and decoded search parameters; a
    request whose URL the parser refuses ([new URL] throws) has no
    counterpart here.
    [rawBody] holds the bytes of the body that [concat] collects; it is
    empty when the request carries no body. *)
Record URL := { pathname : string; search : string; searchParams : list (string * string) }.

Record Request := {
  method : string;
  headers : list (string * string);
  originalUrl : URL;
  rawBody : string
}.

(** The response object of the framework. *)
Record Res := {
  resStatus : Z;
  resHeaders : list (string * string);
  resBody : option string;
  resEnded : bool
}.

(** ** The manager's surroundings

    Modelled from the spec: [./persistence], [./scheduling], [./errors] and
    [./util] are not part of the sources at hand.  The persistence manager is
    the key-value store of section 4.1 ([getWebhookById], [persistWebhook],
    [saveWebhook], [deleteWebhook], [getAllWebhooks] on a finite map keyed by
    id), the renewal scheduler the set of registered ids of section 4.6, and
    the helper functions are collaborators of [Env]. *)
Record World := {
  (** the persistence manager's records, by id *)
  store : gmap string WebhookPersistenceObject;
  (** the writes made to the persistence manager, oldest first *)
  storeOps : list StoreOp;
  (** [config.renewalScheduler], when one is configured: the ids it holds *)
  renewalScheduler : option (gset string);
  (** the posts made to the hub, oldest first *)
  hubPosts : list HubPost;
  (** the events emitted, oldest first *)
  emitted : list Event;
  (** the calls to [config.logger] *)
  logged : list (LogLevel * string);
  (** how often the clock has been read *)
  clockReads : nat;
  (** ghost: the characters compared so far by the signature check, counted
      as [JS.strictEqualsCost] counts them *)
  compared : nat;
  (** rejections of promises that nobody awaits *)
  unhandled : list Error;
  (** the listeners registered by [unsubFromAll] *)
  waiters : list Waiter
}.

Record Env := {
  WebhookOptions : Type;
  createWebhookPersistenceObject :
    WebhookType -> list (string * string) -> WebhookOptions -> WebhookPersistenceObject;
  getIdFromTypeAndParams : WebhookType -> string -> WebhookId;
  getCallbackUrl : WebhookPersistenceObject -> string;
  createErrorFromResponse : Response -> option Error;
  getOAuthToken : option string -> Result string;
  refreshOAuthToken : string -> Result string;
  (** the hub as seen through [got.post], given the earlier posts: the
      promise resolves with a response or rejects; [Got.post] is what the
      library makes of the answers of a hub *)
  hub : list HubPost -> HubPost -> Outcome;
  (** the n-th reading of the system clock, in milliseconds *)
  clock : nat -> Z;
  (** [new URL(decodeURIComponent(topic)).search]; [None] when it throws *)
  topicSearch : string -> option string
}.

(** ** The HTTP client [got]

    [got] is a dependency ([package.json]: [got ^11.1.4]), not part of the
    sources; this is the library's documented behaviour for the call
    [doHubRequest] makes.  No [throwHttpErrors] option is passed, so its
    default [true] holds: the promise of [got.post] resolves only with a
    successful final response, one with a status in 200..299 or 304, and
    rejects with an [HTTPError] that carries the response for every other
    status.  A failure of the exchange itself (time-out, refused connection)
    rejects as it is.  [retry: 0] rules out retries by the library;
    redirects are followed before the promise settles, so the answer below is
    the final one. *)
Module Got.

Definition isResponseOk (r : Response) : bool :=
  ((200 <=? statusCode r) && (statusCode r <=? 299)) || (statusCode r =? 304).

Definition settle (answer : Outcome) : Outcome :=
  match answer with
  | Resolved r => if isResponseOk r then Resolved r else Failed (HTTPError r)
  | Failed e => Failed e
  end.

(** [got.post] over an exchange that tells, for the earlier posts and the
    present one, what the hub answers or how the exchange fails. *)
Definition post (exchange : list HubPost -> HubPost -> Outcome)
    : list HubPost -> HubPost -> Outcome :=
  fun earlier p => settle (exchange earlier p).

End Got.

(** [E] with another hub behind [got.post]. *)
Definition withHub (h : list HubPost -> HubPost -> Outcome) (E : Env) : Env :=
  {| WebhookOptions := WebhookOptions E;
     createWebhookPersistenceObject := createWebhookPersistenceObject E;
     getIdFromTypeAndParams := getIdFromTypeAndParams E;
     getCallbackUrl := getCallbackUrl E;
     createErrorFromResponse := createErrorFromResponse E;
     getOAuthToken := getOAuthToken E;
     refreshOAuthToken := refreshOAuthToken E;
     hub := h;
     clock := clock E;
     topicSearch := topicSearch E |}.

Definition with_store (f : gmap string WebhookPersistenceObject -> gmap string WebhookPersistenceObject)
    (op : StoreOp) (w : World) : World :=
  {| store := f (store w); storeOps := storeOps w ++ [op];
     renewalScheduler := renewalScheduler w; hubPosts := hubPosts w;
     emitted := emitted w; logged := logged w; clockReads := clockReads w;
     compared := compared w; unhandled := unhandled w; waiters := waiters w |}.

Definition with_scheduler (f : gset string -> gset string) (w : World) : World :=
  {| store := store w; storeOps := storeOps w;
     renewalScheduler := f <$> renewalScheduler w; hubPosts := hubPosts w;
     emitted := emitted w; logged := logged w; clockReads := clockReads w;
     compared := compared w; unhandled := unhandled w; waiters := waiters w |}.

Definition with_post (p : HubPost) (w : World) : World :=
  {| store := store w; storeOps := storeOps w;
     renewalScheduler := renewalScheduler w; hubPosts := hubPosts w ++ [p];
     emitted := emitted w; logged := logged w; clockReads := clockReads w;
     compared := compared w; unhandled := unhandled w; waiters := waiters w |}.

Definition with_event (ev : Event) (f : list Waiter -> list Waiter) (w : World) : World :=
  {| store := store w; storeOps := storeOps w;
     renewalScheduler := renewalScheduler w; hubPosts := hubPosts w;
     emitted := emitted w ++ [ev]; logged := logged w; clockReads := clockReads w;
     compared := compared w; unhandled := unhandled w; waiters := f (waiters w) |}.

Definition with_log (l : LogLevel * string) (w : World) : World :=
  {| store := store w; storeOps := storeOps w;
     renewalScheduler := renewalScheduler w; hubPosts := hubPosts w;
     emitted := emitted w; logged := logged w ++ [l]; clockReads := clockReads w;
     compared := compared w; unhandled := unhandled w; waiters := waiters w |}.

Definition with_tick (w : World) : World :=
  {| store := store w; storeOps := storeOps w;
     renewalScheduler := renewalScheduler w; hubPosts := hubPosts w;
     emitted := emitted w; logged := logged w; clockReads := S (clockReads w);
     compared := compared w; unhandled := unhandled w; waiters := waiters w |}.

Definition with_compared (n : nat) (w : World) : World :=
  {| store := store w; storeOps := storeOps w;
     renewalScheduler := renewalScheduler w; hubPosts := hubPosts w;
     emitted := emitted w; logged := logged w; clockReads := clockReads w;
     compared := (compared w + n)%nat; unhandled := unhandled w; waiters := waiters w |}.

Definition with_waiter (wt : Waiter) (w : World) : World :=
  {| store := store w; storeOps := storeOps w;
     renewalScheduler := renewalScheduler w; hubPosts := hubPosts w;
     emitted := emitted w; logged := logged w; clockReads := clockReads w;
     compared := compared w; unhandled := unhandled w; waiters := waiters w ++ [wt] |}.

Definition with_unhandled (e : Error) (w : World) : World :=
  {| store := store w; storeOps := storeOps w;
     renewalScheduler := renewalScheduler w; hubPosts := hubPosts w;
     emitted := emitted w; logged := logged w; clockReads := clockReads w;
     compared := compared w; unhandled := unhandled w ++ [e]; waiters := waiters w |}.

(** ** Asynchronous code as state passing

    An [async] function is a state transformer that returns a value or
    throws; [await] is sequencing.  A promise that is created and never
    awaited ([detach]) still runs, and its rejection reaches nobody; here it
    runs to its end on the spot, before its creator goes on. *)
Definition M (A : Type) : Type := World -> Result A * World.

Definition ret {A} (a : A) : M A := fun w => (Ok a, w).

Definition throw {A} (e : Error) : M A := fun w => (Throw e, w).

Definition bind {A B} (m : M A) (k : A -> M B) : M B :=
  fun w => match m w with
           | (Ok a, w') => k a w'
           | (Throw e, w') => (Throw e, w')
           end.

Definition catch {A} (m : M A) (h : Error -> M A) : M A :=
  fun w => match m w with
           | (Ok a, w') => (Ok a, w')
           | (Throw e, w') => h e w'
           end.

Definition detach (m : M unit) : M unit :=
  fun w => match m w with
           | (Ok _, w') => (Ok tt, w')
           | (Throw e, w') => (Ok tt, with_unhandled e w')
           end.

Definition lift {A} (r : Result A) : M A := fun w => (r, w).

Definition modify (f : World -> World) : M unit := fun w => (Ok tt, f w).

Notation "'let*' x ':=' m 'in' k" := (bind m (fun x => k))
  (at level 10, x name, m at level 200, k at level 200).
Notation "m ';;' k" := (bind m (fun _ => k))
  (at level 100, k at level 200, right associativity).

Fixpoint forEach {A} (l : list A) (f : A -> M unit) : M unit :=
  match l with
  | [] => ret tt
  | x :: l' => f x ;; forEach l' f
  end.

(** ** The manager *)

Section Manager.

Variable E : Env.

(** *** Collaborators *)

Definition log (lvl : LogLevel) (msg : string) : M unit :=
  modify (with_log (lvl, msg)).

Definition getWebhookById (k : WebhookId) : M (option WebhookPersistenceObject) :=
  fun w => (Ok (store w !! k), w).

Definition getAllWebhooks : M (list WebhookPersistenceObject) :=
  fun w => (Ok (map snd (map_to_list (store w))), w).

Definition persistWebhook (webhook : WebhookPersistenceObject) : M unit :=
  modify (with_store (insert (id webhook) webhook) (Persist (id webhook))).

Definition saveWebhook (webhook : WebhookPersistenceObject) : M unit :=
  modify (with_store (insert (id webhook) webhook) (Save (id webhook))).

Definition deleteWebhook (k : WebhookId) : M unit :=
  modify (with_store (delete k) (Delete k)).

Definition addToScheduler (webhook : WebhookPersistenceObject) : M unit :=
  modify (with_scheduler (fun s => {[ id webhook ]} ∪ s)).

Definition removeFromScheduler (k : WebhookId) : M unit :=
  modify (with_scheduler (fun s => s ∖ {[ k ]})).

Definition hasScheduler : M bool :=
  fun w => (Ok (match renewalScheduler w with Some _ => true | None => false end), w).

(** [new Date()] and [Date.now()]: each is one reading of the clock. *)
Definition now : M Z :=
  fun w => (Ok (clock E (clockReads w)), with_tick w).

Definition onUnsubscribed (k : WebhookId) (wt : Waiter) : Waiter :=
  let ids := List.filter (fun x => negb (String.eqb x k)) (webhookIds wt) in
  {| webhookIds := ids;
     resolved := resolved wt || Nat.eqb (length ids) 0 |}.

(** [this.emit(...)]: the event is recorded and the manager's own
    listeners run.  Listeners of the application are outside the model (for
    ['error'] one is taken to be registered). *)
Definition emit (ev : Event) : M unit :=
  modify (with_event ev
            (match ev with
             | EvUnsubscribed k => map (onUnsubscribed k)
             | _ => fun ws => ws
             end)).

(** [got.post(hubUrl, ...)] *)
Definition post (token : string) (hubParams : HubParams) : M Response :=
  fun w =>
    let p := {| bearer := token; payload := hubParams |} in
    match hub E (hubPosts w) p with
    | Resolved r => (Ok r, with_post p w)
    | Failed e => (Throw e, with_post p w)
    end.

(** *** [doHubRequest] *)

(** [resp.statusCode && Math.floor(resp.statusCode / 100) === 2] *)
Definition is2xx (resp : Response) : bool :=
  negb (statusCode resp =? 0) && (statusCode resp / 100 =? 2).

(** [createErrorFromResponse(resp, resp.body) || new Error(...)] *)
Definition responseError (resp : Response) : Error :=
  match createErrorFromResponse E resp with
  | Some e => e
  | None => JsError ("Unknown error when doing hub request: " +:+ body resp)
  end.

Definition doHubRequest (webhook : WebhookPersistenceObject) (hubParams : HubParams)
    (oAuthToken : string) : M unit :=
  log Debug "Making hub request with: " ;;
  let* resp := post oAuthToken hubParams in
  if is2xx resp then ret tt
  else if statusCode resp =? 401 then
    let* token := lift (refreshOAuthToken E oAuthToken) in
    let* resp := post token hubParams in
    if is2xx resp then ret tt
    else throw (responseError resp)
  else throw (responseError resp).

(** *** [changeSub] *)

Definition hubParamsOf (webhook : WebhookPersistenceObject) (subscribe : bool) : HubParams :=
  let callbackUrl := getCallbackUrl E webhook in
  {| hub_callback := callbackUrl;
     hub_mode := if subscribe then "subscribe" else "unsubscribe";
     hub_topic := href webhook;
     hub_lease_seconds := leaseSeconds webhook;
     hub_secret := secret webhook |}.

Definition changeSub (webhook : WebhookPersistenceObject) (subscribe : bool)
    (userId : option string) : M unit :=
  let hubParams := hubParamsOf webhook subscribe in
  let* token := lift (getOAuthToken E userId) in
  doHubRequest webhook hubParams token.

(** *** Caller operations *)

Definition notFound (webhookId : WebhookId) : Error :=
  JsError ("Webhook with id " +:+ webhookId +:+ " could not be found!").

Definition unsubscribePersistenceObject (webhook : WebhookPersistenceObject) : M unit :=
  log Info ("Unsubscribing from webhook " +:+ id webhook) ;;
  log Debug "Unsubbing from: " ;;
  changeSub webhook false None ;;
  let* scheduled := hasScheduler in
  if scheduled then removeFromScheduler (id webhook) else ret tt.

(** The call to [unsubscribePersistenceObject] is not awaited. *)
Definition unsubscribe (webhookId : WebhookId) : M unit :=
  let* webhook := getWebhookById webhookId in
  match webhook with
  | Some webhook => detach (unsubscribePersistenceObject webhook)
  | None => throw (notFound webhookId)
  end.

Definition resubscribe (webhookId : WebhookId) : M unit :=
  let* webhook := getWebhookById webhookId in
  match webhook with
  | Some webhook => changeSub webhook true None
  | None => throw (notFound webhookId)
  end.

Definition resubscribePersistenceObject (webhook : WebhookPersistenceObject) : M unit :=
  log Info ("Resubbing to webhook: " +:+ id webhook) ;;
  log Debug "Resubbing to: " ;;
  changeSub webhook true None.

Definition subscribeOrGetSubscription (ty : WebhookType) (params : list (string * string))
    (config : WebhookOptions E) (associatedUser : option string) : M WebhookId :=
  let webhook := createWebhookPersistenceObject E ty params config in
  let* oldWebhook := getWebhookById (id webhook) in
  match oldWebhook with
  | Some oldWebhook =>
      log Info ("Trying to sub to " +:+ id webhook
                +:+ ", but it was already subbed to! Ignoring request, returning id...") ;;
      ret (id oldWebhook)
  | None =>
      persistWebhook webhook ;;
      changeSub webhook true associatedUser ;;
      ret (id webhook)
  end.

(** *** [unsubFromAll]

    The promise the function returns settles once every
    [unsubscribePersistenceObject] has settled and the listener has called
    [resolve].  The model returns the position of the listener; [settled]
    reads whether it has resolved.  The per-record calls run one after the
    other. *)
Definition registerWaiter (ids : list WebhookId) : M nat :=
  fun w =>
    (Ok (length (waiters w)),
     with_waiter {| webhookIds := ids; resolved := false |} w).

Definition unsubFromAll : M nat :=
  log Info "Unsubbing from all webhook endpoints" ;;
  let* webhooks := getAllWebhooks in
  let webhookIds := map id webhooks in
  let* finalPromise := registerWaiter webhookIds in
  forEach webhooks (fun webhook =>
    catch (unsubscribePersistenceObject webhook)
          (fun e => log LogError ("Error while unsubscribing from: " +:+ id webhook))) ;;
  ret finalPromise.

Definition settled (finalPromise : nat) (w : World) : bool :=
  match waiters w !! finalPromise with
  | Some wt => resolved wt
  | None => false
  end.

(** *** The signature gate: [getVerificationMiddleware] *)

(** [req.header(name)]; header names are matched without regard to case
    and [headers] holds them in lower case. *)
Definition header (name : string) (req : Request) : option string :=
  snd <$> List.find (fun kv => String.eqb (fst kv) (JS.toLowerCase name)) (headers req).

(** [searchParams.get(name)] *)
Definition get (name : string) (ps : list (string * string)) : option string :=
  snd <$> List.find (fun kv => String.eqb (fst kv) name) ps.

Inductive GateOutcome :=
| Next (parsed : option JSON.Json)
| Rejected (status : Z).

(** [crypto.createHmac('sha256', secret).update(body).digest('hex')], for a
    body that is a buffer. *)
Definition hmacDigest (secret body : string) : string :=
  Crypto.hex (Crypto.hmac_sha256 (Crypto.bytes_of_string secret)
                                 (Crypto.bytes_of_string body)).

(** The body parsing at the head of the middleware: [JSON.parse] runs
    when the content type mentions JSON, and throws on a malformed text. *)
Definition parseBody (req : Request) : Result (option JSON.Json) :=
  match header "content-type" req with
  | Some ct =>
      if JS.truthy ct && JS.includes ct "application/json" then
        match JSON.parse (rawBody req) with
        | Some j => Ok (Some j)
        | None => Throw (SyntaxError "Unexpected token in JSON")
        end
      else Ok None
  | None => Ok None
  end.

(** [lastPath + callback_url.search] *)
Definition callbackId (req : Request) : WebhookId :=
  let callback_url := originalUrl req in
  let splitPath := JS.split "/" (pathname callback_url) in
  let lastPath := List.last splitPath "" in
  lastPath +:+ search callback_url.

(** What [update] throws when it is handed something that is neither a
    string nor a buffer. *)
Definition invalidData : Error :=
  TypeError "The data argument must be of type string or an instance of Buffer, TypedArray, or DataView. Received an instance of Array".

(** [concat] hands over a buffer with the bytes of the body, and the empty
    array [[]] when the stream carried no byte at all: then
    [body.toString("utf8")] is the empty text and [update(body)] throws.
    The throw happens inside the asynchronous callback of [concat]: the
    request is neither answered nor passed on. *)
Definition verificationMiddleware (req : Request) : M GateOutcome :=
  let* parsed := lift (parseBody req) in
  if String.eqb (method req) "POST" then
    match header "X-Hub-Signature" req with
    | Some signature =>
        if JS.truthy signature then
          let* webhook := getWebhookById (callbackId req) in
          match webhook with
          | Some webhook =>
              if JS.truthy (rawBody req) then
                let digest := hmacDigest (secret webhook) (rawBody req) in
                let candidate := JS.split "=" signature !! 1%nat in
                modify (with_compared (JS.strictEqualsOptCost digest candidate)) ;;
                if JS.strictEqualsOpt digest candidate then ret (Next parsed)
                else
                  log LogError "Request gave bad X-Hub-Signature; Rejecting request." ;;
                  ret (Rejected 400)
              else throw invalidData
          | None =>
              log LogError ("Webhook " +:+ callbackId req +:+ " not found.") ;;
              ret (Rejected 404)
          end
        else
          log LogError "Request had no X-Hub-Signature header; Rejecting request." ;;
          ret (Rejected 400)
    | None =>
        log LogError "Request had no X-Hub-Signature header; Rejecting request." ;;
        ret (Rejected 400)
    end
  else ret (Next parsed).

(** *** The GET callback handler of [addWebhookEndpoints] *)

(** [res.setHeader("Content-Type", "text/plain"); res.status(200);
    res.end(challenge)] *)
Definition echoChallenge (challenge : option string) : Res :=
  {| resStatus := 200; resHeaders := [("Content-Type", "text/plain")];
     resBody := challenge; resEnded := true |}.

Definition showNullable (o : option string) : string :=
  match o with Some s => s | None => "null" end.

Definition withLease (webhook : WebhookPersistenceObject) (start finish : JS.Date)
    : WebhookPersistenceObject :=
  {| id := id webhook; type := type webhook; href := href webhook;
     leaseSeconds := leaseSeconds webhook; secret := secret webhook;
     subscribed := true;
     subscriptionStart := Some start; subscriptionEnd := Some finish |}.

Definition getHandler (ty : WebhookType) (req : Request) : M Res :=
  let params := searchParams (originalUrl req) in
  if negb (JS.truthy_opt (get "hub.topic" params)) then
    throw (JsError "hub.topic not found in search params.")
  else
    match topicSearch E (showNullable (get "hub.topic" params)) with
    | None => throw (TypeError "Invalid URL")
    | Some topicQuery =>
        let webhookId := getIdFromTypeAndParams E ty topicQuery in
        let* webhook := getWebhookById webhookId in
        match webhook with
        | Some webhook =>
            let mode := get "hub.mode" params in
            if negb (JS.truthy_opt mode) || JS.strictEqualsOpt "denied" mode then
              let reason := get "hub.reason" params in
              log LogError ("Subscription denied. reason: " +:+ showNullable reason) ;;
              deleteWebhook webhookId ;;
              emit (EvError (SubscriptionDeniedError webhook
                               (if JS.truthy_opt reason then showNullable reason
                                else "No reason given")) None) ;;
              ret {| resStatus := 200; resHeaders := []; resBody := None; resEnded := true |}
            else if JS.strictEqualsOpt "unsubscribe" mode then
              deleteWebhook (id webhook) ;;
              log Info ("Confirmed unsubscription from webhook " +:+ id webhook) ;;
              emit (EvUnsubscribed (id webhook)) ;;
              ret (echoChallenge (get "hub.challenge" params))
            else
              let* t := now in
              let start := JS.newDate (JS.Int t) in
              let lease := get "hub.lease_seconds" params in
              let* finish :=
                if JS.truthy_opt lease then
                  ret (JS.newDate (JS.add (JS.getTime start)
                                          (JS.mul (JS.parseInt (showNullable lease)) (JS.Int 1000))))
                else
                  let* t' := now in
                  ret (JS.newDate (JS.add (JS.Int t')
                                          (JS.mul (JS.Int (leaseSeconds webhook)) (JS.Int 1000)))) in
              let webhook := withLease webhook start finish in
              saveWebhook webhook ;;
              log Info ("Subscription for " +:+ id webhook +:+ " verified!") ;;
              log Debug "Subscribed to webhook: " ;;
              emit (EvSubscribed webhookId) ;;
              let* scheduled := hasScheduler in
              (if scheduled then
                 log Info ("Adding webhook " +:+ id webhook +:+ " to renewal scheduler") ;;
                 addToScheduler webhook
               else ret tt) ;;
              ret (echoChallenge (get "hub.challenge" params))
        | None =>
            log LogError "Got GET for unknown webhook URL: " ;;
            ret {| resStatus := 404; resHeaders := []; resBody := None; resEnded := true |}
        end
    end.

(** *** Vocabulary of the statements *)

(** The GET handler once the topic of the callback names a stored record. *)
Definition knownCallback (ty : WebhookType) (req : Request) (w : World)
    (webhook : WebhookPersistenceObject) : Prop :=
  exists topic query,
    get "hub.topic" (searchParams (originalUrl req)) = Some topic
    /\ JS.truthy topic = true
    /\ topicSearch E topic = Some query
    /\ store w !! getIdFromTypeAndParams E ty query = Some webhook
    /\ id webhook = getIdFromTypeAndParams E ty query.

(** Whether the hub request that [changeSub] makes in [w] ends well, read
    off the answers of the token service and of [got.post]: a token is had
    and the first post is answered with a 2xx status, or it is answered with
    401, the token is refreshed and the second post is answered with 2xx. *)
Definition hubAccepts (webhook : WebhookPersistenceObject) (subscribe : bool)
    (userId : option string) (w : World) : bool :=
  match getOAuthToken E userId with
  | Throw _ => false
  | Ok token =>
      let first := {| bearer := token; payload := hubParamsOf webhook subscribe |} in
      match hub E (hubPosts w) first with
      | Failed _ => false
      | Resolved r =>
          if (200 <=? statusCode r) && (statusCode r <? 300) then true
          else if statusCode r =? 401 then
            match refreshOAuthToken E token with
            | Throw _ => false
            | Ok token' =>
                match hub E (hubPosts w ++ [first])
                        {| bearer := token'; payload := hubParamsOf webhook subscribe |} with
                | Failed _ => false
                | Resolved r2 => (200 <=? statusCode r2) && (statusCode r2 <? 300)
                end
            end
          else false
      end
  end.

Definition denialReason (reason : option string) : string :=
  match reason with
  | Some text => if JS.truthy text then text else "No reason given"
  | None => "No reason given"
  end.

(** The end of the lease as the confirming branch computes it: from the
    start and the echoed seconds, or from a second reading of the clock and
    the seconds of the record. *)
Definition leaseEnd (w : World) (webhook : WebhookPersistenceObject) (lease : option string)
    : JS.Date :=
  if JS.truthy_opt lease then
    JS.newDate (JS.add (JS.getTime (JS.newDate (JS.Int (clock E (clockReads w)))))
                       (JS.mul (JS.parseInt (showNullable lease)) (JS.Int 1000)))
  else
    JS.newDate (JS.add (JS.Int (clock E (S (clockReads w))))
                       (JS.mul (JS.Int (leaseSeconds webhook)) (JS.Int 1000))).

End Manager.

Arguments doHubRequest : simpl never.
Arguments changeSub : simpl never.
Arguments unsubscribePersistenceObject : simpl never.
Arguments hubParamsOf : simpl never.

(** [c] occurs in [s]. *)
Fixpoint occurs (c : ascii) (s : string) : bool :=
  match s with
  | "" => false
  | String x s' => Ascii.eqb x c || occurs c s'
  end.

(** The listener after the ['unsubscribed'] events of [ks], in order. *)
Definition deliver (ks : list WebhookId) (wt : Waiter) : Waiter :=
  fold_left (fun wt k => onUnsubscribed k wt) ks wt.

(** Every record is stored under its own id. *)
Definition storeConsistent (w : World) : Prop :=
  forall k v, store w !! k = Some v -> id v = k.

(** ** A hub, a clock and helpers to run the manager against *)

Module Sample.

Definition typeSegment (ty : WebhookType) : string :=
  match ty with
  | UserFollows => "0" | StreamChanged => "1" | UserChanged => "2"
  | ExtensionTransactionCreated => "3" | ModeratorChange => "4"
  | ChannelBanChange => "5" | Subscription => "6"
  end.

Fixpoint query (params : list (string * string)) : string :=
  match params with
  | [] => ""
  | [(k, v)] => k +:+ "=" +:+ v
  | (k, v) :: rest => k +:+ "=" +:+ v +:+ "&" +:+ query rest
  end.

Definition fromSearch (ty : WebhookType) (search : string) : WebhookId :=
  typeSegment ty +:+ search.

Definition create (ty : WebhookType) (params : list (string * string)) (lease : Z)
    : WebhookPersistenceObject :=
  {| id := fromSearch ty ("?" +:+ query params); type := ty;
     href := "https://api.twitch.tv/helix/streams?" +:+ query params;
     leaseSeconds := lease; secret := "s3cret"; subscribed := false;
     subscriptionStart := None; subscriptionEnd := None |}.

Fixpoint dropUntil (c : ascii) (s : string) : string :=
  match s with
  | "" => ""
  | String x s' => if Ascii.eqb x c then s else dropUntil c s'
  end.

(** A hub that answers the posts in turn with the given status codes, and
    200 once they are used up. *)
Definition scripted (codes : list Z) : list HubPost -> HubPost -> Outcome :=
  fun earlier _ =>
    Resolved {| statusCode := nth (length earlier) codes 200; body := "" |}.

Definition env (codes : list Z) : Env :=
  {| WebhookOptions := Z;
     createWebhookPersistenceObject := create;
     getIdFromTypeAndParams := fromSearch;
     getCallbackUrl := fun webhook => "https://example.org/hooks/" +:+ id webhook;
     createErrorFromResponse := fun resp => Some (HubRequestError "HubError" resp);
     getOAuthToken := fun _ => Ok "token";
     refreshOAuthToken := fun old => Ok (old +:+ "'");
     hub := scripted codes;
     clock := fun n => 1600000000000 + Z.of_nat n;
     topicSearch := fun topic => Some (dropUntil "?" topic) |}.

(** The same surroundings with the library's [got.post] in front of the
    scripted hub. *)
Definition gotEnv (codes : list Z) : Env := withHub (Got.post (scripted codes)) (env codes).

Definition world (records : list WebhookPersistenceObject) : World :=
  {| store := list_to_map (map (fun r => (id r, r)) records);
     storeOps := []; renewalScheduler := Some ∅; hubPosts := [];
     emitted := []; logged := []; clockReads := 0; compared := 0;
     unhandled := []; waiters := [] |}.

Definition stream5 : WebhookPersistenceObject :=
  create StreamChanged [("user_id", "5")] 864000.

End Sample.

(** Pushes and callbacks for the subscription [Sample.stream5]. *)
Module Inbound.

Definition quoted (s : string) : string := dq +:+ s +:+ dq.

Definition streamBody : string :=
  "{" +:+ quoted "data" +:+ ":[{" +:+ quoted "id" +:+ ":" +:+ quoted "1" +:+ ","
  +:+ quoted "user_id" +:+ ":" +:+ quoted "5" +:+ ","
  +:+ quoted "type" +:+ ":" +:+ quoted "live" +:+ "}]}".

Definition callbackUrl : URL :=
  {| pathname := "/hooks/1"; search := "?user_id=5"; searchParams := [("user_id", "5")] |}.

Definition push (extra : list (string * string)) (text : string) : Request :=
  {| method := "POST";
     headers := ("host", "example.org") :: ("content-type", "application/json") :: extra;
     originalUrl := callbackUrl;
     rawBody := text |}.

Definition signed (signature : string) : Request :=
  push [("x-hub-signature", signature)] streamBody.

Definition world : World := Sample.world [Sample.stream5].

(** The same world with the subscription and another id held by the renewal
    scheduler. *)
Definition scheduled : World :=
  with_scheduler (fun _ => {[ "1?user_id=5" ]} ∪ {[ "0?to_id=9" ]}) world.

(** A verification callback of the hub for the same subscription. *)
Definition callback (params : list (string * string)) : Request :=
  {| method := "GET";
     headers := [("host", "example.org")];
     originalUrl :=
       {| pathname := "/hooks/1"; search := "";
          searchParams :=
            ("hub.topic", "https://api.twitch.tv/helix/streams?user_id=5") :: params |};
     rawBody := "" |}.

End Inbound.

(** ** The subscribing entry points, [init] and the push handler *)

(** [params.set(k, v)] on a [Map]: a key that is present keeps its place. *)
Fixpoint mapSet (k v : string) (m : list (string * string)) : list (string * string) :=
  match m with
  | [] => [(k, v)]
  | (k', v') :: rest =>
      if String.eqb k' k then (k, v) :: rest else (k', v') :: mapSet k v rest
  end.

(** [if (x) params.set(k, x)] for an optional string [x]. *)
Definition mapSetIf (k : string) (x : option string) (m : list (string * string))
    : list (string * string) :=
  match x with
  | Some v => if JS.truthy v then mapSet k v m else m
  | None => m
  end.

(** An optional string inside a template literal. *)
Definition showUndefined (o : option string) : string :=
  match o with Some s => s | None => "undefined" end.

(** The parameter objects of [./payload_types], by the fields the entry
    points read; a field read under [if] is optional. *)
Module UserFollowsSubParams.
Record t := { to_id : option string; from_id : option string }.
End UserFollowsSubParams.

Module StreamChangedSubParams.
Record t := { user_id : string }.
End StreamChangedSubParams.

Module UserChangedSubParams.
Record t := { user_id : string }.
End UserChangedSubParams.

Module ExtensionTransactionCreatedSubParams.
Record t := { extension_id : string }.
End ExtensionTransactionCreatedSubParams.

Module ModeratorChangedSubParams.
Record t := { broadcaster_id : string; user_id : option string }.
End ModeratorChangedSubParams.

Module ChannelBanChangedSubParams.
Record t := { broadcaster_id : string; user_id : option string }.
End ChannelBanChangedSubParams.

Module SubscriptionSubParams.
Record t := {
  broadcaster_id : string;
  user_id : option string;
  gifter_id : option string;
  gifter_name : option string
}.
End SubscriptionSubParams.

(** What [req.body.data[0]] evaluates to: [undefined], a JSON value, or the
    first code unit of a string. *)
Inductive Datum :=
| Undefined
| Element (j : JSON.Json)
| CodeUnit (text : string).

(** The payload handed to the listeners, over the decoded data and the
    subscription parameters of [./payload_types] and [./util]. *)
Record WebhookPayload (D S : Type) := {
  payloadType : WebhookType;
  payloadData : D;
  subParams : S
}.
Arguments payloadType {D S} _.
Arguments payloadData {D S} _.
Arguments subParams {D S} _.

(** An event of a push: its name, the id and the payload. *)
Record PushEvent (D S : Type) := {
  eventName : string;
  eventId : WebhookId;
  eventPayload : WebhookPayload D S
}.
Arguments eventName {D S} _.
Arguments eventId {D S} _.
Arguments eventPayload {D S} _.

(** What the push handler leaves behind: the response, the events in the
    order emitted, and the error it threw, if any. *)
Record PushOutcome (D S : Type) := {
  pushRes : Res;
  pushEvents : list (PushEvent D S);
  pushError : option Error
}.
Arguments pushRes {D S} _.
Arguments pushEvents {D S} _.
Arguments pushError {D S} _.

(** A key of a parsed object is the text between its quotes; [keyIs] tells
    whether it stands, once its escapes are read, for the plain name
    [name]. *)
Definition hexValue (c : ascii) : Z :=
  match JS.digit_value c with Some d => d | None => 0 end.

Fixpoint keyIs (fuel : nat) (raw name : list ascii) : bool :=
  match fuel with
  | O => false
  | S fuel' =>
      match raw, name with
      | [], [] => true
      | "\"%char :: "u"%char :: a :: b :: c :: d :: raw', n :: name' =>
          let code := 4096 * hexValue a + 256 * hexValue b + 16 * hexValue c + hexValue d in
          (code =? Z.of_N (N_of_ascii n)) && keyIs fuel' raw' name'
      | "\"%char :: e :: raw', n :: name' =>
          let decoded :=
            if Ascii.eqb e "b" then "008"%char
            else if Ascii.eqb e "f" then "012"%char
            else if Ascii.eqb e "n" then "010"%char
            else if Ascii.eqb e "r" then "013"%char
            else if Ascii.eqb e "t" then "009"%char
            else e in
          Ascii.eqb decoded n && keyIs fuel' raw' name'
      | c :: raw', n :: name' => Ascii.eqb c n && keyIs fuel' raw' name'
      | _, _ => false
      end
  end.

(** [object[name]] on a parsed object: of two members with one key the later
    one counts. *)
Fixpoint member (name : string) (members : list (string * JSON.Json)) : option JSON.Json :=
  match members with
  | [] => None
  | (k, v) :: rest =>
      match member name rest with
      | Some later => Some later
      | None =>
          if keyIs (S (String.length k)) (list_ascii_of_string k) (list_ascii_of_string name)
          then Some v else None
      end
  end.

(** [body.data[0]] for a parsed body.  Reading a property of [undefined] or
    [null] throws.  A body that parsed to a falsy value ([null], [false], 0,
    the empty string) has been replaced by an empty object by the time the
    handler runs (the urlencoded parser of the framework sets
    [req.body = req.body || {}]), so it reads as one without [data]. *)
Definition firstDatum (body : JSON.Json) : Result Datum :=
  let data :=
    match body with
    | JSON.JObject members => member "data" members
    | _ => None
    end in
  match data with
  | None => Throw (TypeError "Cannot read property '0' of undefined")
  | Some JSON.JNull => Throw (TypeError "Cannot read property '0' of null")
  | Some (JSON.JArray []) => Ok Undefined
  | Some (JSON.JArray (first :: _)) => Ok (Element first)
  | Some (JSON.JObject members) =>
      Ok (match member "0" members with Some v => Element v | None => Undefined end)
  | Some (JSON.JString "") => Ok Undefined
  | Some (JSON.JString raw) => Ok (CodeUnit raw)
  | Some (JSON.JNumber _) => Ok Undefined
  | Some (JSON.JBool _) => Ok Undefined
  end.

(** The event name [emitSpecificEvent] chooses. *)
Definition specificEvent (ty : WebhookType) : string :=
  match ty with
  | UserFollows => "userFollows"
  | StreamChanged => "streamChanged"
  | UserChanged => "userChanged"
  | ExtensionTransactionCreated => "extensionTransactionCreated"
  | ModeratorChange => "moderatorChangeEvent"
  | ChannelBanChange => "channelBanEvent"
  | Subscription => "subscriptionEvent"
  end.

Section EntryPoints.

Variable E : Env.

Definition addUserFollowsSubscription (config : WebhookOptions E)
    (subParams : UserFollowsSubParams.t) : M WebhookId :=
  let to_id := UserFollowsSubParams.to_id subParams in
  let from_id := UserFollowsSubParams.from_id subParams in
  log Info ("Adding user follows subscription: to_id: " +:+ showUndefined to_id
            +:+ ", from_id: " +:+ showUndefined from_id) ;;
  if negb (JS.truthy_opt to_id) && negb (JS.truthy_opt from_id) then
    throw (JsError "to_id or from_id (or both) must be specified!")
  else
    let params := mapSet "first" "1" [] in
    let params := mapSetIf "to_id" to_id params in
    let params := mapSetIf "from_id" from_id params in
    subscribeOrGetSubscription E UserFollows params config None.

Definition addStreamChangedSubscription (config : WebhookOptions E)
    (subParams : StreamChangedSubParams.t) : M WebhookId :=
  let user_id := StreamChangedSubParams.user_id subParams in
  log Info ("Adding stream changed subscription: user_id: " +:+ user_id) ;;
  let params := mapSet "user_id" user_id [] in
  subscribeOrGetSubscription E StreamChanged params config None.

Definition addUserChangedSubscription (config : WebhookOptions E)
    (subParams : UserChangedSubParams.t) : M WebhookId :=
  let user_id := UserChangedSubParams.user_id subParams in
  log Info ("Adding user changed subscription: user_id: " +:+ user_id) ;;
  let params := mapSet "id" user_id [] in
  subscribeOrGetSubscription E UserChanged params config (Some user_id).

Definition addExtensionTransactionCreatedSubscription (config : WebhookOptions E)
    (subParams : ExtensionTransactionCreatedSubParams.t) : M WebhookId :=
  let extension_id := ExtensionTransactionCreatedSubParams.extension_id subParams in
  log Info ("Adding extension transaction created subscription: user_id: " +:+ extension_id) ;;
  let params := mapSet "extension_id" extension_id [] in
  let params := mapSet "first" "1" params in
  subscribeOrGetSubscription E ExtensionTransactionCreated params config None.

Definition addModeratorChangedSubscription (config : WebhookOptions E)
    (subParams : ModeratorChangedSubParams.t) : M WebhookId :=
  let broadcaster_id := ModeratorChangedSubParams.broadcaster_id subParams in
  let user_id := ModeratorChangedSubParams.user_id subParams in
  log Info ("Adding moderator changed subscription: broadcaster_id: " +:+ broadcaster_id
            +:+ ", user_id: " +:+ showUndefined user_id) ;;
  let params := mapSet "first" "1" [] in
  let params := mapSet "broadcaster_id" broadcaster_id params in
  let params := mapSetIf "user_id" user_id params in
  subscribeOrGetSubscription E ModeratorChange params config (Some broadcaster_id).

Definition addChannelBanChangedSubscription (config : WebhookOptions E)
    (subParams : ChannelBanChangedSubParams.t) : M WebhookId :=
  let broadcaster_id := ChannelBanChangedSubParams.broadcaster_id subParams in
  let user_id := ChannelBanChangedSubParams.user_id subParams in
  log Info ("Adding channel ban changed subscription: broadcaster_id: " +:+ broadcaster_id
            +:+ ", user_id: " +:+ showUndefined user_id) ;;
  let params := mapSet "first" "1" [] in
  let params := mapSet "broadcaster_id" broadcaster_id params in
  let params := mapSetIf "user_id" user_id params in
  subscribeOrGetSubscription E ChannelBanChange params config (Some broadcaster_id).

Definition addSubscriptionSubscription (config : WebhookOptions E)
    (subParams : SubscriptionSubParams.t) : M WebhookId :=
  let broadcaster_id := SubscriptionSubParams.broadcaster_id subParams in
  let user_id := SubscriptionSubParams.user_id subParams in
  let gifter_id := SubscriptionSubParams.gifter_id subParams in
  let gifter_name := SubscriptionSubParams.gifter_name subParams in
  log Info ("Adding subscription subscription: broadcaster_id: " +:+ broadcaster_id
            +:+ ", user_id: " +:+ showUndefined user_id
            +:+ ", gifter_id: " +:+ showUndefined gifter_id
            +:+ ", gifter_name: " +:+ showUndefined gifter_name) ;;
  let params := mapSet "broadcaster_id" broadcaster_id [] in
  let params := mapSet "first" "1" params in
  let params := mapSetIf "user_id" user_id params in
  let params := mapSetIf "gifter_id" gifter_id params in
  let params := mapSetIf "gifter_name" gifter_name params in
  subscribeOrGetSubscription E Subscription params config (Some broadcaster_id).

(** [init] *)
Definition init : M unit :=
  let* scheduled := hasScheduler in
  if scheduled then
    log Info "Initializing renewal scheduler:" ;;
    let* webhooks := getAllWebhooks in
    log Debug "Adding webhooks to renewal scheduler: " ;;
    forEach webhooks addToScheduler
  else ret tt.

(** *** The POST handler of [addWebhookEndpoints], for a push whose body the
    middleware has parsed as JSON *)

Variables Data SubParams : Type.

(** [convertPayload] of [./payload_types] and [getWebhookParamsFromId] of
    [./util], which are not part of the sources at hand. *)
Variable convertPayload : WebhookType -> Datum -> Result Data.
Variable getWebhookParamsFromId : WebhookType -> WebhookId -> Result SubParams.

(** [emit('message', ...)] followed by [emitSpecificEvent]. *)
Definition pushEventsOf (webhookId : WebhookId) (payload : WebhookPayload Data SubParams)
    : list (PushEvent Data SubParams) :=
  [ {| eventName := "message"; eventId := webhookId; eventPayload := payload |};
    {| eventName := specificEvent (payloadType payload); eventId := webhookId;
       eventPayload := payload |} ].

Definition ended200 : Res :=
  {| resStatus := 200; resHeaders := []; resBody := None; resEnded := true |}.

Definition postHandler (ty : WebhookType) (req : Request) (body : JSON.Json)
    : World -> PushOutcome Data SubParams * World :=
  fun w =>
    let webhookId := getIdFromTypeAndParams E ty (search (originalUrl req)) in
    match store w !! webhookId with
    | Some webhook =>
        match firstDatum body with
        | Throw e => ({| pushRes := ended200; pushEvents := []; pushError := Some e |}, w)
        | Ok datum =>
            match convertPayload ty datum with
            | Throw e => ({| pushRes := ended200; pushEvents := []; pushError := Some e |}, w)
            | Ok data =>
                match getWebhookParamsFromId ty webhookId with
                | Throw e =>
                    ({| pushRes := ended200; pushEvents := []; pushError := Some e |}, w)
                | Ok sub =>
                    let webhookPayload :=
                      {| payloadType := ty; payloadData := data; subParams := sub |} in
                    ({| pushRes := ended200;
                        pushEvents := pushEventsOf webhookId webhookPayload;
                        pushError := None |},
                     with_log (Debug, "Got message: ") w)
                end
            end
        end
    | None =>
        ({| pushRes := {| resStatus := 404; resHeaders := []; resBody := None;
                          resEnded := false |};
            pushEvents := []; pushError := None |},
         with_log (LogError, "Got POST for unknown webhook URL: ") w)
    end.

End EntryPoints.

(** A hub that refuses to talk, and a token service that is down. *)
Definition deadHub : Env :=
  {| WebhookOptions := Z;
     createWebhookPersistenceObject := Sample.create;
     getIdFromTypeAndParams := Sample.fromSearch;
     getCallbackUrl := fun webhook => "https://example.org/hooks/" +:+ id webhook;
     createErrorFromResponse := fun resp => None;
     getOAuthToken := fun user =>
       match user with Some _ => Throw (Rejection "no token for users") | None => Ok "app" end;
     refreshOAuthToken := fun old => Throw (Rejection "refresh failed");
     hub := fun earlier p =>
       if String.eqb (hub_mode (payload p)) "subscribe"
       then Resolved {| statusCode := 401; body := "expired" |}
       else Failed (Rejection "ETIMEDOUT");
     clock := fun n => 0;
     topicSearch := fun topic => None |}.

(** A hub whose posts settle in turn as scripted, and with 200 after that. *)
Definition flaky (answers : list Outcome) : Env :=
  {| WebhookOptions := Z;
     createWebhookPersistenceObject := Sample.create;
     getIdFromTypeAndParams := Sample.fromSearch;
     getCallbackUrl := fun webhook => "https://example.org/hooks/" +:+ id webhook;
     createErrorFromResponse := fun resp => Some (HubRequestError "HubError" resp);
     getOAuthToken := fun user =>
       match user with Some u => Ok ("user-" +:+ u) | None => Ok "app" end;
     refreshOAuthToken := fun old => Ok (old +:+ "'");
     hub := fun earlier _ =>
       nth (length earlier) answers (Resolved {| statusCode := 200; body := "" |});
     clock := fun n => 1600000000000 + Z.of_nat n;
     topicSearch := fun topic => Some (Sample.dropUntil "?" topic) |}.

(** * Properties *)

(** ** The built-ins on known values *)

Example sha256_abc :
  Crypto.hex (Crypto.sha256 (Crypto.bytes_of_string "abc"))
  = "ba7816bf8f01cfea414140de5dae2223b00361a396177a9cb410ff61f20015ad".
Proof. vm_compute. reflexivity. Qed.

Example sha256_empty :
  Crypto.hex (Crypto.sha256 [])
  = "e3b0c44298fc1c149afbf4c8996fb92427ae41e4649b934ca495991b7852b855".
Proof. vm_compute. reflexivity. Qed.

Example hmac_fox :
  Crypto.hex (Crypto.hmac_sha256 (Crypto.bytes_of_string "key")
       (Crypto.bytes_of_string "The quick brown fox jumps over the lazy dog"))
  = "f7bc83f430538424b13298e6aa6fb143ef4d59a14946175997479dbc2d1a3cd8".
Proof. vm_compute. reflexivity. Qed.

Example split_sig : JS.split "=" "sha256=abc" = ["sha256"; "abc"].
Proof. reflexivity. Qed.

Example split_two : JS.split "=" "a=b=c" = ["a"; "b"; "c"].
Proof. reflexivity. Qed.

Example split_none : JS.split "/" "" = [""].
Proof. reflexivity. Qed.

Example parseInt_dec : JS.parseInt "864000" = JS.Int 864000.
Proof. reflexivity. Qed.

Example parseInt_junk : JS.parseInt "12px" = JS.Int 12 /\ JS.parseInt "px" = JS.NaN
                        /\ JS.parseInt " -0x1f" = JS.Int (-31).
Proof. repeat split; reflexivity. Qed.

Example parseInt_spaces :
  JS.parseInt (String "194" (String "160" "12")) = JS.Int 12
  /\ JS.parseInt (String "239" (String "187" (String "191" " 7"))) = JS.Int 7
  /\ JS.parseInt (String "226" (String "128" (String "168" "3"))) = JS.Int 3
  /\ JS.parseInt (String "226" (String "128" (String "139" "3"))) = JS.NaN
  /\ JS.parseInt (String "194" "12") = JS.NaN.
Proof. repeat split; reflexivity. Qed.

Example got_settles :
  Got.settle (Resolved {| statusCode := 204; body := "" |})
  = Resolved {| statusCode := 204; body := "" |}
  /\ Got.settle (Resolved {| statusCode := 304; body := "" |})
     = Resolved {| statusCode := 304; body := "" |}
  /\ Got.settle (Resolved {| statusCode := 401; body := "" |})
     = Failed (HTTPError {| statusCode := 401; body := "" |})
  /\ Got.settle (Failed (Rejection "ETIMEDOUT")) = Failed (Rejection "ETIMEDOUT").
Proof. repeat split; reflexivity. Qed.

Example json_payload :
  JSON.parse ("{" +:+ dq +:+ "data" +:+ dq +:+ ": [{" +:+ dq +:+ "id" +:+ dq +:+ ": 7, "
              +:+ dq +:+ "ok" +:+ dq +:+ ": true}]}")
  = Some (JSON.JObject
            [("data", JSON.JArray
                        [JSON.JObject [("id", JSON.JNumber "7"); ("ok", JSON.JBool true)]])]).
Proof. vm_compute. reflexivity. Qed.

Example json_empty_text : JSON.parse "" = None.
Proof. reflexivity. Qed.

Example json_open_brace : JSON.parse "{" = None.
Proof. reflexivity. Qed.

Example json_scalars :
  JSON.parse " -12.5e3 " = Some (JSON.JNumber "-12.5e3")
  /\ JSON.parse "01" = None /\ JSON.parse "[1,]" = None /\ JSON.parse "nul" = None.
Proof. repeat split; vm_compute; reflexivity. Qed.

Example sample_id : id Sample.stream5 = "1?user_id=5".
Proof. reflexivity. Qed.

Example stream_digest :
  hmacDigest "s3cret" Inbound.streamBody
  = "7ed3ea21965890cd6f0b4e3d53c869aca766d835908f9280ba24db20239d21f8".
Proof. vm_compute. reflexivity. Qed.

Example stream_callback_id : callbackId (Inbound.signed "sha256=00") = id Sample.stream5.
Proof. reflexivity. Qed.

(** ** The hub request protocol *)

Section HubProtocol.

Variable E : Env.
Variables (webhook : WebhookPersistenceObject) (hubParams : HubParams) (token : string).

Let first := {| bearer := token; payload := hubParams |}.

Lemma is2xx_range resp : is2xx resp = true <-> 200 <= statusCode resp < 300.
Proof.
  unfold is2xx. rewrite andb_true_iff, negb_true_iff, Z.eqb_neq, Z.eqb_eq.
  split.
  - intros [_ H].
    pose proof (Z.div_mod (statusCode resp) 100 ltac:(lia)) as Hd.
    pose proof (Z.mod_pos_bound (statusCode resp) 100 ltac:(lia)). lia.
  - intros H. split; [lia|].
    symmetry. apply (Z.div_unique (statusCode resp) 100 2 (statusCode resp - 200)); lia.
Qed.

Lemma not_2xx_401 resp : statusCode resp = 401 -> is2xx resp = false.
Proof. intros H. unfold is2xx. rewrite H. reflexivity. Qed.

(** [doHubRequest] as a decision tree over the answers of the hub. *)
Lemma doHubRequest_cases w :
  doHubRequest E webhook hubParams token w =
  let w1 := with_post first (with_log (Debug, "Making hub request with: ") w) in
  match hub E (hubPosts w) first with
  | Failed e => (Throw e, w1)
  | Resolved r =>
      if is2xx r then (Ok tt, w1)
      else if statusCode r =? 401 then
        match refreshOAuthToken E token with
        | Throw e => (Throw e, w1)
        | Ok token' =>
            let second := {| bearer := token'; payload := hubParams |} in
            match hub E (hubPosts w ++ [first]) second with
            | Failed e => (Throw e, with_post second w1)
            | Resolved r2 =>
                (if is2xx r2 then Ok tt else Throw (responseError E r2),
                 with_post second w1)
            end
        end
      else (Throw (responseError E r), w1)
  end.
Proof.
  unfold doHubRequest, bind, log, modify, post, lift, ret, throw. cbn. fold first.
  destruct (hub E (hubPosts w) first) as [r|e]; [|reflexivity].
  destruct (is2xx r); [reflexivity|].
  destruct (statusCode r =? 401); [|reflexivity].
  destruct (refreshOAuthToken E token) as [t|e]; [|reflexivity]. cbn.
  destruct (hub E (hubPosts w ++ [first]) _) as [r2|e]; [|reflexivity].
  destruct (is2xx r2); reflexivity.
Qed.

(** The status branches of [doHubRequest], for whatever [got.post] resolves
    with: a 2xx response ends the request after one post; a 401 response
    leads to one more post, carrying the token of [refreshOAuthToken], whose
    response decides; any other response fails at once with the error built
    from it; no run posts more than twice. *)
Lemma doHubRequest_status_branches w :
  let run := doHubRequest E webhook hubParams token w in
  (length (hubPosts (snd run)) <= length (hubPosts w) + 2)%nat
  /\ (forall r, hub E (hubPosts w) first = Resolved r -> is2xx r = true ->
        fst run = Ok tt /\ hubPosts (snd run) = hubPosts w ++ [first])
  /\ (forall r token', hub E (hubPosts w) first = Resolved r -> statusCode r = 401 ->
        refreshOAuthToken E token = Ok token' ->
        let second := {| bearer := token'; payload := hubParams |} in
        hubPosts (snd run) = hubPosts w ++ [first; second]
        /\ forall r2, hub E (hubPosts w ++ [first]) second = Resolved r2 ->
             fst run = if is2xx r2 then Ok tt else Throw (responseError E r2))
  /\ (forall r, hub E (hubPosts w) first = Resolved r -> is2xx r = false ->
        statusCode r <> 401 ->
        fst run = Throw (responseError E r) /\ hubPosts (snd run) = hubPosts w ++ [first]).
Proof.
  cbv zeta. rewrite doHubRequest_cases. cbv zeta.
  destruct (hub E (hubPosts w) first) as [r|e] eqn:H1.
  - destruct (is2xx r) eqn:H2;
      [|destruct (statusCode r =? 401) eqn:H3;
        [apply Z.eqb_eq in H3; pose proof (not_2xx_401 r H3);
         destruct (refreshOAuthToken E token) as [t|e] eqn:H4;
         [destruct (hub E (hubPosts w ++ [first]) {| bearer := t; payload := hubParams |})
            as [r2|e2] eqn:H5|]
        |apply Z.eqb_neq in H3]];
      cbn; rewrite ?length_app; cbn;
      (split; [lia|]); (split; [|split]); intros; simplify_eq;
      rewrite <- ?app_assoc; try (split; [reflexivity|]); eauto;
      try congruence.
    all: try (intros r2' Hr2; rewrite H5 in Hr2; simplify_eq; reflexivity).
    all: match goal with
         | Hs : statusCode ?x = 401, Ht : is2xx ?x = true |- _ =>
             apply not_2xx_401 in Hs; congruence
         end.
  - cbn. rewrite length_app. cbn. split; [lia|].
    split; [|split]; intros; discriminate.
Qed.

Lemma is2xx_ok r : is2xx r = true -> Got.isResponseOk r = true.
Proof.
  intros H. apply is2xx_range in H. unfold Got.isResponseOk.
  apply orb_true_iff. left. apply andb_true_iff. split; apply Z.leb_le; lia.
Qed.

Lemma ok_not_2xx r : Got.isResponseOk r = true -> is2xx r = false -> statusCode r = 304.
Proof.
  unfold Got.isResponseOk. intros H Hn.
  apply orb_true_iff in H as [H|H]; [|apply Z.eqb_eq; exact H].
  apply andb_true_iff in H as [H1 H2]. apply Z.leb_le in H1, H2.
  assert (H2xx : is2xx r = true) by (apply is2xx_range; lia). congruence.
Qed.

(** [doHubRequest] when [got.post] settles as the library does: one post,
    whatever the hub answers. *)
Lemma doHubRequest_through_got w answer :
  hub E (hubPosts w) first = Got.settle answer ->
  doHubRequest E webhook hubParams token w
  = (match answer with
     | Failed e => Throw e
     | Resolved r =>
         if is2xx r then Ok tt
         else if statusCode r =? 304 then Throw (responseError E r)
         else Throw (HTTPError r)
     end,
     with_post first (with_log (Debug, "Making hub request with: ") w)).
Proof.
  intros H. rewrite doHubRequest_cases. cbv zeta. rewrite H.
  destruct answer as [r|e]; [|reflexivity]. unfold Got.settle.
  destruct (Got.isResponseOk r) eqn:Hok.
  - destruct (is2xx r) eqn:H2; [reflexivity|].
    rewrite (ok_not_2xx r Hok H2). reflexivity.
  - destruct (is2xx r) eqn:H2; [apply is2xx_ok in H2; congruence|].
    destruct (statusCode r =? 304) eqn:H304; [|reflexivity].
    unfold Got.isResponseOk in Hok. rewrite H304, orb_true_r in Hok. discriminate.
Qed.

(** C2 on the program as it runs: [got.post] rejects every response
    that is not successful, a 401 among them, before [doHubRequest] sees a
    status.  The branch for 401 is never entered: whatever the hub answers,
    one post is made and none follows; a 401 ends the request with the
    [HTTPError] of the library, not with a second attempt. *)
Theorem hub_401_not_retried w exchange :
  (forall earlier p, hub E earlier p = Got.post exchange earlier p) ->
  let run := doHubRequest E webhook hubParams token w in
  hubPosts (snd run) = hubPosts w ++ [first]
  /\ (forall r, exchange (hubPosts w) first = Resolved r -> statusCode r = 401 ->
        fst run = Throw (HTTPError r))
  /\ (forall r, exchange (hubPosts w) first = Resolved r -> is2xx r = true ->
        fst run = Ok tt)
  /\ (forall r, exchange (hubPosts w) first = Resolved r -> is2xx r = false ->
        statusCode r <> 304 -> fst run = Throw (HTTPError r))
  /\ (forall e, exchange (hubPosts w) first = Failed e -> fst run = Throw e).
Proof.
  intros Hgot. cbv zeta.
  rewrite (doHubRequest_through_got w (exchange (hubPosts w) first) (Hgot _ _)).
  cbn [fst snd]. split; [reflexivity|]. split; [|split; [|split]].
  - intros r Hr Hs. rewrite Hr, (not_2xx_401 r Hs), Hs. reflexivity.
  - intros r Hr H2. rewrite Hr, H2. reflexivity.
  - intros r Hr H2 H304. rewrite Hr, H2.
    apply Z.eqb_neq in H304. rewrite H304. reflexivity.
  - intros e He. rewrite He. reflexivity.
Qed.

End HubProtocol.

(** ** Strings: splitting and scanning *)

Lemma append_empty s : "" +:+ s = s.
Proof. reflexivity. Qed.

Lemma append_cons x a b : String x a +:+ b = String x (a +:+ b).
Proof. reflexivity. Qed.

Lemma split_without sep s : occurs sep s = false -> JS.split sep s = [s].
Proof.
  induction s as [|x s IH]; cbn; [reflexivity|].
  intros H. apply orb_false_iff in H as [Hx Hs].
  rewrite Hx, (IH Hs). reflexivity.
Qed.

Lemma split_at_first sep p r :
  occurs sep p = false ->
  JS.split sep (p +:+ String sep r) = p :: JS.split sep r.
Proof.
  induction p as [|x p IH]; rewrite ?append_empty, ?append_cons; cbn.
  - intros _. rewrite Ascii.eqb_refl. reflexivity.
  - intros H. apply orb_false_iff in H as [Hx Hp].
    rewrite Hx, (IH Hp). reflexivity.
Qed.

Lemma hex_digit_not_equals n : Ascii.eqb (Crypto.hex_digit n) "=" = false.
Proof.
  unfold Crypto.hex_digit.
  assert (H : 0 <= Z.land n 15 < 16).
  { change 15 with (Z.ones 4). rewrite Z.land_ones by lia.
    apply Z.mod_pos_bound. lia. }
  assert (Hn : (Z.to_nat (Z.land n 15) < 16)%nat) by lia.
  destruct (Z.to_nat (Z.land n 15)) as [|k]; [reflexivity|].
  do 15 (destruct k as [|k]; [reflexivity|]). lia.
Qed.

Lemma hex_without_equals bs : occurs "=" (Crypto.hex bs) = false.
Proof.
  induction bs as [|b bs IH]; [reflexivity|].
  cbn [Crypto.hex occurs].
  rewrite !hex_digit_not_equals, IH. reflexivity.
Qed.

Lemma scan_common_prefix p a b : JS.scan (p +:+ a) (p +:+ b) = (String.length p + JS.scan a b)%nat.
Proof.
  induction p as [|x p IH]; rewrite ?append_empty, ?append_cons; cbn; [reflexivity|].
  rewrite Ascii.eqb_refl, IH. reflexivity.
Qed.

Lemma length_append a b : String.length (a +:+ b) = (String.length a + String.length b)%nat.
Proof.
  induction a as [|x a IH]; rewrite ?append_empty, ?append_cons; cbn; [reflexivity|].
  rewrite IH. reflexivity.
Qed.

(** The scan of two strings of one length stops right after the first
    position at which they differ. *)
Lemma strictEqualsCost_first_mismatch p x y a b :
  x <> y -> String.length a = String.length b ->
  JS.strictEqualsCost (p +:+ String x a) (p +:+ String y b) = S (String.length p).
Proof.
  intros Hxy Hlen. unfold JS.strictEqualsCost.
  rewrite !length_append. cbn. rewrite Hlen, Nat.eqb_refl, scan_common_prefix. cbn.
  apply Ascii.eqb_neq in Hxy. rewrite Hxy. lia.
Qed.



(** ** The signature gate *)

Section Gate.

Variables (req : Request) (w : World).

Lemma gate_parse_throws e :
  parseBody req = Throw e -> verificationMiddleware req w = (Throw e, w).
Proof. intros H. unfold verificationMiddleware, bind, lift. rewrite H. reflexivity. Qed.

Lemma gate_not_post parsed :
  parseBody req = Ok parsed -> String.eqb (method req) "POST" = false ->
  verificationMiddleware req w = (Ok (Next parsed), w).
Proof.
  intros H Hm. unfold verificationMiddleware, bind, lift. rewrite H, Hm. reflexivity.
Qed.

Lemma gate_no_signature parsed :
  parseBody req = Ok parsed -> method req = "POST" ->
  JS.truthy_opt (header "X-Hub-Signature" req) = false ->
  verificationMiddleware req w
  = (Ok (Rejected 400),
     with_log (LogError, "Request had no X-Hub-Signature header; Rejecting request.") w).
Proof.
  intros H Hm Hs. unfold verificationMiddleware, bind, lift. rewrite H, Hm. cbn.
  destruct (header "X-Hub-Signature" req) as [s|]; cbn in *; [rewrite Hs|]; reflexivity.
Qed.

Lemma gate_unknown_record parsed signature :
  parseBody req = Ok parsed -> method req = "POST" ->
  header "X-Hub-Signature" req = Some signature -> JS.truthy signature = true ->
  store w !! callbackId req = None ->
  verificationMiddleware req w
  = (Ok (Rejected 404),
     with_log (LogError, "Webhook " +:+ callbackId req +:+ " not found.") w).
Proof.
  intros H Hm Hs Ht Hr. unfold verificationMiddleware, bind, lift, getWebhookById.
  rewrite H, Hm, Hs, Ht. cbn. rewrite Hr. reflexivity.
Qed.

Lemma gate_signed parsed signature webhook :
  parseBody req = Ok parsed -> method req = "POST" ->
  header "X-Hub-Signature" req = Some signature -> JS.truthy signature = true ->
  store w !! callbackId req = Some webhook ->
  rawBody req <> "" ->
  let digest := hmacDigest (secret webhook) (rawBody req) in
  let candidate := JS.split "=" signature !! 1%nat in
  let w' := with_compared (JS.strictEqualsOptCost digest candidate) w in
  verificationMiddleware req w
  = if JS.strictEqualsOpt digest candidate then (Ok (Next parsed), w')
    else (Ok (Rejected 400),
          with_log (LogError, "Request gave bad X-Hub-Signature; Rejecting request.") w').
Proof.
  intros H Hm Hs Ht Hr Hb. unfold verificationMiddleware, bind, lift, getWebhookById.
  rewrite H, Hm, Hs, Ht. cbn. rewrite Hr.
  destruct (rawBody req) as [|c body] eqn:Hbody; [contradiction|]. cbn.
  destruct (JS.strictEqualsOpt _ _); reflexivity.
Qed.

(** A signed push without a single byte of body, for a stored record: the
    digest is never computed. *)
Lemma gate_empty_body parsed signature webhook :
  parseBody req = Ok parsed -> method req = "POST" ->
  header "X-Hub-Signature" req = Some signature -> JS.truthy signature = true ->
  store w !! callbackId req = Some webhook ->
  rawBody req = "" ->
  verificationMiddleware req w = (Throw invalidData, w).
Proof.
  intros H Hm Hs Ht Hr Hb. unfold verificationMiddleware, bind, lift, getWebhookById.
  rewrite H, Hm, Hs, Ht. cbn. rewrite Hr, Hb. reflexivity.
Qed.

End Gate.

Lemma prefixed_digest_truthy prefix digest : JS.truthy (prefix +:+ "=" +:+ digest) = true.
Proof. destruct prefix; reflexivity. Qed.

Lemma prefixed_digest_candidate prefix bs :
  occurs "=" prefix = false ->
  JS.split "=" (prefix +:+ "=" +:+ Crypto.hex bs) !! 1%nat = Some (Crypto.hex bs).
Proof.
  intros Hpre.
  change ("=" +:+ Crypto.hex bs) with (String "=" (Crypto.hex bs)).
  rewrite split_at_first by assumption.
  rewrite split_without by apply hex_without_equals. reflexivity.
Qed.


(** C10: for a push to a stored record whose header is any prefix
    without [=], then [=], then the digest of the body, the prefix is never
    looked at.  The push goes on when its body is not empty and has passed
    the parsing step; a body that is announced as JSON and is not throws in
    [JSON.parse], and an empty body throws in [update], whatever the
    header: these two are neither passed on nor answered. *)
Theorem signature_prefix_not_validated req w webhook prefix :
  method req = "POST" ->
  store w !! callbackId req = Some webhook ->
  occurs "=" prefix = false ->
  header "X-Hub-Signature" req
  = Some (prefix +:+ "=" +:+ hmacDigest (secret webhook) (rawBody req)) ->
  fst (verificationMiddleware req w)
  = match parseBody req with
    | Throw e => Throw e
    | Ok parsed => if JS.truthy (rawBody req) then Ok (Next parsed) else Throw invalidData
    end.
Proof.
  intros Hm Hr Hpre Hs.
  pose proof (prefixed_digest_truthy prefix (hmacDigest (secret webhook) (rawBody req))) as Ht.
  destruct (parseBody req) as [parsed|e] eqn:Hp.
  - destruct (rawBody req) as [|c body] eqn:Hb.
    + rewrite (gate_empty_body req w parsed _ webhook Hp Hm Hs Ht Hr Hb). reflexivity.
    + assert (Hne : rawBody req <> "") by (rewrite Hb; discriminate).
      pose proof (gate_signed req w parsed _ webhook Hp Hm Hs Ht Hr Hne) as Hg.
      cbv zeta in Hg. rewrite Hg. clear Hg. rewrite Hb in *.
      unfold hmacDigest. rewrite (prefixed_digest_candidate prefix _ Hpre).
      cbn [JS.strictEqualsOpt JS.truthy]. unfold JS.strictEquals.
      rewrite String.eqb_refl. reflexivity.
  - rewrite (gate_parse_throws req w e Hp). reflexivity.
Qed.

Lemma signature_prefix_not_validated_witness :
  let unparsable :=
    Inbound.push
      [("x-hub-signature",
        "md5=0ffead5f86d1ec7599f77552f7faaf15da8f998e2ccc9fdd39c38b756bf31a37")] "{" in
  let bodiless :=
    {| method := "POST";
       headers :=
         [("host", "example.org");
          ("x-hub-signature",
           "sha256=91dfac70c5348b04e1babb8b421ac92cec08b565b49ca16130dccb72503647b7")];
       originalUrl := Inbound.callbackUrl;
       rawBody := "" |} in
  fst (verificationMiddleware
         (Inbound.signed "md5=7ed3ea21965890cd6f0b4e3d53c869aca766d835908f9280ba24db20239d21f8")
         Inbound.world)
  = Ok (Next (JSON.parse Inbound.streamBody))
  /\ fst (verificationMiddleware unparsable Inbound.world)
     = Throw (SyntaxError "Unexpected token in JSON")
  /\ fst (verificationMiddleware bodiless Inbound.world) = Throw invalidData.
Proof.
  intros unparsable bodiless. split; [|split].
  - rewrite (signature_prefix_not_validated _ Inbound.world Sample.stream5 "md5");
      vm_compute; reflexivity.
  - rewrite (signature_prefix_not_validated unparsable Inbound.world Sample.stream5 "md5");
      vm_compute; reflexivity.
  - rewrite (signature_prefix_not_validated bodiless Inbound.world Sample.stream5 "sha256");
      vm_compute; reflexivity.
Defined.



(** Once the body has been parsed, the gate sorts every request: a POST
    without the header gets 400, one for an unknown record 404; one for a
    stored record goes on if the digests agree and gets 400 if not, when it
    has a body, and throws when it has none; anything but a POST goes on
    unchecked. *)
Lemma gate_classification req w parsed :
  parseBody req = Ok parsed ->
  (String.eqb (method req) "POST" = false ->
     verificationMiddleware req w = (Ok (Next parsed), w))
  /\ (method req = "POST" -> JS.truthy_opt (header "X-Hub-Signature" req) = false ->
        fst (verificationMiddleware req w) = Ok (Rejected 400))
  /\ (method req = "POST" -> JS.truthy_opt (header "X-Hub-Signature" req) = true ->
        store w !! callbackId req = None ->
        fst (verificationMiddleware req w) = Ok (Rejected 404))
  /\ (forall signature webhook,
        method req = "POST" -> header "X-Hub-Signature" req = Some signature ->
        JS.truthy signature = true -> store w !! callbackId req = Some webhook ->
        rawBody req <> "" ->
        fst (verificationMiddleware req w)
        = if JS.strictEqualsOpt (hmacDigest (secret webhook) (rawBody req))
                                (JS.split "=" signature !! 1%nat)
          then Ok (Next parsed) else Ok (Rejected 400))
  /\ (forall webhook,
        method req = "POST" -> JS.truthy_opt (header "X-Hub-Signature" req) = true ->
        store w !! callbackId req = Some webhook ->
        rawBody req = "" ->
        verificationMiddleware req w = (Throw invalidData, w)).
Proof.
  intros Hp. split; [|split; [|split; [|split]]].
  - intros Hm. apply gate_not_post; assumption.
  - intros Hm Hs. rewrite (gate_no_signature req w parsed Hp Hm Hs). reflexivity.
  - intros Hm Hs Hr.
    destruct (header "X-Hub-Signature" req) as [s|] eqn:Hh; [|discriminate].
    rewrite (gate_unknown_record req w parsed s Hp Hm Hh Hs Hr). reflexivity.
  - intros s wh Hm Hh Hs Hr Hb.
    pose proof (gate_signed req w parsed s wh Hp Hm Hh Hs Hr Hb) as Hg.
    cbv zeta in Hg. rewrite Hg.
    destruct (JS.strictEqualsOpt _ _); reflexivity.
  - intros wh Hm Hs Hr Hb.
    destruct (header "X-Hub-Signature" req) as [s|] eqn:Hh; [|discriminate].
    apply (gate_empty_body req w parsed s wh Hp Hm Hh Hs Hr Hb).
Qed.

(** C5 at a push that announces JSON and carries a text that is not:
    [JSON.parse] throws at the head of the middleware, so the push without a
    signature header is not answered with 400, and the same text on a GET is
    not passed on; the world is left as it was. *)
Theorem gate_malformed_json_unanswered w :
  verificationMiddleware (Inbound.push [] "{") w
  = (Throw (SyntaxError "Unexpected token in JSON"), w)
  /\ header "X-Hub-Signature" (Inbound.push [] "{") = None
  /\ verificationMiddleware
       {| method := "GET"; headers := [("content-type", "application/json")];
          originalUrl := Inbound.callbackUrl; rawBody := "{" |} w
     = (Throw (SyntaxError "Unexpected token in JSON"), w).
Proof. repeat split; apply gate_parse_throws; reflexivity. Qed.

(** ** Caller operations *)

Section Operations.

Variable E : Env.

Lemma changeSub_cases webhook subscribe userId w :
  changeSub E webhook subscribe userId w =
  match getOAuthToken E userId with
  | Ok token => doHubRequest E webhook (hubParamsOf E webhook subscribe) token w
  | Throw e => (Throw e, w)
  end.
Proof.
  unfold changeSub, bind, lift. destruct (getOAuthToken E userId); reflexivity.
Qed.

(** A hub request leaves the store, the scheduler and the events alone. *)
Lemma doHubRequest_frame webhook hubParams token w :
  let w' := snd (doHubRequest E webhook hubParams token w) in
  store w' = store w /\ storeOps w' = storeOps w
  /\ renewalScheduler w' = renewalScheduler w /\ emitted w' = emitted w
  /\ waiters w' = waiters w.
Proof.
  cbv zeta. rewrite doHubRequest_cases. cbv zeta.
  destruct (hub E _ _) as [r|e]; [|cbn; auto].
  destruct (is2xx r); [cbn; auto|].
  destruct (statusCode r =? 401); [|cbn; auto].
  destruct (refreshOAuthToken E token); [|cbn; auto].
  destruct (hub E _ _); cbn; auto.
Qed.

Lemma changeSub_frame webhook subscribe userId w :
  let w' := snd (changeSub E webhook subscribe userId w) in
  store w' = store w /\ storeOps w' = storeOps w
  /\ renewalScheduler w' = renewalScheduler w /\ emitted w' = emitted w
  /\ waiters w' = waiters w.
Proof.
  cbv zeta. rewrite changeSub_cases.
  destruct (getOAuthToken E userId); [apply doHubRequest_frame|cbn; auto].
Qed.

(** A hub request that the hub accepts at once. *)
Lemma changeSub_accepted webhook subscribe userId w token r :
  getOAuthToken E userId = Ok token ->
  hub E (hubPosts w) {| bearer := token; payload := hubParamsOf E webhook subscribe |}
  = Resolved r ->
  is2xx r = true ->
  changeSub E webhook subscribe userId w
  = (Ok tt,
     with_post {| bearer := token; payload := hubParamsOf E webhook subscribe |}
       (with_log (Debug, "Making hub request with: ") w)).
Proof.
  intros Ht Hh Hok. rewrite changeSub_cases, Ht, doHubRequest_cases. cbv zeta.
  rewrite Hh, Hok. reflexivity.
Qed.

Lemma doHubRequest_at_most_two webhook hubParams token w :
  (length (hubPosts (snd (doHubRequest E webhook hubParams token w)))
   <= length (hubPosts w) + 2)%nat.
Proof.
  rewrite doHubRequest_cases. cbv zeta.
  destruct (hub E _ _) as [r|e]; [|cbn; rewrite length_app; cbn; lia].
  destruct (is2xx r); [cbn; rewrite length_app; cbn; lia|].
  destruct (statusCode r =? 401); [|cbn; rewrite length_app; cbn; lia].
  destruct (refreshOAuthToken E token); [|cbn; rewrite length_app; cbn; lia].
  destruct (hub E _ _); cbn; rewrite !length_app; cbn; lia.
Qed.

Lemma changeSub_at_most_two webhook subscribe userId w :
  (length (hubPosts (snd (changeSub E webhook subscribe userId w)))
   <= length (hubPosts w) + 2)%nat.
Proof.
  rewrite changeSub_cases.
  destruct (getOAuthToken E userId); [apply doHubRequest_at_most_two|cbn; lia].
Qed.

Lemma is2xx_bounds r : is2xx r = (200 <=? statusCode r) && (statusCode r <? 300).
Proof.
  destruct (is2xx r) eqn:H.
  - apply is2xx_range in H. symmetry. apply andb_true_iff.
    split; [apply Z.leb_le|apply Z.ltb_lt]; lia.
  - symmetry. apply not_true_is_false. intros Hb. apply andb_true_iff in Hb as [H1 H2].
    apply Z.leb_le in H1. apply Z.ltb_lt in H2.
    assert (H2xx : is2xx r = true) by (apply is2xx_range; lia). congruence.
Qed.

(** [changeSub] resolves exactly when the hub accepts. *)
Lemma changeSub_outcome webhook subscribe userId w :
  if hubAccepts E webhook subscribe userId w
  then fst (changeSub E webhook subscribe userId w) = Ok tt
  else exists e, fst (changeSub E webhook subscribe userId w) = Throw e.
Proof.
  rewrite changeSub_cases. unfold hubAccepts.
  destruct (getOAuthToken E userId) as [token|e]; [|eauto].
  rewrite doHubRequest_cases. cbv zeta.
  destruct (hub E (hubPosts w) _) as [r|e]; [|eauto].
  rewrite <- is2xx_bounds. destruct (is2xx r); [reflexivity|].
  destruct (statusCode r =? 401); [|eauto].
  destruct (refreshOAuthToken E token) as [token'|e]; [|eauto].
  destruct (hub E (hubPosts w ++ _) _) as [r2|e]; [|eauto].
  rewrite <- is2xx_bounds. destruct (is2xx r2); cbn; eauto.
Qed.

(** With the library's [got.post], [changeSub] posts once when it has a
    token, and throws unless the answer is a 2xx. *)
Lemma changeSub_through_got exchange webhook subscribe userId w token :
  (forall earlier p, hub E earlier p = Got.post exchange earlier p) ->
  getOAuthToken E userId = Ok token ->
  let first := {| bearer := token; payload := hubParamsOf E webhook subscribe |} in
  hubPosts (snd (changeSub E webhook subscribe userId w)) = hubPosts w ++ [first]
  /\ (forall r, exchange (hubPosts w) first = Resolved r -> is2xx r = false ->
        hubAccepts E webhook subscribe userId w = false).
Proof.
  intros Hgot Ht. cbv zeta. split.
  - rewrite changeSub_cases, Ht.
    rewrite (doHubRequest_through_got E webhook _ token w _ (Hgot _ _)). reflexivity.
  - intros r Hr H2. unfold hubAccepts. rewrite Ht, Hgot. unfold Got.post. rewrite Hr.
    unfold Got.settle. destruct (Got.isResponseOk r) eqn:Hok; [|reflexivity].
    rewrite <- is2xx_bounds, H2, (ok_not_2xx r Hok H2). reflexivity.
Qed.

(** The first call for an id that is not stored: the record is inserted,
    then the hub is asked; whatever the hub says, the insert stays. *)
Lemma subscribe_new ty params config user w :
  let webhook := createWebhookPersistenceObject E ty params config in
  store w !! id webhook = None ->
  let run := subscribeOrGetSubscription E ty params config user w in
  store (snd run) = <[ id webhook := webhook ]> (store w)
  /\ storeOps (snd run) = storeOps w ++ [Persist (id webhook)]
  /\ (forall i, fst run = Ok i -> i = id webhook)
  /\ (length (hubPosts (snd run)) <= length (hubPosts w) + 2)%nat.
Proof.
  cbv zeta. intros Hnew.
  unfold subscribeOrGetSubscription, bind, getWebhookById, persistWebhook, modify.
  rewrite Hnew.
  set (webhook := createWebhookPersistenceObject E ty params config).
  set (w0 := with_store _ _ w).
  pose proof (changeSub_frame webhook true user w0) as (Hs & Ho & _).
  pose proof (changeSub_at_most_two webhook true user w0) as Hp.
  destruct (changeSub E webhook true user w0) as [[u|e] w1]; cbn in *.
  - repeat split; try assumption. intros i Hi. congruence.
  - repeat split; try assumption. intros i Hi. discriminate.
Qed.

Lemma subscribe_accepted ty params config user w token r :
  let webhook := createWebhookPersistenceObject E ty params config in
  let first := {| bearer := token; payload := hubParamsOf E webhook true |} in
  store w !! id webhook = None ->
  getOAuthToken E user = Ok token ->
  hub E (hubPosts w) first = Resolved r ->
  is2xx r = true ->
  subscribeOrGetSubscription E ty params config user w
  = (Ok (id webhook),
     with_post first
       (with_log (Debug, "Making hub request with: ")
          (with_store (insert (id webhook) webhook) (Persist (id webhook)) w))).
Proof.
  cbv zeta. intros Hnew Ht Hh Hok.
  unfold subscribeOrGetSubscription, bind, getWebhookById, persistWebhook, modify.
  rewrite Hnew.
  set (webhook := createWebhookPersistenceObject E ty params config) in *.
  rewrite (changeSub_accepted webhook true user
             (with_store (insert (id webhook) webhook) (Persist (id webhook)) w)
             token r Ht Hh Hok).
  reflexivity.
Qed.

(** The call for an id that is stored only reads the store and logs. *)
Lemma subscribe_known ty params config user w old :
  store w !! id (createWebhookPersistenceObject E ty params config) = Some old ->
  let run := subscribeOrGetSubscription E ty params config user w in
  fst run = Ok (id old)
  /\ store (snd run) = store w
  /\ storeOps (snd run) = storeOps w
  /\ hubPosts (snd run) = hubPosts w.
Proof.
  intros Hold. cbv zeta. unfold subscribeOrGetSubscription, bind, getWebhookById.
  rewrite Hold. cbn. auto.
Qed.

(** C3, as the code has it: when the derived id is already in the
    store the call returns the stored record's id and neither writes to the
    store nor posts to the hub.  When it is not, the first call inserts the
    record once and asks the hub; it returns the derived id when the hub
    accepts and throws when it does not, the record staying inserted.  A
    second call with the same arguments returns the derived id and adds no
    post and no insert.  The two calls make no post when no token is had,
    one post when the hub accepts at once, one post whenever a token is had
    and [got.post] settles as the library does, and never more than two. *)
Theorem subscribe_twice_one_request ty params config user w :
  let webhook := createWebhookPersistenceObject E ty params config in
  let subscribe := subscribeOrGetSubscription E ty params config user in
  (forall old, store w !! id webhook = Some old ->
     fst (subscribe w) = Ok (id old)
     /\ store (snd (subscribe w)) = store w
     /\ storeOps (snd (subscribe w)) = storeOps w
     /\ hubPosts (snd (subscribe w)) = hubPosts w)
  /\ (store w !! id webhook = None ->
      let w1 := snd (subscribe w) in
      let w2 := snd (subscribe w1) in
      fst (subscribe w1) = Ok (id webhook)
      /\ (forall i, fst (subscribe w) = Ok i -> i = id webhook)
      /\ hubPosts w2 = hubPosts w1
      /\ storeOps w2 = storeOps w ++ [Persist (id webhook)]
      /\ (length (hubPosts w1) <= length (hubPosts w) + 2)%nat
      /\ (forall token r,
            getOAuthToken E user = Ok token ->
            hub E (hubPosts w) {| bearer := token; payload := hubParamsOf E webhook true |}
            = Resolved r ->
            is2xx r = true ->
            fst (subscribe w) = Ok (id webhook)
            /\ hubPosts w2
               = hubPosts w
                 ++ [{| bearer := token; payload := hubParamsOf E webhook true |}])
      /\ (hubAccepts E webhook true user w = true -> fst (subscribe w) = Ok (id webhook))
      /\ (hubAccepts E webhook true user w = false ->
          (exists e, fst (subscribe w) = Throw e)
          /\ store w1 !! id webhook = Some webhook)
      /\ (forall e, getOAuthToken E user = Throw e ->
            fst (subscribe w) = Throw e /\ hubPosts w2 = hubPosts w)
      /\ (forall exchange token,
            (forall earlier p, hub E earlier p = Got.post exchange earlier p) ->
            getOAuthToken E user = Ok token ->
            hubPosts w2
            = hubPosts w ++ [{| bearer := token; payload := hubParamsOf E webhook true |}])).
Proof.
  cbv zeta. split.
  - intros old Hold. apply subscribe_known. assumption.
  - intros Hnew.
    pose proof (subscribe_new ty params config user w Hnew) as (Hs & Ho & Hi & Hp).
    cbv zeta in Hs, Ho, Hi, Hp.
    assert (Hrun : subscribeOrGetSubscription E ty params config user w
                   = (let webhook := createWebhookPersistenceObject E ty params config in
                      let (r, w') := changeSub E webhook true user
                                       (with_store (insert (id webhook) webhook)
                                                   (Persist (id webhook)) w) in
                      match r with
                      | Ok _ => (Ok (id webhook), w')
                      | Throw e => (Throw e, w')
                      end)).
    { unfold subscribeOrGetSubscription, bind, getWebhookById, persistWebhook, modify, ret.
      rewrite Hnew. reflexivity. }
    cbv zeta in Hrun.
    set (webhook := createWebhookPersistenceObject E ty params config) in *.
    set (w0 := with_store (insert (id webhook) webhook) (Persist (id webhook)) w) in *.
    set (w1 := snd (subscribeOrGetSubscription E ty params config user w)) in *.
    assert (Hstored : store w1 !! id webhook = Some webhook).
    { rewrite Hs. apply lookup_insert_eq. }
    pose proof (subscribe_known ty params config user w1 webhook Hstored)
      as (H1 & _ & H3 & H4). cbv zeta in H1, H3, H4.
    pose proof (changeSub_outcome webhook true user w0) as Hout.
    change (hubAccepts E webhook true user w0) with (hubAccepts E webhook true user w) in Hout.
    split; [exact H1|]. split; [exact Hi|]. split; [exact H4|].
    split; [rewrite H3; exact Ho|]. split; [exact Hp|].
    split; [|split; [|split; [|split]]].
    + intros token r Ht Hh Hok. rewrite H4. subst w1 webhook.
      rewrite (subscribe_accepted ty params config user w token r Hnew Ht Hh Hok).
      cbn. auto.
    + intros Hacc. rewrite Hacc in Hout. rewrite Hrun.
      destruct (changeSub E webhook true user w0) as [[u|e] w']; cbn in *;
        [reflexivity|discriminate].
    + intros Hacc. rewrite Hacc in Hout. destruct Hout as [e He]. split; [|exact Hstored].
      exists e. rewrite Hrun.
      destruct (changeSub E webhook true user w0) as [[u|e'] w']; cbn in *; congruence.
    + intros e He. rewrite H4. subst w1. rewrite Hrun, changeSub_cases, He. auto.
    + intros exchange token Hgot Ht. rewrite H4. subst w1. rewrite Hrun.
      destruct (changeSub_through_got exchange webhook true user w0 token Hgot Ht) as [Hposts _].
      destruct (changeSub E webhook true user w0) as [[u|e] w']; exact Hposts.
Qed.

Lemma doHubRequest_first_post webhook hubParams token w :
  exists rest,
    hubPosts (snd (doHubRequest E webhook hubParams token w))
    = hubPosts w ++ {| bearer := token; payload := hubParams |} :: rest.
Proof.
  rewrite doHubRequest_cases. cbv zeta.
  destruct (hub E _ _) as [r|e]; [|exists []; reflexivity].
  destruct (is2xx r); [exists []; reflexivity|].
  destruct (statusCode r =? 401); [|exists []; reflexivity].
  destruct (refreshOAuthToken E token) as [t|e]; [|exists []; reflexivity].
  exists [{| bearer := t; payload := hubParams |}].
  destruct (hub E _ _); cbn; rewrite <- app_assoc; reflexivity.
Qed.

Lemma unsubscribePersistenceObject_cases webhook w :
  unsubscribePersistenceObject E webhook w =
  let w0 := with_log (Debug, "Unsubbing from: ")
              (with_log (Info, "Unsubscribing from webhook " +:+ id webhook) w) in
  match changeSub E webhook false None w0 with
  | (Ok _, w1) =>
      (Ok tt,
       if match renewalScheduler w1 with Some _ => true | None => false end
       then with_scheduler (fun s => s ∖ {[ id webhook ]}) w1 else w1)
  | (Throw e, w1) => (Throw e, w1)
  end.
Proof.
  unfold unsubscribePersistenceObject, bind, log, modify, hasScheduler,
    removeFromScheduler, ret. cbn.
  destruct (changeSub E webhook false None _) as [[u|e] w1]; [|reflexivity].
  destruct (renewalScheduler w1); reflexivity.
Qed.

Lemma unsubscribePersistenceObject_frame webhook w :
  let w' := snd (unsubscribePersistenceObject E webhook w) in
  store w' = store w /\ storeOps w' = storeOps w /\ emitted w' = emitted w
  /\ waiters w' = waiters w /\ unhandled w' = unhandled w.
Proof.
  cbv zeta. rewrite unsubscribePersistenceObject_cases. cbv zeta.
  set (w0 := with_log _ (with_log _ w)).
  pose proof (changeSub_frame webhook false None w0) as (Hs & Ho & _ & He & Hw).
  assert (Hu : unhandled (snd (changeSub E webhook false None w0)) = unhandled w).
  { rewrite changeSub_cases. destruct (getOAuthToken E None) as [t|e]; [|reflexivity].
    rewrite doHubRequest_cases. cbv zeta.
    destruct (hub E _ _) as [r|e]; [|reflexivity].
    destruct (is2xx r); [reflexivity|].
    destruct (statusCode r =? 401); [|reflexivity].
    destruct (refreshOAuthToken E t); [|reflexivity].
    destruct (hub E _ _); reflexivity. }
  destruct (changeSub E webhook false None w0) as [[u|e] w1]; cbn in *.
  - destruct (renewalScheduler w1); cbn; auto.
  - auto.
Qed.

(** [resubscribe] and the subscribing call await the hub request: what it
    throws is what they throw. *)
Lemma resubscribe_found webhookId webhook w :
  store w !! webhookId = Some webhook ->
  resubscribe E webhookId w = changeSub E webhook true None w.
Proof.
  intros H. unfold resubscribe, bind, getWebhookById. rewrite H. reflexivity.
Qed.

Lemma subscribe_rejects ty params config user w e :
  let webhook := createWebhookPersistenceObject E ty params config in
  store w !! id webhook = None ->
  fst (changeSub E webhook true user
         (with_store (insert (id webhook) webhook) (Persist (id webhook)) w))
  = Throw e ->
  fst (subscribeOrGetSubscription E ty params config user w) = Throw e.
Proof.
  cbv zeta. intros Hnew Hthrow.
  unfold subscribeOrGetSubscription, bind, getWebhookById, persistWebhook, modify.
  rewrite Hnew.
  destruct (changeSub E _ true user _) as [[u|e'] w1]; cbn in *; congruence.
Qed.

Lemma unsubscribe_found webhookId webhook w :
  store w !! webhookId = Some webhook ->
  unsubscribe E webhookId w = detach (unsubscribePersistenceObject E webhook) w.
Proof.
  intros H. unfold unsubscribe, bind, getWebhookById. rewrite H. reflexivity.
Qed.

(** However the hub request ends, [unsubscribe] on a stored id resolves. *)
Lemma unsubscribe_found_resolves webhookId webhook w :
  store w !! webhookId = Some webhook -> fst (unsubscribe E webhookId w) = Ok tt.
Proof.
  intros H. rewrite (unsubscribe_found _ _ _ H). unfold detach.
  destruct (unsubscribePersistenceObject E webhook w) as [[u|e] w']; reflexivity.
Qed.

(** Enter the branch of [getHandler] for a callback whose record is stored. *)
Ltac known_callback Hk :=
  destruct Hk as (topic & query & Ht & Htt & Hq & Hr & Hid);
  unfold getHandler; rewrite Ht; cbn [JS.truthy_opt showNullable]; rewrite Htt;
  cbn [negb]; rewrite Hq; unfold bind at 1; unfold getWebhookById at 1; rewrite Hr.

Lemma getHandler_denied ty req w webhook :
  knownCallback E ty req w webhook ->
  JS.truthy_opt (get "hub.mode" (searchParams (originalUrl req))) = false
  \/ get "hub.mode" (searchParams (originalUrl req)) = Some "denied" ->
  let reason := get "hub.reason" (searchParams (originalUrl req)) in
  getHandler E ty req w
  = (Ok {| resStatus := 200; resHeaders := []; resBody := None; resEnded := true |},
     with_event (EvError (SubscriptionDeniedError webhook (denialReason reason)) None)
       (fun ws => ws)
       (with_store (delete (id webhook)) (Delete (id webhook))
          (with_log (LogError, "Subscription denied. reason: " +:+ showNullable reason) w))).
Proof.
  intros Hk Hmode. cbv zeta. known_callback Hk.
  assert (Hc : negb (JS.truthy_opt (get "hub.mode" (searchParams (originalUrl req))))
               || JS.strictEqualsOpt "denied" (get "hub.mode" (searchParams (originalUrl req)))
               = true).
  { destruct Hmode as [H|H]; rewrite H; reflexivity. }
  rewrite Hc, Hid.
  destruct (get "hub.reason" (searchParams (originalUrl req))) as [text|]; reflexivity.
Qed.

Lemma getHandler_unsubscribed ty req w webhook :
  knownCallback E ty req w webhook ->
  get "hub.mode" (searchParams (originalUrl req)) = Some "unsubscribe" ->
  getHandler E ty req w
  = (Ok (echoChallenge (get "hub.challenge" (searchParams (originalUrl req)))),
     with_event (EvUnsubscribed (id webhook)) (map (onUnsubscribed (id webhook)))
       (with_log (Info, "Confirmed unsubscription from webhook " +:+ id webhook)
          (with_store (delete (id webhook)) (Delete (id webhook)) w))).
Proof.
  intros Hk Hmode. known_callback Hk. rewrite Hmode. reflexivity.
Qed.

(** C6: a callback without mode, or with mode [denied], for a stored
    record ends the response without a body, deletes the record and emits
    one ['error'] event that carries the record and the reason, or the
    default text when no reason came. *)
Theorem denial_deletes_record ty req w webhook :
  knownCallback E ty req w webhook ->
  JS.truthy_opt (get "hub.mode" (searchParams (originalUrl req))) = false
  \/ get "hub.mode" (searchParams (originalUrl req)) = Some "denied" ->
  let run := getHandler E ty req w in
  let reason := get "hub.reason" (searchParams (originalUrl req)) in
  fst run = Ok {| resStatus := 200; resHeaders := []; resBody := None; resEnded := true |}
  /\ store (snd run) = delete (id webhook) (store w)
  /\ store (snd run) !! id webhook = None
  /\ emitted (snd run)
     = emitted w
       ++ [EvError (SubscriptionDeniedError webhook
                      (denialReason reason)) None].
Proof.
  intros Hk Hmode. cbv zeta.
  pose proof (getHandler_denied ty req w webhook Hk Hmode) as Heq. cbv zeta in Heq.
  rewrite Heq. cbn. repeat split. apply lookup_delete_eq.
Qed.

(** The renewal scheduler after [unsubscribe] on a stored id: the id is
    taken out when the hub request ended well, and stays when it did not,
    since [removeFromScheduler] follows the awaited [changeSub]. *)
Lemma unsubscribe_scheduler webhookId webhook w :
  store w !! webhookId = Some webhook ->
  renewalScheduler (snd (unsubscribe E webhookId w))
  = if hubAccepts E webhook false None w
    then (fun s => s ∖ {[ id webhook ]}) <$> renewalScheduler w
    else renewalScheduler w.
Proof.
  intros H. rewrite (unsubscribe_found _ _ _ H). unfold detach.
  rewrite unsubscribePersistenceObject_cases. cbv zeta.
  set (w0 := with_log _ (with_log _ w)).
  pose proof (changeSub_outcome webhook false None w0) as Hout.
  change (hubAccepts E webhook false None w0) with (hubAccepts E webhook false None w) in Hout.
  pose proof (changeSub_frame webhook false None w0) as (_ & _ & Hr & _).
  change (renewalScheduler w0) with (renewalScheduler w) in Hr.
  destruct (hubAccepts E webhook false None w).
  - destruct (changeSub E webhook false None w0) as [[u|e] w1]; cbn [fst snd] in *;
      [|discriminate].
    rewrite <- Hr. destruct (renewalScheduler w1) eqn:Hw1; cbn; rewrite ?Hw1; reflexivity.
  - destruct Hout as [e He].
    destruct (changeSub E webhook false None w0) as [[u|e'] w1]; cbn [fst snd] in *;
      [discriminate|exact Hr].
Qed.

(** C7, as the code has it: [unsubscribe] on an id that is not stored
    throws the not-found error and changes nothing.  On a stored id it leaves
    the store as it was; once it has a token, the first post it makes
    carries mode [unsubscribe], and without a token it posts nothing; the id
    is taken out of the renewal scheduler when the hub request ends well
    and stays in it when the request fails.  The record goes only when the
    hub's callback with mode [unsubscribe] comes in: that deletes it, echoes
    the challenge as plain text with status 200 and emits ['unsubscribed']. *)
Theorem unsubscribe_deletes_on_confirmation webhookId w :
  (store w !! webhookId = None ->
     unsubscribe E webhookId w = (Throw (notFound webhookId), w))
  /\ (forall webhook, store w !! webhookId = Some webhook ->
        let w' := snd (unsubscribe E webhookId w) in
        store w' = store w
        /\ storeOps w' = storeOps w
        /\ hub_mode (hubParamsOf E webhook false) = "unsubscribe"
        /\ (forall token, getOAuthToken E None = Ok token ->
              exists rest,
                hubPosts w'
                = hubPosts w
                  ++ {| bearer := token; payload := hubParamsOf E webhook false |} :: rest)
        /\ (forall e, getOAuthToken E None = Throw e -> hubPosts w' = hubPosts w)
        /\ (forall token r,
              getOAuthToken E None = Ok token ->
              hub E (hubPosts w) {| bearer := token; payload := hubParamsOf E webhook false |}
              = Resolved r ->
              is2xx r = true ->
              renewalScheduler w'
              = (fun s => s ∖ {[ id webhook ]}) <$> renewalScheduler w)
        /\ renewalScheduler w'
           = (if hubAccepts E webhook false None w
              then (fun s => s ∖ {[ id webhook ]}) <$> renewalScheduler w
              else renewalScheduler w)
        /\ (forall exchange token r,
              (forall earlier p, hub E earlier p = Got.post exchange earlier p) ->
              getOAuthToken E None = Ok token ->
              exchange (hubPosts w) {| bearer := token; payload := hubParamsOf E webhook false |}
              = Resolved r ->
              is2xx r = false ->
              renewalScheduler w' = renewalScheduler w))
  /\ (forall ty req webhook,
        knownCallback E ty req w webhook ->
        get "hub.mode" (searchParams (originalUrl req)) = Some "unsubscribe" ->
        let run := getHandler E ty req w in
        fst run
        = Ok {| resStatus := 200; resHeaders := [("Content-Type", "text/plain")];
                resBody := get "hub.challenge" (searchParams (originalUrl req));
                resEnded := true |}
        /\ store (snd run) = delete (id webhook) (store w)
        /\ store (snd run) !! id webhook = None
        /\ storeOps (snd run) = storeOps w ++ [Delete (id webhook)]
        /\ emitted (snd run) = emitted w ++ [EvUnsubscribed (id webhook)]).
Proof.
  split; [|split].
  - intros H. unfold unsubscribe, bind, getWebhookById. rewrite H. reflexivity.
  - intros webhook H. cbv zeta.
    pose proof (unsubscribe_scheduler webhookId webhook w H) as Hsch.
    rewrite (unsubscribe_found _ _ _ H) in *.
    pose proof (unsubscribePersistenceObject_frame webhook w) as (Hs & Ho & _).
    split; [|split; [|split; [|split; [|split; [|split; [|split]]]]]].
    + unfold detach.
      destruct (unsubscribePersistenceObject E webhook w) as [[u|e] w1]; cbn in *; assumption.
    + unfold detach.
      destruct (unsubscribePersistenceObject E webhook w) as [[u|e] w1]; cbn in *; assumption.
    + reflexivity.
    + intros token Ht. unfold detach. rewrite unsubscribePersistenceObject_cases. cbv zeta.
      rewrite changeSub_cases, Ht.
      destruct (doHubRequest_first_post webhook (hubParamsOf E webhook false) token
                  (with_log (Debug, "Unsubbing from: ")
                     (with_log (Info, "Unsubscribing from webhook " +:+ id webhook) w)))
        as [rest Hrest].
      exists rest.
      destruct (doHubRequest E webhook _ token _) as [[u|e] w1]; cbn in *; [|assumption].
      destruct (renewalScheduler w1); cbn; assumption.
    + intros e He. unfold detach. rewrite unsubscribePersistenceObject_cases. cbv zeta.
      rewrite changeSub_cases, He. reflexivity.
    + intros token r Ht Hh Hok. rewrite Hsch. unfold hubAccepts.
      rewrite Ht, Hh, <- is2xx_bounds, Hok. reflexivity.
    + exact Hsch.
    + intros exchange token r Hgot Ht Hr H2. rewrite Hsch.
      destruct (changeSub_through_got exchange webhook false None w token Hgot Ht) as [_ Hacc].
      rewrite (Hacc r Hr H2). reflexivity.
  - intros ty req webhook Hk Hmode. cbv zeta.
    rewrite (getHandler_unsubscribed ty req w webhook Hk Hmode). cbn.
    repeat split. apply lookup_delete_eq.
Qed.

Lemma getHandler_confirmed ty req w webhook mode :
  knownCallback E ty req w webhook ->
  get "hub.mode" (searchParams (originalUrl req)) = Some mode ->
  JS.truthy mode = true -> mode <> "denied" -> mode <> "unsubscribe" ->
  let params := searchParams (originalUrl req) in
  let saved := withLease webhook (JS.newDate (JS.Int (clock E (clockReads w))))
                 (leaseEnd E w webhook (get "hub.lease_seconds" params)) in
  let run := getHandler E ty req w in
  fst run = Ok (echoChallenge (get "hub.challenge" params))
  /\ store (snd run) = <[ id webhook := saved ]> (store w)
  /\ emitted (snd run) = emitted w ++ [EvSubscribed (id webhook)]
  /\ renewalScheduler (snd run) = (fun s => {[ id webhook ]} ∪ s) <$> renewalScheduler w.
Proof.
  intros Hk Hmode Htm Hnd Hnu. cbv zeta.
  assert (Hrun : exists w',
             getHandler E ty req w
             = (Ok (echoChallenge (get "hub.challenge" (searchParams (originalUrl req)))), w')
             /\ store w'
                = <[ id webhook :=
                       withLease webhook (JS.newDate (JS.Int (clock E (clockReads w))))
                         (leaseEnd E w webhook
                            (get "hub.lease_seconds" (searchParams (originalUrl req)))) ]>
                    (store w)
             /\ emitted w' = emitted w ++ [EvSubscribed (id webhook)]
             /\ renewalScheduler w'
                = (fun s => {[ id webhook ]} ∪ s) <$> renewalScheduler w).
  { known_callback Hk. unfold leaseEnd.
    rewrite Hmode. cbn [JS.truthy_opt JS.strictEqualsOpt]. rewrite Htm.
    unfold JS.strictEquals.
    assert (H1 : String.eqb "denied" mode = false) by (apply String.eqb_neq; congruence).
    assert (H2 : String.eqb "unsubscribe" mode = false) by (apply String.eqb_neq; congruence).
    rewrite H1, H2. cbn [negb orb]. rewrite <- Hid.
    unfold bind, now, saveWebhook, log, emit, modify, hasScheduler, addToScheduler, ret.
    destruct (JS.truthy_opt (get "hub.lease_seconds" (searchParams (originalUrl req))));
      cbn; destruct (renewalScheduler w) as [s|] eqn:Hs; cbn;
      eexists; (split; [reflexivity|]); cbn; rewrite ?Hs; auto. }
  destruct Hrun as (w' & Heq & H1 & H2 & H3). rewrite Heq. cbn. auto.
Qed.

(** With the lease echoed as a decimal number of seconds, the end is the
    start plus that many seconds. *)
Lemma lease_echoed w webhook text seconds :
  JS.truthy text = true -> JS.parseInt text = JS.Int seconds ->
  Z.abs (clock E (clockReads w)) <= 8640000000000000 ->
  Z.abs (clock E (clockReads w) + seconds * 1000) <= 8640000000000000 ->
  leaseEnd E w webhook (Some text) = JS.DateAt (clock E (clockReads w) + seconds * 1000).
Proof.
  intros Ht Hp H1 H2. unfold leaseEnd. cbn [JS.truthy_opt showNullable]. rewrite Ht, Hp.
  unfold JS.newDate at 2. apply Z.leb_le in H1. rewrite H1. cbn [JS.getTime JS.mul JS.add].
  unfold JS.newDate. apply Z.leb_le in H2. rewrite H2. reflexivity.
Qed.

End Operations.

(** C8 on [unsubscribe]: when the hub request it starts for a stored
    record fails, the call still resolves, because the request is not
    awaited; the error ends among the rejections nobody handles. *)
Theorem unsubscribe_hides_hub_failure (E : Env) webhookId webhook w e :
  store w !! webhookId = Some webhook ->
  fst (unsubscribePersistenceObject E webhook w) = Throw e ->
  fst (unsubscribe E webhookId w) = Ok tt
  /\ unhandled (snd (unsubscribe E webhookId w)) = unhandled w ++ [e].
Proof.
  intros Hstored Hthrow. rewrite (unsubscribe_found E _ _ _ Hstored). unfold detach.
  pose proof (unsubscribePersistenceObject_frame E webhook w) as (_ & _ & _ & _ & Hu).
  destruct (unsubscribePersistenceObject E webhook w) as [[u|e'] w1]; cbn in *.
  - discriminate.
  - injection Hthrow as ->. rewrite Hu. auto.
Qed.

Lemma unsubscribe_hides_hub_failure_witness :
  let E500 := Sample.env [500] in
  let failure := HubRequestError "HubError" {| statusCode := 500; body := "" |} in
  (fst (unsubscribe E500 "1?user_id=5" Inbound.world) = Ok tt
   /\ unhandled (snd (unsubscribe E500 "1?user_id=5" Inbound.world)) = [failure])
  /\ fst (resubscribe E500 "1?user_id=5" Inbound.world) = Throw failure.
Proof.
  intros E500 failure. split.
  - apply (unsubscribe_hides_hub_failure E500 "1?user_id=5" Sample.stream5 Inbound.world failure);
      vm_compute; reflexivity.
  - vm_compute. reflexivity.
Defined.

(** C4 for a confirmation that echoes no lease: the start is one reading
    of the clock, the end is the next reading plus the seconds of the record.
    It is start plus lease only if the clock has not moved in between. *)
Theorem lease_end_from_second_clock_reading (E : Env) ty req w webhook mode :
  knownCallback E ty req w webhook ->
  get "hub.mode" (searchParams (originalUrl req)) = Some mode ->
  JS.truthy mode = true -> mode <> "denied" -> mode <> "unsubscribe" ->
  JS.truthy_opt (get "hub.lease_seconds" (searchParams (originalUrl req))) = false ->
  let T := clock E (clockReads w) in
  let T' := clock E (S (clockReads w)) in
  Z.abs T <= 8640000000000000 ->
  Z.abs (T' + leaseSeconds webhook * 1000) <= 8640000000000000 ->
  let saved := store (snd (getHandler E ty req w)) !! id webhook in
  (subscriptionStart <$> saved) = Some (Some (JS.DateAt T))
  /\ (subscriptionEnd <$> saved) = Some (Some (JS.DateAt (T' + leaseSeconds webhook * 1000)))
  /\ (T' <> T ->
      (subscriptionEnd <$> saved) <> Some (Some (JS.DateAt (T + leaseSeconds webhook * 1000)))).
Proof.
  intros Hk Hmode Htm Hnd Hnu Hlease T T' HT HT'. cbv zeta.
  pose proof (getHandler_confirmed E ty req w webhook mode Hk Hmode Htm Hnd Hnu)
    as (_ & Hs & _). cbv zeta in Hs.
  rewrite Hs, lookup_insert_eq. cbn [fmap option_fmap option_map subscriptionStart
                                      subscriptionEnd withLease].
  unfold leaseEnd. rewrite Hlease. cbn [JS.mul JS.add]. unfold JS.newDate.
  fold T T'. apply Z.leb_le in HT, HT'. rewrite HT, HT'.
  repeat split. intros Hne Heq. injection Heq as Heq. lia.
Qed.

Lemma lease_end_from_second_clock_reading_witness :
  let E := Sample.env [] in
  let req := Inbound.callback [("hub.mode", "subscribe"); ("hub.challenge", "abc")] in
  let saved := store (snd (getHandler E StreamChanged req Inbound.world)) !! "1?user_id=5" in
  (subscriptionStart <$> saved) = Some (Some (JS.DateAt 1600000000000))
  /\ (subscriptionEnd <$> saved) = Some (Some (JS.DateAt (1600000000001 + 864000 * 1000)))
  /\ (subscriptionEnd <$> saved) <> Some (Some (JS.DateAt (1600000000000 + 864000 * 1000))).
Proof.
  intros E req saved.
  destruct (lease_end_from_second_clock_reading E StreamChanged req Inbound.world
              Sample.stream5 "subscribe") as (H1 & H2 & H3).
  - exists "https://api.twitch.tv/helix/streams?user_id=5", "?user_id=5".
    repeat split; vm_compute; reflexivity.
  - reflexivity.
  - reflexivity.
  - discriminate.
  - discriminate.
  - reflexivity.
  - vm_compute. discriminate.
  - vm_compute. discriminate.
  - split; [exact H1|]. split; [exact H2|]. apply H3. vm_compute. discriminate.
Defined.

(** ** [unsubFromAll] and its listener *)

Lemma deliver_remaining ks wt :
  webhookIds (deliver ks wt)
  = List.filter (fun x => negb (existsb (String.eqb x) ks)) (webhookIds wt).
Proof.
  revert wt. induction ks as [|k ks IH]; intros wt; cbn.
  - induction (webhookIds wt) as [|x l IHl]; cbn; congruence.
  - rewrite IH. cbn. induction (webhookIds wt) as [|x l IHl]; cbn; [reflexivity|].
    destruct (String.eqb x k); cbn; [assumption|].
    destruct (existsb (String.eqb x) ks); cbn; congruence.
Qed.

Lemma deliver_resolved ks wt :
  resolved (deliver ks wt) = true ->
  resolved wt = true \/ (ks <> [] /\ webhookIds (deliver ks wt) = []).
Proof.
  revert wt. induction ks as [|k ks IH]; intros wt; cbn.
  - auto.
  - intros H. destruct (IH _ H) as [Hr|[Hne Hids]].
    + cbn in Hr. apply orb_true_iff in Hr as [Hr|Hr]; [auto|].
      right. split; [discriminate|].
      rewrite deliver_remaining. cbn.
      apply Nat.eqb_eq, length_zero_iff_nil in Hr. rewrite Hr. reflexivity.
    + right. split; [discriminate|assumption].
Qed.

(** The promise can only settle after each listed id has been confirmed. *)
Lemma settles_only_after_every_confirmation ids ks :
  resolved (deliver ks {| webhookIds := ids; resolved := false |}) = true ->
  ks <> [] /\ forall k, In k ids -> In k ks.
Proof.
  intros H. apply deliver_resolved in H as [H|[Hne H]]; [discriminate|].
  split; [assumption|]. intros k Hk.
  rewrite deliver_remaining in H. cbn in H.
  assert (Hf : ~ In k (List.filter (fun x => negb (existsb (String.eqb x) ks)) ids))
    by (rewrite H; intros []).
  rewrite filter_In in Hf.
  destruct (existsb (String.eqb k) ks) eqn:He.
  - apply existsb_exists in He as (y & Hy & Heq). apply String.eqb_eq in Heq. congruence.
  - exfalso. apply Hf. split; [assumption|reflexivity].
Qed.

(** A listener with nothing to await is resolved by the first event of any
    id, and by nothing else. *)
Lemma empty_waiter_settles_on_any_event ks :
  resolved (deliver ks {| webhookIds := []; resolved := false |})
  = negb (Nat.eqb (length ks) 0).
Proof.
  destruct ks as [|k ks]; [reflexivity|]. cbn.
  induction ks as [|k' ks IH] in |- *; [reflexivity|]. cbn. exact IH.
Qed.

Lemma forEach_caught {A} (l : list A) (f : A -> M unit) (h : A -> Error -> M unit) w :
  (forall a e w0, fst (h a e w0) = Ok tt) ->
  fst (forEach l (fun a => catch (f a) (h a)) w) = Ok tt.
Proof.
  intros Hh. revert w. induction l as [|a l IH]; intros w; cbn; [reflexivity|].
  unfold bind, catch. destruct (f a w) as [[u|e] w1].
  - apply IH.
  - specialize (Hh a e w1). destruct (h a e w1) as [[u|e'] w2]; cbn in Hh.
    + apply IH.
    + discriminate.
Qed.

(** A failing record does not fail the batch: the call hands back its listener. *)
Lemma unsubFromAll_returns_listener E w :
  fst (unsubFromAll E w) = Ok (length (waiters w)).
Proof.
  unfold unsubFromAll, bind, log, modify, getAllWebhooks, registerWaiter. cbn.
  set (l := map snd (map_to_list (store w))).
  set (w1 := with_waiter _ _).
  pose proof (forEach_caught l (unsubscribePersistenceObject E)
                (fun webhook e => log LogError ("Error while unsubscribing from: " +:+ id webhook))
                w1 (fun _ _ _ => eq_refl)) as H.
  destruct (forEach l _ w1) as [[u|e] w2]; cbn in *; [reflexivity|discriminate].
Qed.

(** C9 on an empty store: the call makes no post and emits no event,
    and the promise it returns is not settled; its listener awaits no id, and
    it is only in the listener, on an ['unsubscribed'] event, that [resolve]
    is called. *)
Theorem unsubFromAll_empty_store_pending (E : Env) (w : World) :
  store w = ∅ ->
  let run := unsubFromAll E w in
  let finalPromise := length (waiters w) in
  fst run = Ok finalPromise
  /\ settled finalPromise (snd run) = false
  /\ waiters (snd run) !! finalPromise = Some {| webhookIds := []; resolved := false |}
  /\ hubPosts (snd run) = hubPosts w
  /\ emitted (snd run) = emitted w.
Proof.
  intros Hempty. cbv zeta.
  assert (Hrun : unsubFromAll E w
                 = (Ok (length (waiters w)),
                    with_waiter {| webhookIds := []; resolved := false |}
                      (with_log (Info, "Unsubbing from all webhook endpoints") w))).
  { unfold unsubFromAll, bind, log, modify, getAllWebhooks, registerWaiter. cbn.
    rewrite Hempty, map_to_list_empty. reflexivity. }
  rewrite Hrun. cbn. unfold settled. cbn.
  rewrite list_lookup_middle by reflexivity. auto.
Qed.

Lemma unsubFromAll_empty_store_pending_witness :
  let run := unsubFromAll (Sample.env []) (Sample.world []) in
  fst run = Ok 0%nat
  /\ settled 0 (snd run) = false
  /\ waiters (snd run) = [{| webhookIds := []; resolved := false |}]
  /\ hubPosts (snd run) = []
  /\ emitted (snd run) = [].
Proof.
  intros run.
  destruct (unsubFromAll_empty_store_pending (Sample.env []) (Sample.world []) eq_refl)
    as (H1 & H2 & _ & H4 & H5).
  split; [exact H1|]. split; [exact H2|]. split; [vm_compute; reflexivity|].
  split; [exact H4|exact H5].
Defined.

(** ** The theorems at work on the sample hub *)

Lemma hub_401_not_retried_witness :
  let hp := hubParamsOf (Sample.env []) Sample.stream5 true in
  let first := {| bearer := "token"; payload := hp |} in
  let run codes := doHubRequest (Sample.gotEnv codes) Sample.stream5 hp "token" Inbound.world in
  (fst (run [401; 200]) = Throw (HTTPError {| statusCode := 401; body := "" |})
   /\ hubPosts (snd (run [401; 200])) = [first])
  /\ fst (run [204]) = Ok tt
  /\ fst (run [500]) = Throw (HTTPError {| statusCode := 500; body := "" |}).
Proof.
  intros hp first run.
  split; [|split].
  - destruct (hub_401_not_retried (Sample.gotEnv [401; 200]) Sample.stream5 hp "token"
                Inbound.world (Sample.scripted [401; 200]) (fun _ _ => eq_refl))
      as (Hposts & H401 & _).
    split; [|exact Hposts].
    apply (H401 {| statusCode := 401; body := "" |}); reflexivity.
  - destruct (hub_401_not_retried (Sample.gotEnv [204]) Sample.stream5 hp "token"
                Inbound.world (Sample.scripted [204]) (fun _ _ => eq_refl))
      as (_ & _ & H2xx & _).
    apply (H2xx {| statusCode := 204; body := "" |}); reflexivity.
  - destruct (hub_401_not_retried (Sample.gotEnv [500]) Sample.stream5 hp "token"
                Inbound.world (Sample.scripted [500]) (fun _ _ => eq_refl))
      as (_ & _ & _ & H & _).
    apply (H {| statusCode := 500; body := "" |}); [reflexivity|reflexivity|discriminate].
Defined.

Lemma subscribe_twice_one_request_witness :
  let E := Sample.gotEnv [202] in
  let subscribe :=
    subscribeOrGetSubscription E StreamChanged [("user_id", "5")] (864000 : Z) None in
  let w1 := snd (subscribe (Sample.world [])) in
  let w2 := snd (subscribe w1) in
  (fst (subscribe Inbound.world) = Ok "1?user_id=5"
   /\ hubPosts (snd (subscribe Inbound.world)) = []
   /\ storeOps (snd (subscribe Inbound.world)) = [])
  /\ (fst (subscribe (Sample.world [])) = Ok "1?user_id=5"
      /\ fst (subscribe w1) = Ok "1?user_id=5"
      /\ hubPosts w2
         = [{| bearer := "token"; payload := hubParamsOf E Sample.stream5 true |}]
      /\ storeOps w2 = [Persist "1?user_id=5"]).
Proof.
  intros E subscribe w1 w2. split.
  - destruct (subscribe_twice_one_request E StreamChanged [("user_id", "5")] (864000 : Z) None
                Inbound.world) as [H _].
    destruct (H Sample.stream5 ltac:(vm_compute; reflexivity)) as (H1 & _ & H3 & H4).
    split; [exact H1|]. split; [exact H4|exact H3].
  - destruct (subscribe_twice_one_request E StreamChanged [("user_id", "5")] (864000 : Z) None
                (Sample.world [])) as [_ H].
    destruct (H ltac:(vm_compute; reflexivity))
      as (H1 & _ & _ & H4 & _ & _ & H7 & _ & _ & H10).
    split; [exact (H7 eq_refl)|]. split; [exact H1|].
    split; [exact (H10 (Sample.scripted [202]) "token" (fun _ _ => eq_refl) eq_refl)|exact H4].
Defined.

(** C3 as stated fails where the first call fails.  A hub that answers
    500: the first call posts once and throws, only the second returns the
    id.  A token service that rejects: the first call throws, the second
    returns the id, and the hub was never asked. *)
Lemma subscribe_twice_first_call_fails :
  let refused :=
    subscribeOrGetSubscription (Sample.gotEnv [500]) StreamChanged [("user_id", "5")]
      (864000 : Z) None in
  let tokenless :=
    subscribeOrGetSubscription deadHub StreamChanged [("user_id", "5")] (864000 : Z)
      (Some "5") in
  let w1 := snd (refused (Sample.world [])) in
  let v1 := snd (tokenless (Sample.world [])) in
  (fst (refused (Sample.world [])) = Throw (HTTPError {| statusCode := 500; body := "" |})
   /\ fst (refused w1) = Ok "1?user_id=5"
   /\ length (hubPosts (snd (refused w1))) = 1%nat
   /\ storeOps (snd (refused w1)) = [Persist "1?user_id=5"])
  /\ (fst (tokenless (Sample.world [])) = Throw (Rejection "no token for users")
      /\ fst (tokenless v1) = Ok "1?user_id=5"
      /\ hubPosts (snd (tokenless v1)) = []).
Proof. vm_compute. repeat split; reflexivity. Qed.

Lemma known_stream_callback params :
  knownCallback (Sample.env []) StreamChanged (Inbound.callback params) Inbound.world
    Sample.stream5.
Proof.
  exists "https://api.twitch.tv/helix/streams?user_id=5", "?user_id=5".
  repeat split; vm_compute; reflexivity.
Qed.

Lemma denial_deletes_record_witness :
  let E := Sample.env [] in
  let run := getHandler E StreamChanged
               (Inbound.callback [("hub.mode", "denied"); ("hub.reason", "quota")])
               Inbound.world in
  let silent := getHandler E StreamChanged (Inbound.callback []) Inbound.world in
  (fst run = Ok {| resStatus := 200; resHeaders := []; resBody := None; resEnded := true |}
   /\ store (snd run) !! "1?user_id=5" = None
   /\ emitted (snd run) = [EvError (SubscriptionDeniedError Sample.stream5 "quota") None])
  /\ (store (snd silent) !! "1?user_id=5" = None
      /\ emitted (snd silent)
         = [EvError (SubscriptionDeniedError Sample.stream5 "No reason given") None]).
Proof.
  intros E run silent. split.
  - destruct (denial_deletes_record E StreamChanged
                (Inbound.callback [("hub.mode", "denied"); ("hub.reason", "quota")])
                Inbound.world Sample.stream5 (known_stream_callback _)
                (or_intror eq_refl)) as (H1 & _ & H3 & H4).
    split; [exact H1|]. split; [exact H3|exact H4].
  - destruct (denial_deletes_record E StreamChanged (Inbound.callback [])
                Inbound.world Sample.stream5 (known_stream_callback _)
                (or_introl eq_refl)) as (_ & _ & H3 & H4).
    split; [exact H3|exact H4].
Defined.

Lemma scheduled_callback params :
  knownCallback (Sample.gotEnv [202]) StreamChanged (Inbound.callback params)
    (snd (unsubscribe (Sample.gotEnv [202]) "1?user_id=5" Inbound.scheduled)) Sample.stream5.
Proof.
  exists "https://api.twitch.tv/helix/streams?user_id=5", "?user_id=5".
  repeat split; vm_compute; reflexivity.
Qed.

Lemma unsubscribe_deletes_on_confirmation_witness :
  let E := Sample.gotEnv [202] in
  let w' := snd (unsubscribe E "1?user_id=5" Inbound.scheduled) in
  let confirmation :=
    getHandler E StreamChanged
      (Inbound.callback [("hub.mode", "unsubscribe"); ("hub.challenge", "xyz")]) w' in
  unsubscribe E "0?to_id=9" Inbound.scheduled
  = (Throw (notFound "0?to_id=9"), Inbound.scheduled)
  /\ (store w' = store Inbound.scheduled
      /\ (exists s, renewalScheduler Inbound.scheduled = Some s
                    /\ ("1?user_id=5" ∈ s) /\ ("0?to_id=9" ∈ s))
      /\ (exists s', renewalScheduler w' = Some s'
                     /\ ("1?user_id=5" ∉ s') /\ ("0?to_id=9" ∈ s')))
  /\ (fst confirmation
      = Ok {| resStatus := 200; resHeaders := [("Content-Type", "text/plain")];
              resBody := Some "xyz"; resEnded := true |}
      /\ store (snd confirmation) !! "1?user_id=5" = None
      /\ emitted (snd confirmation) = emitted w' ++ [EvUnsubscribed "1?user_id=5"]).
Proof.
  intros E w' confirmation. split; [|split].
  - destruct (unsubscribe_deletes_on_confirmation E "0?to_id=9" Inbound.scheduled) as (H & _).
    apply H. vm_compute. reflexivity.
  - destruct (unsubscribe_deletes_on_confirmation E "1?user_id=5" Inbound.scheduled)
      as (_ & H & _).
    destruct (H Sample.stream5 ltac:(vm_compute; reflexivity))
      as (H1 & _ & _ & _ & _ & H6 & _).
    split; [exact H1|]. split.
    + eexists. split; [reflexivity|]. split.
      * apply elem_of_union_l, elem_of_singleton_2. reflexivity.
      * apply elem_of_union_r, elem_of_singleton_2. reflexivity.
    + eexists. split.
      * exact (H6 "token" {| statusCode := 202; body := "" |} eq_refl eq_refl eq_refl).
      * change (id Sample.stream5) with "1?user_id=5". split.
        -- intros Hin. apply elem_of_difference in Hin as [_ Hn].
           apply Hn, elem_of_singleton_2. reflexivity.
        -- apply elem_of_difference. split.
           ++ apply elem_of_union_r, elem_of_singleton_2. reflexivity.
           ++ intros Hin. apply elem_of_singleton_1 in Hin. discriminate.
  - destruct (unsubscribe_deletes_on_confirmation E "1?user_id=5" w') as (_ & _ & H).
    destruct (H StreamChanged
                (Inbound.callback [("hub.mode", "unsubscribe"); ("hub.challenge", "xyz")])
                Sample.stream5 (scheduled_callback _) eq_refl) as (H1 & _ & H3 & _ & H5).
    split; [exact H1|]. split; [exact H3|exact H5].
Defined.

(** C7 as stated fails where the hub request fails: with a hub that
    answers 500, [unsubscribe] on the stored and scheduled subscription
    resolves, and the id is still held by the renewal scheduler. *)
Lemma unsubscribe_refused_stays_scheduled :
  let w' := snd (unsubscribe (Sample.gotEnv [500]) "1?user_id=5" Inbound.scheduled) in
  fst (unsubscribe (Sample.gotEnv [500]) "1?user_id=5" Inbound.scheduled) = Ok tt
  /\ length (hubPosts w') = 1%nat
  /\ exists s', renewalScheduler w' = Some s' /\ ("1?user_id=5" ∈ s').
Proof.
  cbv zeta.
  assert (Hstored : store Inbound.scheduled !! "1?user_id=5" = Some Sample.stream5)
    by (vm_compute; reflexivity).
  split; [apply (unsubscribe_found_resolves _ _ _ _ Hstored)|].
  split; [vm_compute; reflexivity|].
  rewrite (unsubscribe_scheduler _ _ _ _ Hstored).
  eexists. split; [reflexivity|].
  apply elem_of_union_l, elem_of_singleton_2. reflexivity.
Qed.

(** ** The store keeps every record under its id *)

Lemma insert_consistent (m : gmap string WebhookPersistenceObject) (v : WebhookPersistenceObject) :
  (forall k x, m !! k = Some x -> id x = k) ->
  forall k x, <[ id v := v ]> m !! k = Some x -> id x = k.
Proof.
  intros H k x. destruct (decide (id v = k)) as [<-|Hne].
  - rewrite lookup_insert_eq. congruence.
  - rewrite lookup_insert_ne by assumption. apply H.
Qed.

Lemma delete_consistent (m : gmap string WebhookPersistenceObject) i :
  (forall k x, m !! k = Some x -> id x = k) ->
  forall k x, delete i m !! k = Some x -> id x = k.
Proof.
  intros H k x. destruct (decide (i = k)) as [<-|Hne].
  - rewrite lookup_delete_eq. discriminate.
  - rewrite lookup_delete_ne by assumption. apply H.
Qed.

Lemma subscribe_consistent E ty params config user w :
  storeConsistent w ->
  storeConsistent (snd (subscribeOrGetSubscription E ty params config user w)).
Proof.
  intros Hc. unfold storeConsistent.
  destruct (store w !! id (createWebhookPersistenceObject E ty params config)) as [old|] eqn:Hl.
  - destruct (subscribe_known E ty params config user w old Hl) as (_ & Hs & _).
    rewrite Hs. exact Hc.
  - destruct (subscribe_new E ty params config user w Hl) as (Hs & _).
    rewrite Hs. apply insert_consistent. exact Hc.
Qed.

Lemma getHandler_consistent E ty req w :
  storeConsistent w -> storeConsistent (snd (getHandler E ty req w)).
Proof.
  intros Hc. unfold getHandler.
  destruct (negb _); [exact Hc|].
  destruct (topicSearch E _) as [q|]; [|exact Hc].
  unfold bind at 1. unfold getWebhookById at 1.
  destruct (store w !! getIdFromTypeAndParams E ty q) as [webhook|] eqn:Hl; [|exact Hc].
  destruct (negb _ || _).
  { unfold storeConsistent. cbn. apply delete_consistent. exact Hc. }
  destruct (JS.strictEqualsOpt "unsubscribe" _).
  { unfold storeConsistent. cbn. apply delete_consistent. exact Hc. }
  unfold bind, now, saveWebhook, log, emit, modify, hasScheduler, addToScheduler, ret.
  destruct (JS.truthy_opt _); cbn; destruct (renewalScheduler w); cbn;
    unfold storeConsistent; cbn;
    match goal with
    | |- forall k v, <[ ?i := ?x ]> _ !! k = Some v -> _ =>
        change i with (id x); apply insert_consistent; exact Hc
    end.
Qed.

Lemma sample_world_consistent : storeConsistent Inbound.world.
Proof.
  intros k v. unfold Inbound.world, Sample.world. cbn.
  intros H. apply lookup_insert_Some in H as [[<- <-]|[_ H]]; [reflexivity|].
  rewrite lookup_empty in H. discriminate.
Qed.

(** * Further properties of the manager *)

(** ** The hub request protocol beyond the retry *)

Section HubProtocolMore.

Variable E : Env.
Variables (webhook : WebhookPersistenceObject) (hubParams : HubParams) (token : string).

(** X1: the first answer ends the request with success exactly when its
    status lies in 200..299; a status of 0, an informational or a redirect
    status does not. *)
Theorem first_answer_accepted_in_200_299 w r :
  hub E (hubPosts w) {| bearer := token; payload := hubParams |} = Resolved r ->
  doHubRequest E webhook hubParams token w
  = (Ok tt,
     with_post {| bearer := token; payload := hubParams |}
       (with_log (Debug, "Making hub request with: ") w))
  <-> 200 <= statusCode r < 300.
Proof.
  intros Hh. rewrite <- is2xx_range, doHubRequest_cases. cbv zeta. rewrite Hh.
  destruct (is2xx r) eqn:H2; [split; auto|].
  split; [|discriminate].
  destruct (statusCode r =? 401); [|discriminate].
  destruct (refreshOAuthToken E token) as [t|e]; [|discriminate].
  cbv zeta.
  destruct (hub E (hubPosts w ++ [{| bearer := token; payload := hubParams |}])
              {| bearer := t; payload := hubParams |}) as [r2|e2]; [|discriminate].
  intros H. exfalso. apply (f_equal (fun x => length (hubPosts (snd x)))) in H.
  cbn in H. rewrite !length_app in H. cbn in H. lia.
Qed.

(** X2: a failure of a collaborator ends the request with that very
    failure: a post that the transport rejects, at the first or at the second
    attempt, and a token refresh that rejects, after which no second post is
    made. *)
Theorem collaborator_failure_propagates w :
  let first := {| bearer := token; payload := hubParams |} in
  let run := doHubRequest E webhook hubParams token w in
  (forall e, hub E (hubPosts w) first = Failed e ->
     fst run = Throw e /\ hubPosts (snd run) = hubPosts w ++ [first])
  /\ (forall r e, hub E (hubPosts w) first = Resolved r -> statusCode r = 401 ->
        refreshOAuthToken E token = Throw e ->
        fst run = Throw e /\ hubPosts (snd run) = hubPosts w ++ [first])
  /\ (forall r token' e, hub E (hubPosts w) first = Resolved r -> statusCode r = 401 ->
        refreshOAuthToken E token = Ok token' ->
        hub E (hubPosts w ++ [first]) {| bearer := token'; payload := hubParams |} = Failed e ->
        fst run = Throw e
        /\ hubPosts (snd run)
           = hubPosts w ++ [first; {| bearer := token'; payload := hubParams |}]).
Proof.
  cbv zeta. rewrite doHubRequest_cases. cbv zeta. split; [|split].
  - intros e He. rewrite He. auto.
  - intros r e Hr Hs Hf. rewrite Hr, (not_2xx_401 r Hs), Hs, Hf. auto.
  - intros r t e Hr Hs Hf He. rewrite Hr, (not_2xx_401 r Hs), Hs, Hf. cbv zeta.
    rewrite He. cbn. rewrite <- app_assoc. auto.
Qed.

End HubProtocolMore.

Lemma first_answer_accepted_in_200_299_witness :
  let hp := hubParamsOf (Sample.env []) Sample.stream5 true in
  let run codes := doHubRequest (Sample.env codes) Sample.stream5 hp "token" Inbound.world in
  fst (run [299]) = Ok tt
  /\ fst (run [300]) = Throw (HubRequestError "HubError" {| statusCode := 300; body := "" |})
  /\ fst (run [0]) = Throw (HubRequestError "HubError" {| statusCode := 0; body := "" |}).
Proof.
  intros hp run. split; [|split].
  - pose proof (first_answer_accepted_in_200_299 (Sample.env [299]) Sample.stream5 hp "token"
                  Inbound.world {| statusCode := 299; body := "" |} eq_refl) as [_ H].
    unfold run. rewrite H; [reflexivity|cbn; lia].
  - vm_compute. reflexivity.
  - vm_compute. reflexivity.
Defined.

Lemma collaborator_failure_propagates_witness :
  let down := Rejection "ETIMEDOUT" in
  let unauthorized := Resolved {| statusCode := 401; body := "" |} in
  let hp := hubParamsOf deadHub Sample.stream5 true in
  fst (doHubRequest (flaky [Failed down]) Sample.stream5 hp "app" Inbound.world) = Throw down
  /\ (fst (doHubRequest deadHub Sample.stream5 hp "app" Inbound.world)
      = Throw (Rejection "refresh failed")
      /\ length (hubPosts (snd (doHubRequest deadHub Sample.stream5 hp "app" Inbound.world)))
         = 1%nat)
  /\ fst (doHubRequest (flaky [unauthorized; Failed down]) Sample.stream5 hp "app"
            Inbound.world) = Throw down.
Proof.
  intros down unauthorized hp. split; [|split].
  - destruct (collaborator_failure_propagates (flaky [Failed down]) Sample.stream5 hp "app"
                Inbound.world) as (H & _).
    apply (H down). reflexivity.
  - destruct (collaborator_failure_propagates deadHub Sample.stream5 hp "app" Inbound.world)
      as (_ & H & _).
    destruct (H {| statusCode := 401; body := "expired" |} (Rejection "refresh failed")
                eq_refl eq_refl eq_refl) as [H1 H2].
    split; [exact H1|]. rewrite H2. reflexivity.
  - destruct (collaborator_failure_propagates (flaky [unauthorized; Failed down])
                Sample.stream5 hp "app" Inbound.world) as (_ & _ & H).
    apply (H {| statusCode := 401; body := "" |} "app'" down); reflexivity.
Defined.

Section ChangeSubMore.

Variable E : Env.

(** X3: every post of one [changeSub] carries the same body: the
    callback URL, topic, lease seconds and secret of the record and the mode
    asked for.  A retry changes the token only. *)
Theorem posts_carry_the_record webhook subscribe userId w :
  exists posts,
    hubPosts (snd (changeSub E webhook subscribe userId w)) = hubPosts w ++ posts
    /\ (length posts <= 2)%nat
    /\ Forall (fun p => payload p = hubParamsOf E webhook subscribe) posts
    /\ hub_secret (hubParamsOf E webhook subscribe) = secret webhook
    /\ hub_topic (hubParamsOf E webhook subscribe) = href webhook
    /\ hub_lease_seconds (hubParamsOf E webhook subscribe) = leaseSeconds webhook
    /\ hub_callback (hubParamsOf E webhook subscribe) = getCallbackUrl E webhook
    /\ hub_mode (hubParamsOf E webhook subscribe)
       = if subscribe then "subscribe" else "unsubscribe".
Proof.
  rewrite changeSub_cases.
  destruct (getOAuthToken E userId) as [token|e].
  - rewrite doHubRequest_cases. cbv zeta.
    set (hp := hubParamsOf E webhook subscribe).
    destruct (hub E (hubPosts w) _) as [r|e].
    + destruct (is2xx r).
      { exists [{| bearer := token; payload := hp |}]. cbn. repeat split; auto. }
      destruct (statusCode r =? 401).
      2:{ exists [{| bearer := token; payload := hp |}]. cbn. repeat split; auto. }
      destruct (refreshOAuthToken E token) as [t|e].
      2:{ exists [{| bearer := token; payload := hp |}]. cbn. repeat split; auto. }
      exists [{| bearer := token; payload := hp |}; {| bearer := t; payload := hp |}].
      destruct (hub E _ _); cbn; rewrite <- app_assoc; repeat split; auto.
    + exists [{| bearer := token; payload := hp |}]. cbn. repeat split; auto.
  - exists []. cbn. rewrite app_nil_r. repeat split; auto.
Qed.

(** X4: [changeSub] talks to the token service and the hub only: the
    store, the scheduler, the events and the listeners stay as they were; and
    when no token can be had, nothing is posted and the rejection of the
    token service is thrown. *)
Theorem changeSub_only_posts webhook subscribe userId w :
  let run := changeSub E webhook subscribe userId w in
  (store (snd run) = store w /\ storeOps (snd run) = storeOps w
   /\ renewalScheduler (snd run) = renewalScheduler w
   /\ emitted (snd run) = emitted w /\ waiters (snd run) = waiters w)
  /\ (forall e, getOAuthToken E userId = Throw e -> run = (Throw e, w)).
Proof.
  cbv zeta. split.
  - apply changeSub_frame.
  - intros e He. rewrite changeSub_cases, He. reflexivity.
Qed.

End ChangeSubMore.

Lemma changeSub_only_posts_witness :
  changeSub deadHub Sample.stream5 true (Some "5") Inbound.world
  = (Throw (Rejection "no token for users"), Inbound.world).
Proof.
  destruct (changeSub_only_posts deadHub Sample.stream5 true (Some "5") Inbound.world)
    as [_ H].
  apply H. reflexivity.
Defined.

(** ** The caller operations beyond the settled cases *)

Section OperationsMore.

Variable E : Env.

(** X5: [resubscribe] on an id that is not stored throws the not-found
    error and changes nothing; on a stored id it writes nothing to the store,
    emits nothing, leaves the scheduler alone, asks for the token without a
    user id and posts with mode [subscribe]. *)
Theorem resubscribe_renews_without_writing webhookId w :
  (store w !! webhookId = None ->
     resubscribe E webhookId w = (Throw (notFound webhookId), w))
  /\ (forall webhook, store w !! webhookId = Some webhook ->
        let run := resubscribe E webhookId w in
        store (snd run) = store w /\ storeOps (snd run) = storeOps w
        /\ emitted (snd run) = emitted w
        /\ renewalScheduler (snd run) = renewalScheduler w
        /\ (forall token, getOAuthToken E None = Ok token ->
              exists rest,
                hubPosts (snd run)
                = hubPosts w
                  ++ {| bearer := token; payload := hubParamsOf E webhook true |} :: rest)
        /\ hub_mode (hubParamsOf E webhook true) = "subscribe").
Proof.
  split.
  - intros H. unfold resubscribe, bind, getWebhookById. rewrite H. reflexivity.
  - intros webhook H. cbv zeta. rewrite (resubscribe_found E _ _ _ H).
    pose proof (changeSub_frame E webhook true None w) as (Hs & Ho & Hr & He & _).
    repeat split; try assumption.
    intros token Ht. rewrite changeSub_cases, Ht. apply doHubRequest_first_post.
Qed.

(** X6: when the hub request of a first subscription fails, the call
    throws that failure and the record it inserted stays in the store; the
    same call made again finds the record, returns its id and posts nothing. *)
Theorem failed_subscribe_leaves_record ty params config user w e :
  let webhook := createWebhookPersistenceObject E ty params config in
  let subscribe := subscribeOrGetSubscription E ty params config user in
  store w !! id webhook = None ->
  fst (changeSub E webhook true user
         (with_store (insert (id webhook) webhook) (Persist (id webhook)) w)) = Throw e ->
  fst (subscribe w) = Throw e
  /\ store (snd (subscribe w)) !! id webhook = Some webhook
  /\ fst (subscribe (snd (subscribe w))) = Ok (id webhook)
  /\ hubPosts (snd (subscribe (snd (subscribe w)))) = hubPosts (snd (subscribe w))
  /\ storeOps (snd (subscribe (snd (subscribe w)))) = storeOps w ++ [Persist (id webhook)].
Proof.
  cbv zeta. intros Hnew Hfail.
  pose proof (subscribe_rejects E ty params config user w e Hnew Hfail) as Hthrow.
  pose proof (subscribe_new E ty params config user w Hnew) as (Hs & Ho & _).
  cbv zeta in Hs, Ho.
  assert (Hstored : store (snd (subscribeOrGetSubscription E ty params config user w))
                    !! id (createWebhookPersistenceObject E ty params config)
                    = Some (createWebhookPersistenceObject E ty params config)).
  { rewrite Hs. apply lookup_insert_eq. }
  pose proof (subscribe_known E ty params config user _ _ Hstored) as (H1 & _ & H3 & H4).
  cbv zeta in H1, H3, H4.
  split; [exact Hthrow|]. split; [exact Hstored|]. split; [exact H1|].
  split; [exact H4|]. rewrite H3. exact Ho.
Qed.

(** X7: [addUserFollowsSubscription] with neither [to_id] nor
    [from_id], or with both empty, throws before anything is stored or
    posted. *)
Theorem user_follows_needs_an_id config subParams w :
  JS.truthy_opt (UserFollowsSubParams.to_id subParams) = false ->
  JS.truthy_opt (UserFollowsSubParams.from_id subParams) = false ->
  let run := addUserFollowsSubscription E config subParams w in
  fst run = Throw (JsError "to_id or from_id (or both) must be specified!")
  /\ store (snd run) = store w /\ storeOps (snd run) = storeOps w
  /\ hubPosts (snd run) = hubPosts w.
Proof.
  intros Ht Hf. cbv zeta. unfold addUserFollowsSubscription, bind, log, modify, throw.
  cbn. rewrite Ht, Hf. cbn. auto.
Qed.

(** X8: a subscription to the changes of a user is made with the token
    of that user, while its renewal by [resubscribe] asks for the token
    without a user id. *)
Theorem user_token_on_subscribe_only config subParams w :
  let user := UserChangedSubParams.user_id subParams in
  let webhook := createWebhookPersistenceObject E UserChanged [("id", user)] config in
  store w !! id webhook = None ->
  let w1 := snd (addUserChangedSubscription E config subParams w) in
  (forall token, getOAuthToken E (Some user) = Ok token ->
     exists rest,
       hubPosts w1
       = hubPosts w ++ {| bearer := token; payload := hubParamsOf E webhook true |} :: rest)
  /\ (forall e, getOAuthToken E (Some user) = Throw e ->
        fst (addUserChangedSubscription E config subParams w) = Throw e
        /\ hubPosts w1 = hubPosts w)
  /\ (forall token, getOAuthToken E None = Ok token ->
        exists rest,
          hubPosts (snd (resubscribe E (id webhook) w1))
          = hubPosts w1
            ++ {| bearer := token; payload := hubParamsOf E webhook true |} :: rest).
Proof.
  cbv zeta. intros Hnew.
  set (user := UserChangedSubParams.user_id subParams).
  set (webhook := createWebhookPersistenceObject E UserChanged [("id", user)] config).
  set (w0 := with_log (Info, "Adding user changed subscription: user_id: " +:+ user) w).
  assert (Hadd : addUserChangedSubscription E config subParams w
                 = subscribeOrGetSubscription E UserChanged [("id", user)] config (Some user) w0).
  { reflexivity. }
  rewrite Hadd.
  assert (Hnew0 : store w0 !! id webhook = None) by exact Hnew.
  assert (Hrun : subscribeOrGetSubscription E UserChanged [("id", user)] config (Some user) w0
                 = (let (r, w') := changeSub E webhook true (Some user)
                                     (with_store (insert (id webhook) webhook)
                                                 (Persist (id webhook)) w0) in
                    match r with Ok _ => (Ok (id webhook), w') | Throw e => (Throw e, w') end)).
  { unfold subscribeOrGetSubscription, bind, getWebhookById, persistWebhook, modify, ret.
    fold webhook. rewrite Hnew0. reflexivity. }
  split; [|split].
  - intros token Ht. rewrite Hrun, changeSub_cases, Ht.
    destruct (doHubRequest_first_post E webhook (hubParamsOf E webhook true) token
                (with_store (insert (id webhook) webhook) (Persist (id webhook)) w0))
      as [rest Hrest].
    exists rest. destruct (doHubRequest E webhook _ token _) as [[u|e] w']; exact Hrest.
  - intros e He. rewrite Hrun, changeSub_cases, He. auto.
  - intros token Ht.
    pose proof (subscribe_new E UserChanged [("id", user)] config (Some user) w0 Hnew0)
      as (Hs & _). cbv zeta in Hs. fold webhook in Hs.
    assert (Hstored : store (snd (subscribeOrGetSubscription E UserChanged [("id", user)]
                                    config (Some user) w0)) !! id webhook = Some webhook).
    { rewrite Hs. apply lookup_insert_eq. }
    rewrite (resubscribe_found E _ _ _ Hstored), changeSub_cases, Ht.
    apply doHubRequest_first_post.
Qed.

End OperationsMore.

(** ** [init] *)

Lemma forEach_addToScheduler (l : list WebhookPersistenceObject) w :
  let run := forEach l addToScheduler w in
  fst run = Ok tt
  /\ store (snd run) = store w /\ storeOps (snd run) = storeOps w
  /\ hubPosts (snd run) = hubPosts w /\ emitted (snd run) = emitted w
  /\ renewalScheduler (snd run)
     = (fun s => fold_left (fun acc v => {[ id v ]} ∪ acc) l s) <$> renewalScheduler w.
Proof.
  cbv zeta. revert w. induction l as [|v l IH]; intros w.
  - cbn. repeat split. destruct (renewalScheduler w); reflexivity.
  - assert (Hstep : forEach (v :: l) addToScheduler w
                    = forEach l addToScheduler (with_scheduler (fun s => {[ id v ]} ∪ s) w))
      by reflexivity.
    rewrite Hstep.
    destruct (IH (with_scheduler (fun s => {[ id v ]} ∪ s) w)) as (H1 & H2 & H3 & H4 & H5 & H6).
    repeat split; try assumption.
    rewrite H6. cbn. destruct (renewalScheduler w); reflexivity.
Qed.

Lemma fold_scheduled (l : list WebhookPersistenceObject) (s : gset string) k :
  k ∈ fold_left (fun acc v => {[ id v ]} ∪ acc) l s <-> k ∈ s \/ exists v, In v l /\ id v = k.
Proof.
  revert s. induction l as [|v l IH]; intros s; cbn.
  - split; [auto|]. intros [H|(v & [] & _)]. exact H.
  - rewrite IH. rewrite elem_of_union, elem_of_singleton. split.
    + intros [[H|H]|(x & Hx & Hid)]; eauto.
    + intros [H|(x & [Hx|Hx] & Hid)]; subst; eauto.
Qed.

Lemma init_run w :
  (renewalScheduler w = None -> init w = (Ok tt, w))
  /\ (forall s, renewalScheduler w = Some s ->
        fst (init w) = Ok tt
        /\ store (snd (init w)) = store w
        /\ hubPosts (snd (init w)) = hubPosts w
        /\ emitted (snd (init w)) = emitted w
        /\ exists s', renewalScheduler (snd (init w)) = Some s'
             /\ forall k, k ∈ s' <->
                  k ∈ s \/ exists key v, store w !! key = Some v /\ id v = k).
Proof.
  split.
  - intros H. unfold init, bind, hasScheduler. rewrite H. reflexivity.
  - intros s H. unfold init, bind, hasScheduler, log, modify, getAllWebhooks. rewrite H. cbn.
    set (l := map snd (map_to_list (store w))).
    set (w0 := with_log _ (with_log _ w)).
    destruct (forEach_addToScheduler l w0) as (H1 & H2 & _ & H4 & H5 & H6).
    destruct (forEach l addToScheduler w0) as [[u|e] w1]; cbn in *; [|discriminate].
    repeat split; try assumption.
    rewrite H in H6. cbn in H6. eexists. split; [exact H6|].
    intros k. rewrite fold_scheduled. split.
    + intros [Hk|(v & Hv & Hid)]; [auto|]. right.
      apply in_map_iff in Hv as ([key v'] & Heq & Hin). cbn in Heq. subst v'.
      exists key, v. split; [|assumption].
      apply elem_of_map_to_list. apply list_elem_of_In. exact Hin.
    + intros [Hk|(key & v & Hv & Hid)]; [auto|]. right. exists v. split; [|assumption].
      apply in_map_iff. exists (key, v). split; [reflexivity|].
      apply list_elem_of_In. apply elem_of_map_to_list. exact Hv.
Qed.

(** X9: with a renewal scheduler configured, [init] registers every
    stored record with it and nothing else, without touching the store or
    the hub; with none configured it does nothing at all. *)
Theorem init_schedules_every_record w :
  (renewalScheduler w = None -> init w = (Ok tt, w))
  /\ (forall s, renewalScheduler w = Some s ->
        fst (init w) = Ok tt
        /\ store (snd (init w)) = store w
        /\ hubPosts (snd (init w)) = hubPosts w
        /\ emitted (snd (init w)) = emitted w
        /\ exists s', renewalScheduler (snd (init w)) = Some s'
             /\ forall k, k ∈ s' <->
                  k ∈ s \/ exists key v, store w !! key = Some v /\ id v = k).
Proof. exact (init_run w). Qed.

Lemma init_schedules_every_record_witness :
  store (snd (init Inbound.world)) = store Inbound.world
  /\ exists s', renewalScheduler (snd (init Inbound.world)) = Some s'
       /\ "1?user_id=5" ∈ s' /\ "0?to_id=9" ∉ s'.
Proof.
  destruct (init_schedules_every_record Inbound.world) as [_ H].
  destruct (H ∅ eq_refl) as (_ & Hs & _ & _ & s' & Hs' & Hk).
  split; [exact Hs|]. exists s'. split; [exact Hs'|]. split.
  - apply Hk. right. exists "1?user_id=5", Sample.stream5. split; reflexivity.
  - intros Hin. apply Hk in Hin as [Hin|(key & v & Hv & Hid)].
    + apply not_elem_of_empty in Hin. exact Hin.
    + unfold Inbound.world, Sample.world in Hv. cbn in Hv.
      apply lookup_insert_Some in Hv as [[<- <-]|[_ Hv]]; [discriminate|].
      rewrite lookup_empty in Hv. discriminate.
Defined.

(** ** The GET handler beyond the settled cases *)

Section CallbackMore.

Variable E : Env.

(** X10: a callback whose topic names no stored record is answered
    with 404 and an empty body; the store, the events, the scheduler and the
    hub are left alone. *)
Theorem callback_for_unknown_record ty req w topic query :
  get "hub.topic" (searchParams (originalUrl req)) = Some topic ->
  JS.truthy topic = true ->
  topicSearch E topic = Some query ->
  store w !! getIdFromTypeAndParams E ty query = None ->
  let run := getHandler E ty req w in
  fst run = Ok {| resStatus := 404; resHeaders := []; resBody := None; resEnded := true |}
  /\ store (snd run) = store w /\ storeOps (snd run) = storeOps w
  /\ emitted (snd run) = emitted w
  /\ renewalScheduler (snd run) = renewalScheduler w
  /\ hubPosts (snd run) = hubPosts w.
Proof.
  intros Ht Htt Hq Hr. cbv zeta.
  assert (Hrun : getHandler E ty req w
                 = (Ok {| resStatus := 404; resHeaders := []; resBody := None;
                          resEnded := true |},
                    with_log (LogError, "Got GET for unknown webhook URL: ") w)).
  { unfold getHandler. rewrite Ht. cbn [JS.truthy_opt showNullable]. rewrite Htt.
    cbn [negb]. rewrite Hq. unfold bind at 1. unfold getWebhookById at 1. rewrite Hr.
    reflexivity. }
  rewrite Hrun. cbn. repeat split.
Qed.

(** X11: a callback without [hub.topic], or with an empty one, or with
    one that is no URL, makes the handler throw; no response is written and
    the world stays as it was. *)
Theorem callback_without_topic_throws ty req w :
  (JS.truthy_opt (get "hub.topic" (searchParams (originalUrl req))) = false ->
     getHandler E ty req w = (Throw (JsError "hub.topic not found in search params."), w))
  /\ (forall topic,
        get "hub.topic" (searchParams (originalUrl req)) = Some topic ->
        JS.truthy topic = true -> topicSearch E topic = None ->
        getHandler E ty req w = (Throw (TypeError "Invalid URL"), w)).
Proof.
  split.
  - intros H. unfold getHandler. rewrite H. reflexivity.
  - intros topic Ht Htt Hq. unfold getHandler. rewrite Ht.
    cbn [JS.truthy_opt showNullable]. rewrite Htt. cbn [negb]. rewrite Hq. reflexivity.
Qed.

(** The confirming branch, written out. *)
Lemma getHandler_confirmed_run ty req w webhook mode :
  knownCallback E ty req w webhook ->
  get "hub.mode" (searchParams (originalUrl req)) = Some mode ->
  JS.truthy mode = true -> mode <> "denied" -> mode <> "unsubscribe" ->
  let saved := withLease webhook (JS.newDate (JS.Int (clock E (clockReads w))))
                 (leaseEnd E w webhook
                    (get "hub.lease_seconds" (searchParams (originalUrl req)))) in
  exists w',
    getHandler E ty req w
    = (Ok (echoChallenge (get "hub.challenge" (searchParams (originalUrl req)))), w')
    /\ store w' = <[ id webhook := saved ]> (store w)
    /\ storeOps w' = storeOps w ++ [Save (id webhook)]
    /\ emitted w' = emitted w ++ [EvSubscribed (id webhook)]
    /\ hubPosts w' = hubPosts w
    /\ renewalScheduler w' = (fun s => {[ id webhook ]} ∪ s) <$> renewalScheduler w.
Proof.
  intros Hk Hmode Htm Hnd Hnu. cbv zeta.
  destruct Hk as (topic & query & Ht & Htt & Hq & Hr & Hid).
  unfold getHandler. rewrite Ht. cbn [JS.truthy_opt showNullable]. rewrite Htt.
  cbn [negb]. rewrite Hq. unfold bind at 1. unfold getWebhookById at 1. rewrite Hr.
  unfold leaseEnd. rewrite Hmode. cbn [JS.truthy_opt JS.strictEqualsOpt]. rewrite Htm.
  unfold JS.strictEquals.
  assert (H1 : String.eqb "denied" mode = false) by (apply String.eqb_neq; congruence).
  assert (H2 : String.eqb "unsubscribe" mode = false) by (apply String.eqb_neq; congruence).
  rewrite H1, H2. cbn [negb orb]. rewrite <- Hid.
  unfold bind, now, saveWebhook, log, emit, modify, hasScheduler, addToScheduler, ret.
  destruct (JS.truthy_opt (get "hub.lease_seconds" (searchParams (originalUrl req))));
    cbn; destruct (renewalScheduler w) as [s|] eqn:Hs; cbn;
    eexists; (split; [reflexivity|]); cbn; rewrite ?Hs; auto 10.
Qed.

(** X12: a confirmation for a stored record echoes the challenge as
    plain text with status 200, saves the record (an update, not an insert)
    as subscribed with its id, type, topic, lease seconds and secret
    unchanged, emits one ['subscribed'] event for the id and registers the id
    with the renewal scheduler, if there is one; the hub is not contacted. *)
Theorem confirmation_marks_subscribed ty req w webhook mode :
  knownCallback E ty req w webhook ->
  get "hub.mode" (searchParams (originalUrl req)) = Some mode ->
  JS.truthy mode = true -> mode <> "denied" -> mode <> "unsubscribe" ->
  let run := getHandler E ty req w in
  fst run
  = Ok {| resStatus := 200; resHeaders := [("Content-Type", "text/plain")];
          resBody := get "hub.challenge" (searchParams (originalUrl req));
          resEnded := true |}
  /\ (exists saved,
        store (snd run) !! id webhook = Some saved
        /\ subscribed saved = true
        /\ id saved = id webhook /\ type saved = type webhook
        /\ href saved = href webhook /\ leaseSeconds saved = leaseSeconds webhook
        /\ secret saved = secret webhook)
  /\ (forall k, k <> id webhook -> store (snd run) !! k = store w !! k)
  /\ storeOps (snd run) = storeOps w ++ [Save (id webhook)]
  /\ emitted (snd run) = emitted w ++ [EvSubscribed (id webhook)]
  /\ hubPosts (snd run) = hubPosts w
  /\ renewalScheduler (snd run) = (fun s => {[ id webhook ]} ∪ s) <$> renewalScheduler w.
Proof.
  intros Hk Hmode Htm Hnd Hnu. cbv zeta.
  destruct (getHandler_confirmed_run ty req w webhook mode Hk Hmode Htm Hnd Hnu)
    as (w' & Hrun & Hs & Ho & He & Hp & Hr).
  rewrite Hrun. cbn [fst snd]. split; [reflexivity|].
  split.
  { eexists. split; [rewrite Hs; apply lookup_insert_eq|]. cbn. auto 10. }
  split.
  { intros k Hne. rewrite Hs. apply lookup_insert_ne. congruence. }
  auto.
Qed.

(** X13: when the hub echoes the lease as a decimal number of seconds,
    the saved record starts at the reading of the clock and ends that many
    seconds later. *)
Theorem echoed_lease_sets_end ty req w webhook mode text seconds :
  knownCallback E ty req w webhook ->
  get "hub.mode" (searchParams (originalUrl req)) = Some mode ->
  JS.truthy mode = true -> mode <> "denied" -> mode <> "unsubscribe" ->
  get "hub.lease_seconds" (searchParams (originalUrl req)) = Some text ->
  JS.truthy text = true -> JS.parseInt text = JS.Int seconds ->
  let T := clock E (clockReads w) in
  Z.abs T <= 8640000000000000 ->
  Z.abs (T + seconds * 1000) <= 8640000000000000 ->
  let saved := store (snd (getHandler E ty req w)) !! id webhook in
  (subscriptionStart <$> saved) = Some (Some (JS.DateAt T))
  /\ (subscriptionEnd <$> saved) = Some (Some (JS.DateAt (T + seconds * 1000))).
Proof.
  intros Hk Hmode Htm Hnd Hnu Hl Htl Hp T HT HT'. cbv zeta.
  destruct (getHandler_confirmed_run ty req w webhook mode Hk Hmode Htm Hnd Hnu)
    as (w' & Hrun & Hs & _).
  rewrite Hrun. cbn [snd]. rewrite Hs, lookup_insert_eq, Hl.
  rewrite (lease_echoed E w webhook text seconds Htl Hp HT HT').
  cbn. unfold JS.newDate. fold T. apply Z.leb_le in HT. rewrite HT. auto.
Qed.

(** X14: when the echoed lease does not begin, after white space and a
    sign, with a digit, [parseInt] gives NaN: the record is still saved as
    subscribed, and its end is an invalid date. *)
Theorem unreadable_lease_gives_invalid_end ty req w webhook mode text :
  knownCallback E ty req w webhook ->
  get "hub.mode" (searchParams (originalUrl req)) = Some mode ->
  JS.truthy mode = true -> mode <> "denied" -> mode <> "unsubscribe" ->
  get "hub.lease_seconds" (searchParams (originalUrl req)) = Some text ->
  JS.truthy text = true -> JS.parseInt text = JS.NaN ->
  let saved := store (snd (getHandler E ty req w)) !! id webhook in
  (subscribed <$> saved) = Some true
  /\ (subscriptionEnd <$> saved) = Some (Some JS.InvalidDate).
Proof.
  intros Hk Hmode Htm Hnd Hnu Hl Htl Hp. cbv zeta.
  destruct (getHandler_confirmed_run ty req w webhook mode Hk Hmode Htm Hnd Hnu)
    as (w' & Hrun & Hs & _).
  rewrite Hrun. cbn [snd]. rewrite Hs, lookup_insert_eq, Hl.
  unfold leaseEnd. cbn [JS.truthy_opt showNullable]. rewrite Htl, Hp.
  cbn. destruct (JS.getTime _); auto.
Qed.

End CallbackMore.

(** ** The signature gate beyond the settled cases *)

(** X16: for a push with a body that has passed the parsing step and
    names a stored record, a signature header with no [=] in it is rejected
    with 400 whatever it holds, the digest itself included. *)
Theorem signature_without_equals_rejected req w webhook signature parsed :
  method req = "POST" ->
  parseBody req = Ok parsed ->
  rawBody req <> "" ->
  header "X-Hub-Signature" req = Some signature ->
  JS.truthy signature = true ->
  occurs "=" signature = false ->
  store w !! callbackId req = Some webhook ->
  fst (verificationMiddleware req w) = Ok (Rejected 400).
Proof.
  intros Hm Hp Hb Hs Ht Hno Hr.
  pose proof (gate_signed req w parsed signature webhook Hp Hm Hs Ht Hr Hb) as Hg.
  cbv zeta in Hg. rewrite Hg. rewrite (split_without "=" signature Hno). reflexivity.
Qed.

(** X17: what follows a second [=] in the header is not looked at: for
    a push with a body that has passed the parsing step and names a stored
    record, a header that continues after the digest with [=] and any text
    passes. *)
Theorem signature_tail_ignored req w webhook prefix tail parsed :
  method req = "POST" ->
  parseBody req = Ok parsed ->
  rawBody req <> "" ->
  store w !! callbackId req = Some webhook ->
  occurs "=" prefix = false ->
  header "X-Hub-Signature" req
  = Some (prefix +:+ "=" +:+ hmacDigest (secret webhook) (rawBody req) +:+ "=" +:+ tail) ->
  fst (verificationMiddleware req w) = Ok (Next parsed).
Proof.
  intros Hm Hp Hb Hr Hpre Hs.
  set (digest := hmacDigest (secret webhook) (rawBody req)) in *.
  assert (Ht : JS.truthy (prefix +:+ "=" +:+ digest +:+ "=" +:+ tail) = true).
  { destruct prefix; reflexivity. }
  pose proof (gate_signed req w parsed _ webhook Hp Hm Hs Ht Hr Hb) as Hg.
  cbv zeta in Hg. rewrite Hg. clear Hg. fold digest.
  change ("=" +:+ digest +:+ "=" +:+ tail) with (String "=" (digest +:+ String "=" tail)).
  rewrite split_at_first by assumption.
  rewrite split_at_first by apply hex_without_equals.
  cbn [lookup list_lookup JS.strictEqualsOpt]. unfold JS.strictEquals.
  rewrite String.eqb_refl. reflexivity.
Qed.

Lemma gate_frame req w :
  let w' := snd (verificationMiddleware req w) in
  store w' = store w /\ storeOps w' = storeOps w
  /\ renewalScheduler w' = renewalScheduler w /\ hubPosts w' = hubPosts w
  /\ emitted w' = emitted w /\ waiters w' = waiters w /\ unhandled w' = unhandled w.
Proof.
  cbv zeta. unfold verificationMiddleware, bind, lift, getWebhookById, log, modify, ret.
  destruct (parseBody req) as [parsed|e]; [|cbn; auto 10].
  destruct (String.eqb (method req) "POST"); [|cbn; auto 10].
  destruct (header "X-Hub-Signature" req) as [signature|]; [|cbn; auto 10].
  destruct (JS.truthy signature); [|cbn; auto 10].
  destruct (store w !! callbackId req) as [webhook|]; [|cbn; auto 10].
  destruct (JS.truthy (rawBody req)); [|cbn; auto 10].
  cbn. destruct (JS.strictEqualsOpt _ _); cbn; auto 10.
Qed.

(** X18: the middleware reads the store and writes only to the log:
    whatever the request, the store, the scheduler, the posts, the events
    and the listeners are as before. *)
Theorem gate_writes_nothing req w :
  let w' := snd (verificationMiddleware req w) in
  store w' = store w /\ storeOps w' = storeOps w
  /\ renewalScheduler w' = renewalScheduler w /\ hubPosts w' = hubPosts w
  /\ emitted w' = emitted w /\ waiters w' = waiters w /\ unhandled w' = unhandled w.
Proof. exact (gate_frame req w). Qed.

(** ** [unsubFromAll] beyond the empty store *)

Lemma deliver_app ks1 ks2 wt : deliver (ks1 ++ ks2) wt = deliver ks2 (deliver ks1 wt).
Proof. unfold deliver. apply fold_left_app. Qed.

(** X19: the listener of [unsubFromAll] has called [resolve] after a
    run of ['unsubscribed'] events exactly when the run is not empty and
    holds every id the listener was set up with. *)
Theorem listener_resolves_iff ids ks :
  resolved (deliver ks {| webhookIds := ids; resolved := false |}) = true
  <-> ks <> [] /\ forall k, In k ids -> In k ks.
Proof.
  split.
  - intros H. apply deliver_resolved in H as [H|[Hne H]]; [discriminate|].
    split; [assumption|]. intros k Hk.
    rewrite deliver_remaining in H. cbn in H.
    destruct (existsb (String.eqb k) ks) eqn:He.
    + apply existsb_exists in He as (y & Hy & Heq). apply String.eqb_eq in Heq. congruence.
    + assert (Hin : In k (List.filter (fun x => negb (existsb (String.eqb x) ks)) ids)).
      { apply filter_In. rewrite He. auto. }
      rewrite H in Hin. destruct Hin.
  - intros [Hne Hall].
    destruct (exists_last Hne) as (ks' & k & ->).
    rewrite deliver_app. cbn. apply orb_true_iff. right.
    apply Nat.eqb_eq, length_zero_iff_nil.
    change (webhookIds (deliver [k] (deliver ks' {| webhookIds := ids; resolved := false |})) = []).
    rewrite <- deliver_app, deliver_remaining. cbn.
    induction ids as [|i ids IH]; [reflexivity|]. cbn.
    assert (Hi : existsb (String.eqb i) (ks' ++ [k]) = true).
    { apply existsb_exists. exists i. split; [apply Hall; left; reflexivity|].
      apply String.eqb_refl. }
    rewrite Hi. cbn. apply IH. intros x Hx. apply Hall. right. exact Hx.
Qed.

Section UnsubFromAllMore.

Variable E : Env.

Lemma forEach_invariant {A} (f : A -> M unit) (I : World -> World -> Prop) :
  (forall w, I w w) ->
  (forall a b c, I a b -> I b c -> I a c) ->
  (forall a w, I w (snd (f a w))) ->
  forall l w, I w (snd (forEach l f w)).
Proof.
  intros Hrefl Htrans Hf l. induction l as [|a l IH]; intros w; [apply Hrefl|].
  assert (Hstep : forEach (a :: l) f w
                  = match f a w with
                    | (Ok _, w') => forEach l f w'
                    | (Throw e, w') => (Throw e, w')
                    end) by reflexivity.
  rewrite Hstep. specialize (Hf a w).
  destruct (f a w) as [[u|e] w1]; cbn [snd] in *.
  - apply (Htrans _ _ _ Hf (IH w1)).
  - exact Hf.
Qed.

Lemma forEach_unsubscribe_frame (l : list WebhookPersistenceObject) w :
  let run :=
    forEach l (fun webhook =>
      catch (unsubscribePersistenceObject E webhook)
            (fun e => log LogError ("Error while unsubscribing from: " +:+ id webhook))) w in
  store (snd run) = store w /\ storeOps (snd run) = storeOps w
  /\ emitted (snd run) = emitted w /\ waiters (snd run) = waiters w
  /\ unhandled (snd run) = unhandled w.
Proof.
  cbv zeta.
  apply (forEach_invariant _
           (fun a b => store b = store a /\ storeOps b = storeOps a
                       /\ emitted b = emitted a /\ waiters b = waiters a
                       /\ unhandled b = unhandled a)).
  - auto.
  - intros a b c (A1 & A2 & A3 & A4 & A5) (B1 & B2 & B3 & B4 & B5).
    rewrite B1, B2, B3, B4, B5. auto.
  - intros v w0. unfold catch.
    pose proof (unsubscribePersistenceObject_frame E v w0) as (H1 & H2 & H3 & H4 & H5).
    destruct (unsubscribePersistenceObject E v w0) as [[u|e] w1]; cbn in *; auto.
Qed.

Lemma unsubFromAll_frame w :
  let run := unsubFromAll E w in
  fst run = Ok (length (waiters w))
  /\ waiters (snd run)
     = waiters w
       ++ [{| webhookIds := map id (map snd (map_to_list (store w))); resolved := false |}]
  /\ store (snd run) = store w /\ storeOps (snd run) = storeOps w
  /\ emitted (snd run) = emitted w
  /\ unhandled (snd run) = unhandled w.
Proof.
  cbv zeta. split; [apply unsubFromAll_returns_listener|].
  unfold unsubFromAll, bind, log, modify, getAllWebhooks, registerWaiter. cbn.
  set (l := map snd (map_to_list (store w))).
  set (w1 := with_waiter _ _).
  pose proof (forEach_unsubscribe_frame l w1) as (H1 & H2 & H3 & H4 & H5).
  cbv zeta in H1, H2, H3, H4, H5.
  destruct (forEach l _ w1) as [[u|e] w2]; cbn in *; auto 10.
Qed.


(** X21: with one record in the store, the promise of [unsubFromAll]
    is pending after the call and settled once the hub's confirmation of
    the unsubscription has been handled, which also empties the store. *)
Theorem confirmation_settles_unsubFromAll w webhook ty req :
  store w = {[ id webhook := webhook ]} ->
  let w1 := snd (unsubFromAll E w) in
  let finalPromise := length (waiters w) in
  knownCallback E ty req w1 webhook ->
  get "hub.mode" (searchParams (originalUrl req)) = Some "unsubscribe" ->
  let w2 := snd (getHandler E ty req w1) in
  settled finalPromise w1 = false
  /\ settled finalPromise w2 = true
  /\ store w2 = ∅.
Proof.
  intros Hstore. cbv zeta. intros Hk Hmode.
  destruct (unsubFromAll_frame w) as (_ & Hw & Hs & _).
  cbv zeta in Hw, Hs. rewrite Hstore, map_to_list_singleton in Hw. cbn [map snd] in Hw.
  rewrite (getHandler_unsubscribed E ty req _ webhook Hk Hmode). cbn [snd].
  unfold settled. cbn [waiters with_event with_log with_store store].
  rewrite Hw, Hs, Hstore. rewrite map_app. cbn [map].
  rewrite !list_lookup_middle by (rewrite ?length_map; reflexivity).
  split; [reflexivity|]. split.
  - cbn. rewrite String.eqb_refl. reflexivity.
  - apply delete_singleton_eq.
Qed.

End UnsubFromAllMore.

(** ** The store keeps its shape under every operation *)

(** X22: if every record is stored under its own id, that is still so
    after any call of the manager: subscribing, unsubscribing,
    resubscribing, the bulk unsubscription, [init], the middleware and the
    GET handler. *)
Theorem operations_keep_store_consistent (E : Env) w :
  storeConsistent w ->
  (forall ty params config user,
     storeConsistent (snd (subscribeOrGetSubscription E ty params config user w)))
  /\ (forall webhookId, storeConsistent (snd (unsubscribe E webhookId w)))
  /\ (forall webhookId, storeConsistent (snd (resubscribe E webhookId w)))
  /\ storeConsistent (snd (unsubFromAll E w))
  /\ storeConsistent (snd (init w))
  /\ (forall req, storeConsistent (snd (verificationMiddleware req w)))
  /\ (forall ty req, storeConsistent (snd (getHandler E ty req w))).
Proof.
  intros Hc.
  split; [|split; [|split; [|split; [|split; [|split]]]]].
  - intros ty params config user. apply subscribe_consistent. exact Hc.
  - intros k. unfold storeConsistent. destruct (store w !! k) as [webhook|] eqn:Hl.
    + rewrite (unsubscribe_found E _ _ _ Hl). unfold detach.
      pose proof (unsubscribePersistenceObject_frame E webhook w) as (Hs & _).
      destruct (unsubscribePersistenceObject E webhook w) as [[u|e] w1]; cbn in *;
        rewrite Hs; exact Hc.
    + unfold unsubscribe, bind, getWebhookById. rewrite Hl. exact Hc.
  - intros k. unfold storeConsistent. destruct (store w !! k) as [webhook|] eqn:Hl.
    + rewrite (resubscribe_found E _ _ _ Hl).
      destruct (changeSub_frame E webhook true None w) as (Hs & _). rewrite Hs. exact Hc.
    + unfold resubscribe, bind, getWebhookById. rewrite Hl. exact Hc.
  - unfold storeConsistent.
    destruct (unsubFromAll_frame E w) as (_ & _ & Hs & _).
    cbv zeta in Hs. rewrite Hs. exact Hc.
  - unfold storeConsistent. destruct (init_run w) as [Hnone Hsome].
    destruct (renewalScheduler w) as [s|] eqn:Hsch.
    + destruct (Hsome s eq_refl) as (_ & Hs & _). rewrite Hs. exact Hc.
    + rewrite (Hnone eq_refl). exact Hc.
  - intros req. unfold storeConsistent.
    destruct (gate_frame req w) as (Hs & _). cbv zeta in Hs.
    rewrite Hs. exact Hc.
  - intros ty req. apply getHandler_consistent. exact Hc.
Qed.

(** X15: once the body has been parsed, the middleware sorts every
    request: anything but a POST goes on unchecked; a POST without the
    header, or with an empty one, gets 400; one for an unknown record 404;
    one whose record is found and that carries a body goes on if the digests
    agree and gets 400 if not; one whose record is found and that carries no
    body throws and is left unanswered. *)
Theorem parsed_requests_are_sorted req w parsed :
  parseBody req = Ok parsed ->
  (String.eqb (method req) "POST" = false ->
     verificationMiddleware req w = (Ok (Next parsed), w))
  /\ (method req = "POST" -> JS.truthy_opt (header "X-Hub-Signature" req) = false ->
        fst (verificationMiddleware req w) = Ok (Rejected 400))
  /\ (method req = "POST" -> JS.truthy_opt (header "X-Hub-Signature" req) = true ->
        store w !! callbackId req = None ->
        fst (verificationMiddleware req w) = Ok (Rejected 404))
  /\ (forall signature webhook,
        method req = "POST" -> header "X-Hub-Signature" req = Some signature ->
        JS.truthy signature = true -> store w !! callbackId req = Some webhook ->
        rawBody req <> "" ->
        fst (verificationMiddleware req w)
        = if JS.strictEqualsOpt (hmacDigest (secret webhook) (rawBody req))
                                (JS.split "=" signature !! 1%nat)
          then Ok (Next parsed) else Ok (Rejected 400))
  /\ (forall webhook,
        method req = "POST" -> JS.truthy_opt (header "X-Hub-Signature" req) = true ->
        store w !! callbackId req = Some webhook ->
        rawBody req = "" ->
        verificationMiddleware req w = (Throw invalidData, w)).
Proof. exact (gate_classification req w parsed). Qed.

(** ** The POST handler *)

Example member_reads_escapes :
  member "data" [("data", JSON.JNull); ("other", JSON.JBool true)] = Some JSON.JNull
  /\ member "data" [("data", JSON.JNull); ("data", JSON.JBool true)] = Some (JSON.JBool true)
  /\ member "data" [("Data", JSON.JNull)] = None.
Proof. repeat split; reflexivity. Qed.

Example firstDatum_shapes :
  (firstDatum <$> JSON.parse Inbound.streamBody)
  = Some (Ok (Element (JSON.JObject [("id", JSON.JString "1"); ("user_id", JSON.JString "5");
                                     ("type", JSON.JString "live")])))
  /\ (firstDatum <$> JSON.parse "{}")
     = Some (Throw (TypeError "Cannot read property '0' of undefined"))
  /\ (firstDatum <$> JSON.parse "[1]")
     = Some (Throw (TypeError "Cannot read property '0' of undefined")).
Proof. repeat split; vm_compute; reflexivity. Qed.

Section PushMore.

Variable E : Env.
Variables Data SubParams : Type.
Variable convertPayload : WebhookType -> Datum -> Result Data.
Variable getWebhookParamsFromId : WebhookType -> WebhookId -> Result SubParams.

Let handle := postHandler E Data SubParams convertPayload getWebhookParamsFromId.

(** X23: a push for an id that is not stored sets status 404 but never
    ends the response, and emits nothing; the store is left alone. *)
Theorem push_for_unknown_record_left_open ty req body w :
  store w !! getIdFromTypeAndParams E ty (search (originalUrl req)) = None ->
  let out := fst (handle ty req body w) in
  resStatus (pushRes out) = 404
  /\ resEnded (pushRes out) = false
  /\ pushEvents out = []
  /\ pushError out = None
  /\ store (snd (handle ty req body w)) = store w
  /\ emitted (snd (handle ty req body w)) = emitted w.
Proof.
  intros H. cbv zeta. unfold handle, postHandler. rewrite H. cbn. repeat split.
Qed.

(** X24: a push for a stored id is answered with 200 and an empty body
    before its payload is looked at, so also when decoding it fails.  Either
    the handler threw and no event was emitted, or it emitted two events
    with one payload of the handler's type: ['message'] first, then the
    event named after the type.  The store is left alone. *)
Theorem push_answered_before_decoding ty req body w webhook :
  store w !! getIdFromTypeAndParams E ty (search (originalUrl req)) = Some webhook ->
  let out := fst (handle ty req body w) in
  let webhookId := getIdFromTypeAndParams E ty (search (originalUrl req)) in
  pushRes out = {| resStatus := 200; resHeaders := []; resBody := None; resEnded := true |}
  /\ store (snd (handle ty req body w)) = store w
  /\ emitted (snd (handle ty req body w)) = emitted w
  /\ ((exists e, pushError out = Some e /\ pushEvents out = [])
      \/ (pushError out = None
          /\ exists payload,
               payloadType payload = ty
               /\ pushEvents out
                  = [ {| eventName := "message"; eventId := webhookId;
                         eventPayload := payload |};
                      {| eventName := specificEvent ty; eventId := webhookId;
                         eventPayload := payload |} ])).
Proof.
  intros H. cbv zeta. unfold handle, postHandler. rewrite H.
  destruct (firstDatum body) as [datum|e]; [|cbn; repeat split; eauto].
  destruct (convertPayload ty datum) as [data|e]; [|cbn; repeat split; eauto].
  destruct (getWebhookParamsFromId ty _) as [sub|e]; [|cbn; repeat split; eauto].
  cbn. repeat split. right. split; [reflexivity|].
  eexists. split; [|reflexivity]. reflexivity.
Qed.

(** X25: a push whose parsed body is not an object with a [data]
    member makes the handler throw a [TypeError] after the 200 has been
    sent, whatever [convertPayload] would do; no event is emitted. *)
Theorem push_without_data_throws ty req body w webhook :
  store w !! getIdFromTypeAndParams E ty (search (originalUrl req)) = Some webhook ->
  match body with
  | JSON.JObject members => member "data" members = None
  | _ => True
  end ->
  fst (handle ty req body w)
  = {| pushRes := {| resStatus := 200; resHeaders := []; resBody := None; resEnded := true |};
       pushEvents := [];
       pushError := Some (TypeError "Cannot read property '0' of undefined") |}.
Proof.
  intros H Hb. unfold handle, postHandler. rewrite H.
  assert (Hd : firstDatum body = Throw (TypeError "Cannot read property '0' of undefined")).
  { unfold firstDatum. destruct body; try reflexivity. rewrite Hb. reflexivity. }
  rewrite Hd. reflexivity.
Qed.

End PushMore.

(** ** The further properties at work on the sample hub *)

Lemma resubscribe_renews_without_writing_witness :
  let E := flaky [] in
  let run := resubscribe E "1?user_id=5" Inbound.world in
  resubscribe E "0?to_id=9" Inbound.world = (Throw (notFound "0?to_id=9"), Inbound.world)
  /\ store (snd run) = store Inbound.world
  /\ emitted (snd run) = []
  /\ exists rest,
       hubPosts (snd run)
       = hubPosts Inbound.world
         ++ {| bearer := "app"; payload := hubParamsOf E Sample.stream5 true |} :: rest.
Proof.
  intros E run.
  destruct (resubscribe_renews_without_writing E "0?to_id=9" Inbound.world) as [H0 _].
  destruct (resubscribe_renews_without_writing E "1?user_id=5" Inbound.world) as [_ H1].
  destruct (H1 Sample.stream5 ltac:(vm_compute; reflexivity)) as (Hs & _ & He & _ & Hp & _).
  split; [apply H0; vm_compute; reflexivity|].
  split; [exact Hs|]. split; [exact He|]. exact (Hp "app" eq_refl).
Defined.

Lemma failed_subscribe_leaves_record_witness :
  let E := flaky [Resolved {| statusCode := 500; body := "" |}] in
  let subscribe :=
    subscribeOrGetSubscription E StreamChanged [("user_id", "5")] (864000 : Z) None in
  let w1 := snd (subscribe (Sample.world [])) in
  fst (subscribe (Sample.world []))
  = Throw (HubRequestError "HubError" {| statusCode := 500; body := "" |})
  /\ store w1 !! "1?user_id=5" = Some Sample.stream5
  /\ fst (subscribe w1) = Ok "1?user_id=5"
  /\ hubPosts (snd (subscribe w1)) = hubPosts w1.
Proof.
  intros E subscribe w1.
  destruct (failed_subscribe_leaves_record E StreamChanged [("user_id", "5")] (864000 : Z) None
              (Sample.world [])
              (HubRequestError "HubError" {| statusCode := 500; body := "" |}))
    as (H1 & H2 & H3 & H4 & _).
  - vm_compute. reflexivity.
  - vm_compute. reflexivity.
  - split; [exact H1|]. split; [exact H2|]. split; [exact H3|exact H4].
Defined.

Lemma user_follows_needs_an_id_witness :
  let nobody := {| UserFollowsSubParams.to_id := None; UserFollowsSubParams.from_id := Some "" |} in
  let run := addUserFollowsSubscription (Sample.env []) (864000 : Z) nobody (Sample.world []) in
  fst run = Throw (JsError "to_id or from_id (or both) must be specified!")
  /\ store (snd run) = store (Sample.world [])
  /\ hubPosts (snd run) = [].
Proof.
  intros nobody run.
  destruct (user_follows_needs_an_id (Sample.env []) (864000 : Z) nobody (Sample.world [])
              eq_refl eq_refl) as (H1 & H2 & _ & H4).
  split; [exact H1|]. split; [exact H2|exact H4].
Defined.

Lemma user_token_on_subscribe_only_witness :
  let E := flaky [] in
  let user7 := {| UserChangedSubParams.user_id := "7" |} in
  let webhook := Sample.create UserChanged [("id", "7")] 864000 in
  let w1 := snd (addUserChangedSubscription E (864000 : Z) user7 (Sample.world [])) in
  (exists rest,
     hubPosts w1 = {| bearer := "user-7"; payload := hubParamsOf E webhook true |} :: rest)
  /\ (exists rest,
        hubPosts (snd (resubscribe E "2?id=7" w1))
        = hubPosts w1 ++ {| bearer := "app"; payload := hubParamsOf E webhook true |} :: rest).
Proof.
  intros E user7 webhook w1.
  destruct (user_token_on_subscribe_only E (864000 : Z) user7 (Sample.world [])
              ltac:(vm_compute; reflexivity)) as (H1 & _ & H3).
  split; [exact (H1 "user-7" eq_refl)|exact (H3 "app" eq_refl)].
Defined.

Lemma callback_for_unknown_record_witness :
  let run := getHandler (Sample.env []) StreamChanged
               (Inbound.callback [("hub.mode", "subscribe")]) (Sample.world []) in
  fst run = Ok {| resStatus := 404; resHeaders := []; resBody := None; resEnded := true |}
  /\ emitted (snd run) = [].
Proof.
  intros run.
  destruct (callback_for_unknown_record (Sample.env []) StreamChanged
              (Inbound.callback [("hub.mode", "subscribe")]) (Sample.world [])
              "https://api.twitch.tv/helix/streams?user_id=5" "?user_id=5"
              eq_refl eq_refl eq_refl ltac:(vm_compute; reflexivity))
    as (H1 & _ & _ & H4 & _).
  split; [exact H1|exact H4].
Defined.

Lemma callback_without_topic_throws_witness :
  getHandler (Sample.env []) StreamChanged
    {| method := "GET"; headers := []; originalUrl := Inbound.callbackUrl; rawBody := "" |}
    Inbound.world
  = (Throw (JsError "hub.topic not found in search params."), Inbound.world)
  /\ getHandler deadHub StreamChanged (Inbound.callback []) Inbound.world
     = (Throw (TypeError "Invalid URL"), Inbound.world).
Proof.
  split.
  - destruct (callback_without_topic_throws (Sample.env []) StreamChanged
                {| method := "GET"; headers := []; originalUrl := Inbound.callbackUrl;
                   rawBody := "" |} Inbound.world) as [H _].
    apply H. reflexivity.
  - destruct (callback_without_topic_throws deadHub StreamChanged (Inbound.callback [])
                Inbound.world) as [_ H].
    apply (H "https://api.twitch.tv/helix/streams?user_id=5"); reflexivity.
Defined.

Lemma confirmation_marks_subscribed_witness :
  let run := getHandler (Sample.env []) StreamChanged
               (Inbound.callback [("hub.mode", "subscribe"); ("hub.challenge", "abc")])
               Inbound.world in
  fst run = Ok (echoChallenge (Some "abc"))
  /\ (exists saved, store (snd run) !! "1?user_id=5" = Some saved
                    /\ subscribed saved = true /\ secret saved = "s3cret")
  /\ storeOps (snd run) = [Save "1?user_id=5"]
  /\ emitted (snd run) = [EvSubscribed "1?user_id=5"]
  /\ renewalScheduler (snd run) = Some ({[ "1?user_id=5" ]} ∪ ∅).
Proof.
  intros run.
  destruct (confirmation_marks_subscribed (Sample.env []) StreamChanged
              (Inbound.callback [("hub.mode", "subscribe"); ("hub.challenge", "abc")])
              Inbound.world Sample.stream5 "subscribe" (known_stream_callback _)
              eq_refl eq_refl ltac:(discriminate) ltac:(discriminate))
    as (H1 & (saved & Hs & Hsub & _ & _ & _ & _ & Hsec) & _ & H4 & H5 & _ & H7).
  split; [exact H1|]. split; [exists saved; auto|]. split; [exact H4|].
  split; [exact H5|exact H7].
Defined.

Lemma echoed_lease_sets_end_witness :
  let run := getHandler (Sample.env []) StreamChanged
               (Inbound.callback [("hub.mode", "subscribe"); ("hub.lease_seconds", "864000")])
               Inbound.world in
  (subscriptionStart <$> store (snd run) !! "1?user_id=5")
  = Some (Some (JS.DateAt 1600000000000))
  /\ (subscriptionEnd <$> store (snd run) !! "1?user_id=5")
     = Some (Some (JS.DateAt (1600000000000 + 864000 * 1000))).
Proof.
  intros run.
  apply (echoed_lease_sets_end (Sample.env []) StreamChanged
           (Inbound.callback [("hub.mode", "subscribe"); ("hub.lease_seconds", "864000")])
           Inbound.world Sample.stream5 "subscribe" "864000" 864000
           (known_stream_callback _));
    try reflexivity; try discriminate; vm_compute; discriminate.
Defined.

Lemma unreadable_lease_gives_invalid_end_witness :
  let run := getHandler (Sample.env []) StreamChanged
               (Inbound.callback [("hub.mode", "subscribe"); ("hub.lease_seconds", "soon")])
               Inbound.world in
  (subscribed <$> store (snd run) !! "1?user_id=5") = Some true
  /\ (subscriptionEnd <$> store (snd run) !! "1?user_id=5") = Some (Some JS.InvalidDate).
Proof.
  intros run.
  apply (unreadable_lease_gives_invalid_end (Sample.env []) StreamChanged
           (Inbound.callback [("hub.mode", "subscribe"); ("hub.lease_seconds", "soon")])
           Inbound.world Sample.stream5 "subscribe" "soon" (known_stream_callback _));
    try reflexivity; discriminate.
Defined.

Lemma parsed_requests_are_sorted_witness :
  let bodiless :=
    {| method := "POST";
       headers := [("host", "example.org"); ("x-hub-signature", "sha256=00")];
       originalUrl := Inbound.callbackUrl;
       rawBody := "" |} in
  fst (verificationMiddleware (Inbound.push [] Inbound.streamBody) Inbound.world)
  = Ok (Rejected 400)
  /\ fst (verificationMiddleware (Inbound.signed "sha256=00") (Sample.world []))
     = Ok (Rejected 404)
  /\ verificationMiddleware (Inbound.callback []) Inbound.world
     = (Ok (Next None), Inbound.world)
  /\ verificationMiddleware bodiless Inbound.world = (Throw invalidData, Inbound.world).
Proof.
  intros bodiless. split; [|split; [|split]]; [| | |
    destruct (parsed_requests_are_sorted bodiless Inbound.world None eq_refl)
      as (_ & _ & _ & _ & H);
    apply (H Sample.stream5); vm_compute; reflexivity].
  - destruct (parsed_requests_are_sorted (Inbound.push [] Inbound.streamBody) Inbound.world
                (JSON.parse Inbound.streamBody) ltac:(vm_compute; reflexivity))
      as (_ & H & _).
    apply H; reflexivity.
  - destruct (parsed_requests_are_sorted (Inbound.signed "sha256=00") (Sample.world [])
                (JSON.parse Inbound.streamBody) ltac:(vm_compute; reflexivity))
      as (_ & _ & H & _).
    apply H; [reflexivity|reflexivity|vm_compute; reflexivity].
  - destruct (parsed_requests_are_sorted (Inbound.callback []) Inbound.world None eq_refl)
      as (H & _).
    apply H. reflexivity.
Defined.

Lemma signature_without_equals_rejected_witness :
  fst (verificationMiddleware
         (Inbound.signed "7ed3ea21965890cd6f0b4e3d53c869aca766d835908f9280ba24db20239d21f8")
         Inbound.world)
  = Ok (Rejected 400).
Proof.
  apply (signature_without_equals_rejected _ Inbound.world Sample.stream5
           "7ed3ea21965890cd6f0b4e3d53c869aca766d835908f9280ba24db20239d21f8"
           (JSON.parse Inbound.streamBody));
    first [vm_compute; reflexivity | vm_compute; discriminate].
Defined.

Lemma signature_tail_ignored_witness :
  fst (verificationMiddleware
         (Inbound.signed
            "sha256=7ed3ea21965890cd6f0b4e3d53c869aca766d835908f9280ba24db20239d21f8=anything")
         Inbound.world)
  = Ok (Next (JSON.parse Inbound.streamBody)).
Proof.
  apply (signature_tail_ignored _ Inbound.world Sample.stream5 "sha256" "anything");
    first [vm_compute; reflexivity | vm_compute; discriminate].
Defined.

Lemma confirmation_settles_unsubFromAll_witness :
  let E := Sample.env [] in
  let w1 := snd (unsubFromAll E Inbound.world) in
  let w2 := snd (getHandler E StreamChanged
                   (Inbound.callback [("hub.mode", "unsubscribe"); ("hub.challenge", "xyz")])
                   w1) in
  settled 0 w1 = false /\ settled 0 w2 = true /\ store w2 = ∅.
Proof.
  intros E w1 w2.
  apply (confirmation_settles_unsubFromAll E Inbound.world Sample.stream5 StreamChanged
           (Inbound.callback [("hub.mode", "unsubscribe"); ("hub.challenge", "xyz")])).
  - reflexivity.
  - exists "https://api.twitch.tv/helix/streams?user_id=5", "?user_id=5".
    repeat split; vm_compute; reflexivity.
  - reflexivity.
Defined.

Lemma operations_keep_store_consistent_witness :
  storeConsistent (snd (getHandler (Sample.env []) StreamChanged
                          (Inbound.callback [("hub.mode", "subscribe")]) Inbound.world))
  /\ storeConsistent (snd (unsubFromAll (Sample.env []) Inbound.world)).
Proof.
  destruct (operations_keep_store_consistent (Sample.env []) Inbound.world
              sample_world_consistent) as (_ & _ & _ & H4 & _ & _ & H7).
  split; [apply H7|exact H4].
Defined.

Lemma push_for_unknown_record_left_open_witness :
  let out := fst (postHandler (Sample.env []) Datum string (fun _ d => Ok d)
                    (fun _ k => Ok (Sample.dropUntil "?" k))
                    StreamChanged (Inbound.signed "sha256=00") (JSON.JObject [])
                    (Sample.world [])) in
  resStatus (pushRes out) = 404 /\ resEnded (pushRes out) = false /\ pushEvents out = [].
Proof.
  intros out.
  destruct (push_for_unknown_record_left_open (Sample.env []) Datum string (fun _ d => Ok d)
              (fun _ k => Ok (Sample.dropUntil "?" k))
              StreamChanged (Inbound.signed "sha256=00") (JSON.JObject []) (Sample.world [])
              ltac:(vm_compute; reflexivity)) as (H1 & H2 & H3 & _).
  split; [exact H1|]. split; [exact H2|exact H3].
Defined.

Lemma push_answered_before_decoding_witness :
  let handle := postHandler (Sample.env []) Datum string (fun _ d => Ok d)
                  (fun _ k => Ok (Sample.dropUntil "?" k)) StreamChanged
                  (Inbound.signed "sha256=00") in
  pushRes (fst (handle (JSON.JArray []) Inbound.world))
  = {| resStatus := 200; resHeaders := []; resBody := None; resEnded := true |}
  /\ store (snd (handle (JSON.JArray []) Inbound.world)) = store Inbound.world.
Proof.
  intros handle.
  destruct (push_answered_before_decoding (Sample.env []) Datum string (fun _ d => Ok d)
              (fun _ k => Ok (Sample.dropUntil "?" k)) StreamChanged
              (Inbound.signed "sha256=00") (JSON.JArray []) Inbound.world Sample.stream5
              ltac:(vm_compute; reflexivity)) as (H1 & H2 & _).
  split; [exact H1|exact H2].
Defined.

Lemma push_without_data_throws_witness :
  pushError (fst (postHandler (Sample.env []) Datum string (fun _ d => Ok d)
                    (fun _ k => Ok (Sample.dropUntil "?" k)) StreamChanged
                    (Inbound.signed "sha256=00")
                    (JSON.JObject [("total", JSON.JNumber "1")]) Inbound.world))
  = Some (TypeError "Cannot read property '0' of undefined").
Proof.
  rewrite (push_without_data_throws (Sample.env []) Datum string (fun _ d => Ok d)
             (fun _ k => Ok (Sample.dropUntil "?" k)) StreamChanged
             (Inbound.signed "sha256=00") (JSON.JObject [("total", JSON.JNumber "1")])
             Inbound.world Sample.stream5 ltac:(vm_compute; reflexivity) eq_refl).
  reflexivity.
Defined.

(** ** Subscribing, pushes and denials in sequence *)

Section Sequences.

Variable E : Env.

(** X26: as soon as a first subscription has inserted its record, and
    before any confirmation, even when the hub request failed, a push to
    the record's callback that carries a body, has passed the parsing step
    and is signed with the record's secret passes the middleware: the record
    need not be subscribed. *)
Theorem push_passes_for_pending_record ty params config user w req parsed :
  let webhook := createWebhookPersistenceObject E ty params config in
  store w !! id webhook = None ->
  method req = "POST" ->
  parseBody req = Ok parsed ->
  rawBody req <> "" ->
  callbackId req = id webhook ->
  header "X-Hub-Signature" req
  = Some ("sha256=" +:+ hmacDigest (secret webhook) (rawBody req)) ->
  let w1 := snd (subscribeOrGetSubscription E ty params config user w) in
  fst (verificationMiddleware req w1) = Ok (Next parsed).
Proof.
  cbv zeta. intros Hnew Hm Hp Hb Hid Hs.
  pose proof (subscribe_new E ty params config user w Hnew) as (Hstore & _).
  cbv zeta in Hstore.
  set (webhook := createWebhookPersistenceObject E ty params config) in *.
  set (w1 := snd (subscribeOrGetSubscription E ty params config user w)) in *.
  assert (Hr : store w1 !! callbackId req = Some webhook).
  { rewrite Hid, Hstore. apply lookup_insert_eq. }
  pose proof (gate_signed req w1 parsed _ webhook Hp Hm Hs eq_refl Hr Hb) as Hg.
  cbv zeta in Hg. rewrite Hg. clear Hg.
  change ("sha256=" +:+ hmacDigest (secret webhook) (rawBody req))
    with ("sha256" +:+ String "=" (hmacDigest (secret webhook) (rawBody req))).
  rewrite split_at_first by reflexivity.
  rewrite split_without by apply hex_without_equals.
  cbn [lookup list_lookup JS.strictEqualsOpt]. unfold JS.strictEquals.
  rewrite String.eqb_refl. reflexivity.
Qed.

(** X27: after the hub has denied a subscription, a push to its
    callback gets 404 from the middleware, however it is signed. *)
Theorem push_after_denial_not_found ty callback w webhook req parsed :
  knownCallback E ty callback w webhook ->
  JS.truthy_opt (get "hub.mode" (searchParams (originalUrl callback))) = false
  \/ get "hub.mode" (searchParams (originalUrl callback)) = Some "denied" ->
  method req = "POST" ->
  parseBody req = Ok parsed ->
  callbackId req = id webhook ->
  JS.truthy_opt (header "X-Hub-Signature" req) = true ->
  let w1 := snd (getHandler E ty callback w) in
  fst (verificationMiddleware req w1) = Ok (Rejected 404).
Proof.
  intros Hk Hmode Hm Hp Hid Hs. cbv zeta.
  pose proof (getHandler_denied E ty callback w webhook Hk Hmode) as Hrun.
  cbv zeta in Hrun. rewrite Hrun. cbn [snd].
  destruct (header "X-Hub-Signature" req) as [signature|] eqn:Hh; [|discriminate].
  rewrite (gate_unknown_record req _ parsed signature Hp Hm Hh Hs); [reflexivity|].
  cbn. rewrite Hid. apply lookup_delete_eq.
Qed.

End Sequences.

Lemma push_passes_for_pending_record_witness :
  let E := flaky [Resolved {| statusCode := 500; body := "" |}] in
  let w1 := snd (subscribeOrGetSubscription E StreamChanged [("user_id", "5")] (864000 : Z)
                   None (Sample.world [])) in
  (subscribed <$> store w1 !! "1?user_id=5") = Some false
  /\ fst (verificationMiddleware
            (Inbound.signed
               "sha256=7ed3ea21965890cd6f0b4e3d53c869aca766d835908f9280ba24db20239d21f8") w1)
     = Ok (Next (JSON.parse Inbound.streamBody)).
Proof.
  intros E w1. split; [vm_compute; reflexivity|].
  apply (push_passes_for_pending_record E StreamChanged [("user_id", "5")] (864000 : Z) None
           (Sample.world [])); first [vm_compute; reflexivity | vm_compute; discriminate].
Defined.

Lemma push_after_denial_not_found_witness :
  let w1 := snd (getHandler (Sample.env []) StreamChanged
                   (Inbound.callback [("hub.mode", "denied")]) Inbound.world) in
  fst (verificationMiddleware
         (Inbound.signed
            "sha256=7ed3ea21965890cd6f0b4e3d53c869aca766d835908f9280ba24db20239d21f8") w1)
  = Ok (Rejected 404).
Proof.
  intros w1.
  apply (push_after_denial_not_found (Sample.env []) StreamChanged
           (Inbound.callback [("hub.mode", "denied")]) Inbound.world Sample.stream5 _
           (JSON.parse Inbound.streamBody) (known_stream_callback _) (or_intror eq_refl));
    vm_compute; reflexivity.
Defined.
